(** * Registry control plane: publish, edit and status workflows

    A shallow embedding of the registry service
    (internal/service/registry_service.go) and of the status-transition
    validators of the v0 status handlers, with the properties of the
    publish policy, the advisory lock discipline, the version guards and
    the remote-URL uniqueness check. *)

From Stdlib Require Import String Ascii List ZArith Bool Lia.
Import ListNotations.
Open Scope string_scope.
Open Scope Z_scope.

Set Implicit Arguments.

(** ** Data model *)

(** [model.Status] is a Go string type; any string can be converted to it,
    which is why the validator checks membership in the three legal values. *)
Definition Status := string.

(** Modelled from the spec: the three constants of package [model]
    (pkg/model is not part of the sources); their values are the wire
    values [active], [deprecated], [deleted] of the status enum. *)
Definition StatusActive : Status := "active".
Definition StatusDeprecated : Status := "deprecated".
Definition StatusDeleted : Status := "deleted".

(** [time.Time], counted from Go's zero time: the zero value is [0]. *)
Definition Time := Z.
Definition zeroTime : Time := 0.

(** [model.Transport]: one entry of [remotes]. *)
Record Transport := mkTransport {
  Type_ : string;
  URL : string
}.

Record Repository := mkRepository {
  RepoURL : string;
  RepoSource : string;
  RepoID : string
}.

(** [apiv0.ServerJSON]: the descriptor.  The fields are those of the wire
    shape; the service reads [Name], [Version] and [Remotes] only. *)
Record ServerJSON := mkServerJSON {
  Schema : string;
  Name : string;
  Description : string;
  Version : string;
  Repo : Repository;
  Remotes : list Transport
}.

(** [apiv0.RegistryExtensions]: the official registry metadata. *)
Record RegistryExtensions := mkRegistryExtensions {
  Status_ : Status;
  StatusMessage : option string;
  StatusChangedAt : Time;
  PublishedAt : Time;
  UpdatedAt : Time;
  IsLatest : bool
}.

(** [Meta.Official] is a pointer: [None] is the nil pointer. *)
Record ResponseMeta := mkResponseMeta {
  Official : option RegistryExtensions
}.

Record ServerResponse := mkServerResponse {
  Server : ServerJSON;
  Meta : ResponseMeta
}.

(** ** Errors *)

(** Modelled from the spec: the error kinds a store surfaces besides
    not-found (the error values of package database other than the three
    the service names are missing). *)
Inductive StoreErrorKind := Conflict | Invalid | Internal.

(** A Go [error] value.  [None : option error] is the nil error. *)

Inductive error :=
  (* sentinels of package database that the service names *)
  | ErrNotFound
  | ErrMaxServersReached
  | ErrInvalidVersion
  (* the remaining error kinds a store surfaces *)
  | ErrStore (kind : StoreErrorKind)
  (* huma.NewError(status, detail) *)
  | StatusError (status : Z) (detail : string)
  (* errors.New / fmt.Errorf without %w *)
  | Errorf (text : string)
  (* fmt.Errorf("<text>%w", inner) *)
  | Wrapf (text : string) (inner : error).

(** [errors.Is(err, database.ErrNotFound)]: follows the [%w] chain. *)
Fixpoint errors_Is_ErrNotFound (err : error) : bool :=
  match err with
  | ErrNotFound => true
  | Wrapf _ inner => errors_Is_ErrNotFound inner
  | _ => false
  end.

Definition Error400BadRequest (msg : string) : error := StatusError 400 msg.

(** ** Status-transition validator (v0 status handlers) *)

Record UpdateServerStatusBody := mkBody {
  BodyStatus : string;
  BodyStatusMessage : option string
}.

(** The [validStatuses] map literal: a missing key reads as [false]. *)
Definition validStatuses (s : Status) : bool :=
  (s =? StatusActive)%string || (s =? StatusDeprecated)%string
  || (s =? StatusDeleted)%string.

Definition isNil {A} (p : option A) : bool :=
  match p with None => true | Some _ => false end.

(** [messageChanges] of [validateStatusTransition]. *)
Definition messageChanges (currentMessage newMessage : option string) : bool :=
  negb (Bool.eqb (isNil currentMessage) (isNil newMessage))
  || match currentMessage, newMessage with
     | Some c, Some n => negb (c =? n)%string
     | _, _ => false
     end.

Definition validateStatusTransition (currentServer : ServerResponse)
    (newStatus : Status) (body : UpdateServerStatusBody) : option error :=
  if negb (validStatuses newStatus) then
    Some (Error400BadRequest
            ("Invalid status: " ++ newStatus
             ++ ". Must be one of: active, deprecated, deleted"))
  else if (newStatus =? StatusActive)%string
          && negb (isNil body.(BodyStatusMessage)) then
    Some (Error400BadRequest
            "status_message cannot be provided when setting status to active")
  else
    match currentServer.(Meta).(Official) with
    | None => None
    | Some official =>
        let currentStatus := official.(Status_) in
        let currentMessage := official.(StatusMessage) in
        let newMessage := body.(BodyStatusMessage) in
        let statusChanges := negb (currentStatus =? newStatus)%string in
        if statusChanges || messageChanges currentMessage newMessage then None
        else
          Some (Error400BadRequest
                  "No changes to apply: status and message are already set to the provided values")
    end.

(** The loop of [validateBulkStatusTransition]: returns at the first version
    the single-version validator accepts. *)
Fixpoint anyVersionAccepts (versions : list ServerResponse) (newStatus : Status)
    (body : UpdateServerStatusBody) : bool :=
  match versions with
  | [] => false
  | version :: rest =>
      match validateStatusTransition version newStatus body with
      | None => true
      | Some _ => anyVersionAccepts rest newStatus body
      end
  end.

Definition validateBulkStatusTransition (versions : list ServerResponse)
    (newStatus : Status) (body : UpdateServerStatusBody) : option error :=
  match versions with
  | [] => None
  | _ :: _ =>
      if anyVersionAccepts versions newStatus body then None
      else
        Some (Error400BadRequest
                "No changes to apply: all versions already have the requested status and message")
  end.

(** ** The transaction environment

    The service talks to three collaborators whose code lives outside the
    service package: the [database.Database] interface, the validators and
    the clock.  Each call is an operation whose answer the environment
    chooses; a workflow is a tree of such calls. *)

(** [database.ServerFilter]: every field is a pointer, [None] when unset. *)
Record ServerFilter := mkServerFilter {
  FilterName : option string;
  FilterSubstringName : option string;
  FilterVersion : option string;
  FilterRemoteURL : option string;
  FilterIsLatest : option bool;
  FilterUpdatedSince : option Time;
  FilterIncludeDeleted : option bool
}.

Definition emptyFilter : ServerFilter :=
  mkServerFilter None None None None None None None.

(** [service.StatusChangeRequest]. *)
Record StatusChangeRequest := mkStatusChangeRequest {
  NewStatus : Status;
  ChangeStatusMessage : option string
}.

Module db.

(** The operations, indexed by the Go type of their results.  A pointer
    result paired with an error is a pair of options; a slice is a list. *)
Inductive Op : Type -> Type :=
  | ValidatePublishRequest (req : ServerJSON) : Op (option error)
  | ValidateUpdateRequest (req : ServerJSON) (skipRegistryValidation : bool)
      : Op (option error)
  | TimeNow : Op Time
  | AcquirePublishLock (serverName : string) : Op (option error)
  | ListServers (filter : option ServerFilter) (cursor : string) (limit : Z)
      : Op (list ServerResponse * string * option error)
  | GetServerByNameAndVersion (serverName version : string)
      (includeDeleted : bool) : Op (option ServerResponse * option error)
  | CountServerVersions (serverName : string) : Op (Z * option error)
  | CheckVersionExists (serverName version : string) : Op (bool * option error)
  | GetCurrentLatestVersion (serverName : string)
      : Op (option ServerResponse * option error)
  | UnmarkAsLatest (serverName : string) : Op (option error)
  | CreateServer (serverJSON : ServerJSON) (officialMeta : RegistryExtensions)
      : Op (option ServerResponse * option error)
  | UpdateServer (serverName version : string) (serverJSON : ServerJSON)
      : Op (option ServerResponse * option error)
  | SetServerStatus (serverName version : string) (status : Status)
      (statusMessage : option string)
      : Op (option ServerResponse * option error)
  | SetAllVersionsStatus (serverName : string) (status : Status)
      (statusMessage : option string)
      : Op (list ServerResponse * option error).

End db.

(** One call together with the answer it got. *)
Inductive Event :=
  | EvValidatePublishRequest (req : ServerJSON) (r : option error)
  | EvValidateUpdateRequest (req : ServerJSON) (skip : bool) (r : option error)
  | EvTimeNow (r : Time)
  | EvAcquirePublishLock (serverName : string) (r : option error)
  | EvListServers (filter : option ServerFilter) (cursor : string) (limit : Z)
      (r : list ServerResponse * string * option error)
  | EvGetServerByNameAndVersion (serverName version : string)
      (includeDeleted : bool) (r : option ServerResponse * option error)
  | EvCountServerVersions (serverName : string) (r : Z * option error)
  | EvCheckVersionExists (serverName version : string) (r : bool * option error)
  | EvGetCurrentLatestVersion (serverName : string)
      (r : option ServerResponse * option error)
  | EvUnmarkAsLatest (serverName : string) (r : option error)
  | EvCreateServer (serverJSON : ServerJSON) (officialMeta : RegistryExtensions)
      (r : option ServerResponse * option error)
  | EvUpdateServer (serverName version : string) (serverJSON : ServerJSON)
      (r : option ServerResponse * option error)
  | EvSetServerStatus (serverName version : string) (status : Status)
      (statusMessage : option string)
      (r : option ServerResponse * option error)
  | EvSetAllVersionsStatus (serverName : string) (status : Status)
      (statusMessage : option string) (r : list ServerResponse * option error).

Definition event_of {X} (c : db.Op X) : X -> Event :=
  match c in db.Op X return X -> Event with
  | db.ValidatePublishRequest req => EvValidatePublishRequest req
  | db.ValidateUpdateRequest req skip => EvValidateUpdateRequest req skip
  | db.TimeNow => EvTimeNow
  | db.AcquirePublishLock n => EvAcquirePublishLock n
  | db.ListServers f c l => EvListServers f c l
  | db.GetServerByNameAndVersion n v d => EvGetServerByNameAndVersion n v d
  | db.CountServerVersions n => EvCountServerVersions n
  | db.CheckVersionExists n v => EvCheckVersionExists n v
  | db.GetCurrentLatestVersion n => EvGetCurrentLatestVersion n
  | db.UnmarkAsLatest n => EvUnmarkAsLatest n
  | db.CreateServer s m => EvCreateServer s m
  | db.UpdateServer n v s => EvUpdateServer n v s
  | db.SetServerStatus n v st m => EvSetServerStatus n v st m
  | db.SetAllVersionsStatus n st m => EvSetAllVersionsStatus n st m
  end.

(** A computation inside one transaction: it returns, it calls the
    environment and goes on with the answer, or it panics (a nil pointer
    dereference). *)
Inductive Tx (A : Type) : Type :=
  | Ret (a : A)
  | Panic
  | Do (X : Type) (c : db.Op X) (k : X -> Tx A).

Arguments Ret {A} a.
Arguments Panic {A}.
Arguments Do {A X} c k.

Fixpoint bind {A B} (t : Tx A) (f : A -> Tx B) : Tx B :=
  match t with
  | Ret a => f a
  | Panic => Panic
  | Do c k => Do c (fun x => bind (k x) f)
  end.

Definition call {X} (c : db.Op X) : Tx X := Do c Ret.

Declare Scope tx_scope.
Delimit Scope tx_scope with tx.
Notation "x <- t ;; k" := (bind t (fun x => k))
  (at level 61, t at next level, right associativity) : tx_scope.
Notation "' pat <- t ;; k" := (bind t (fun x => match x with pat => k end))
  (at level 61, pat pattern, t at next level, right associativity) : tx_scope.
Open Scope tx_scope.

(** [runs t tr r]: [t] can make exactly the calls of [tr], with the answers
    recorded there, and then stops with [r]; [None] is a panic. *)
Fixpoint runs {A} (t : Tx A) (tr : list Event) (r : option A) : Prop :=
  match t with
  | Ret a => tr = [] /\ r = Some a
  | Panic => tr = [] /\ r = None
  | Do c k => exists x tr', tr = event_of c x :: tr' /\ runs (k x) tr' r
  end.

(** An environment with state [S] answers every call. *)
Definition handler (S : Type) := forall X, db.Op X -> S -> X * S.

Fixpoint exec {S A} (h : handler S) (t : Tx A) (s : S)
  : option A * S * list Event :=
  match t with
  | Ret a => (Some a, s, [])
  | Panic => (None, s, [])
  | Do c k =>
      let '(x, s1) := h _ c s in
      let '(r, s2, tr) := exec h (k x) s1 in
      (r, s2, event_of c x :: tr)
  end.

(** ** Registry service (internal/service/registry_service.go) *)

Definition maxServerVersionsPerServer : Z := 10000.

Module service.

Section Service.

(** [CompareVersions] lives in a file of the service package that is not
    part of the sources; the workflows are stated for any comparator. *)
Variable CompareVersions : string -> string -> Time -> Time -> Z.

(** [ListServers]: a non-positive limit is replaced by the default. *)
Definition ListServers (filter : option ServerFilter) (cursor : string)
    (limit : Z) : Tx (list ServerResponse * string * option error) :=
  let limit := if limit <=? 0 then 30 else limit in
  '(serverRecords, nextCursor, err) <- call (db.ListServers filter cursor limit) ;;
  match err with
  | Some e => Ret ([], "", Some e)
  | None => Ret (serverRecords, nextCursor, None)
  end.

(** The inner loop of [validateNoDuplicateRemoteURLs]: the name of the first
    listed server whose name differs from the candidate's. *)
Fixpoint conflictingName (name : string)
    (conflictingServers : list ServerResponse) : option string :=
  match conflictingServers with
  | [] => None
  | conflictingServer :: rest =>
      if negb (conflictingServer.(Server).(Name) =? name)%string
      then Some conflictingServer.(Server).(Name)
      else conflictingName name rest
  end.

Definition remoteURLFilter (url : string) : option ServerFilter :=
  Some (mkServerFilter None None None (Some url) None None None).

Definition errRemoteURLInUse (url name : string) : error :=
  Errorf ("remote URL " ++ url ++ " is already used by server " ++ name).

(** The outer loop of [validateNoDuplicateRemoteURLs] over the remotes that
    are still to be checked. *)
Fixpoint checkRemotes (serverName : string) (remotes : list Transport)
  : Tx (option error) :=
  match remotes with
  | [] => Ret None
  | remote :: rest =>
      '(conflictingServers, _, err) <-
        call (db.ListServers (remoteURLFilter remote.(URL)) "" 1000) ;;
      match err with
      | Some e => Ret (Some (Wrapf "failed to check remote URL conflict: " e))
      | None =>
          match conflictingName serverName conflictingServers with
          | Some other => Ret (Some (errRemoteURLInUse remote.(URL) other))
          | None => checkRemotes serverName rest
          end
      end
  end.

Definition validateNoDuplicateRemoteURLs (serverDetail : ServerJSON)
  : Tx (option error) :=
  checkRemotes serverDetail.(Name) serverDetail.(Remotes).

(** [err != nil && !errors.Is(err, database.ErrNotFound)]. *)
Definition failedOtherThanNotFound (err : option error) : bool :=
  match err with
  | Some e => negb (errors_Is_ErrNotFound e)
  | None => false
  end.

(** The decision of [createServerInTransaction] on [isNewLatest]. *)
Definition isNewLatest (serverJSON : ServerJSON) (publishTime : Time)
    (currentLatest : option ServerResponse) : bool :=
  match currentLatest with
  | None => true
  | Some current =>
      let existingPublishedAt :=
        match current.(Meta).(Official) with
        | Some official => official.(PublishedAt)
        | None => zeroTime
        end in
      CompareVersions serverJSON.(Version) current.(Server).(Version)
        publishTime existingPublishedAt >? 0
  end.

Definition createServerInTransaction (req : ServerJSON)
  : Tx (option ServerResponse * option error) :=
  err <- call (db.ValidatePublishRequest req) ;;
  match err with Some e => Ret (None, Some e) | None =>
  publishTime <- call db.TimeNow ;;
  let serverJSON := req in
  err <- call (db.AcquirePublishLock serverJSON.(Name)) ;;
  match err with Some e => Ret (None, Some e) | None =>
  err <- validateNoDuplicateRemoteURLs serverJSON ;;
  match err with Some e => Ret (None, Some e) | None =>
  '(versionCount, err) <- call (db.CountServerVersions serverJSON.(Name)) ;;
  if failedOtherThanNotFound err then Ret (None, err)
  else if versionCount >=? maxServerVersionsPerServer
  then Ret (None, Some ErrMaxServersReached)
  else
  '(versionExists, err) <-
    call (db.CheckVersionExists serverJSON.(Name) serverJSON.(Version)) ;;
  match err with Some e => Ret (None, Some e) | None =>
  if versionExists then Ret (None, Some ErrInvalidVersion) else
  '(currentLatest, err) <- call (db.GetCurrentLatestVersion serverJSON.(Name)) ;;
  if failedOtherThanNotFound err then Ret (None, err)
  else
  let isNewLatest := isNewLatest serverJSON publishTime currentLatest in
  err <- (if isNewLatest && negb (isNil currentLatest)
          then call (db.UnmarkAsLatest serverJSON.(Name))
          else Ret None) ;;
  match err with Some e => Ret (None, Some e) | None =>
  let officialMeta :=
    mkRegistryExtensions StatusActive None publishTime publishTime publishTime
      isNewLatest in
  call (db.CreateServer serverJSON officialMeta)
  end end end end end.

Definition updateServerInTransaction (serverName version : string)
    (req : ServerJSON) (statusChange : option StatusChangeRequest)
  : Tx (option ServerResponse * option error) :=
  '(currentServer, err) <-
    call (db.GetServerByNameAndVersion serverName version true) ;;
  match err with Some e => Ret (None, Some e) | None =>
  match currentServer with None => Panic | Some currentServer =>
  let currentlyDeleted :=
    match currentServer.(Meta).(Official) with
    | Some official => (official.(Status_) =? StatusDeleted)%string
    | None => false
    end in
  let beingDeleted :=
    match statusChange with
    | Some sc => (sc.(NewStatus) =? StatusDeleted)%string
    | None => false
    end in
  let skipRegistryValidation := currentlyDeleted || beingDeleted in
  err <- call (db.ValidateUpdateRequest req skipRegistryValidation) ;;
  match err with Some e => Ret (None, Some e) | None =>
  err <- call (db.AcquirePublishLock serverName) ;;
  match err with Some e => Ret (None, Some e) | None =>
  let updatedServer := req in
  err <- validateNoDuplicateRemoteURLs updatedServer ;;
  match err with Some e => Ret (None, Some e) | None =>
  '(updatedServerResponse, err) <-
    call (db.UpdateServer serverName version updatedServer) ;;
  match err with Some e => Ret (None, Some e) | None =>
  match statusChange with
  | Some sc =>
      '(updatedWithStatus, err) <-
        call (db.SetServerStatus serverName version sc.(NewStatus)
                sc.(ChangeStatusMessage)) ;;
      match err with
      | Some e => Ret (None, Some e)
      | None => Ret (updatedWithStatus, None)
      end
  | None => Ret (updatedServerResponse, None)
  end end end end end end end.

(** [statusChange] is dereferenced without a nil check; the handlers always
    pass the request built by [buildStatusChangeRequestFromBody]. *)
Definition updateServerStatusInTransaction (serverName version : string)
    (statusChange : StatusChangeRequest)
  : Tx (option ServerResponse * option error) :=
  '(currentServer, err) <-
    call (db.GetServerByNameAndVersion serverName version true) ;;
  match err with Some e => Ret (None, Some e) | None =>
  err <- call (db.AcquirePublishLock serverName) ;;
  match err with Some e => Ret (None, Some e) | None =>
  err <- (if (statusChange.(NewStatus) =? StatusActive)%string
          then
            match currentServer with
            | None => Panic
            | Some currentServer =>
                if match currentServer.(Meta).(Official) with
                   | Some official =>
                       (official.(Status_) =? StatusDeleted)%string
                   | None => false
                   end
                then validateNoDuplicateRemoteURLs currentServer.(Server)
                else Ret None
            end
          else Ret None) ;;
  match err with Some e => Ret (None, Some e) | None =>
  call (db.SetServerStatus serverName version statusChange.(NewStatus)
          statusChange.(ChangeStatusMessage))
  end end end.

(** The loop of [updateAllVersionsStatusInTransaction] over the listed
    versions: the remote URLs of every deleted one are checked again. *)
Fixpoint revalidateDeleted (versions : list ServerResponse) : Tx (option error) :=
  match versions with
  | [] => Ret None
  | version :: rest =>
      err <- (if match version.(Meta).(Official) with
                 | Some official => (official.(Status_) =? StatusDeleted)%string
                 | None => false
                 end
              then validateNoDuplicateRemoteURLs version.(Server)
              else Ret None) ;;
      match err with
      | Some e => Ret (Some e)
      | None => revalidateDeleted rest
      end
  end.

Definition allVersionsFilter (serverName : string) : option ServerFilter :=
  Some (mkServerFilter (Some serverName) None None None None None (Some true)).

Definition updateAllVersionsStatusInTransaction (serverName : string)
    (statusChange : StatusChangeRequest)
  : Tx (list ServerResponse * option error) :=
  err <- call (db.AcquirePublishLock serverName) ;;
  match err with Some e => Ret ([], Some e) | None =>
  err <- (if (statusChange.(NewStatus) =? StatusActive)%string
          then
            '(versions, _, err) <-
              call (db.ListServers (allVersionsFilter serverName) "" 1000) ;;
            match err with
            | Some e => Ret (Some (Wrapf "failed to list server versions: " e))
            | None => revalidateDeleted versions
            end
          else Ret None) ;;
  match err with Some e => Ret ([], Some e) | None =>
  call (db.SetAllVersionsStatus serverName statusChange.(NewStatus)
          statusChange.(ChangeStatusMessage))
  end end.

End Service.

End service.

(** [buildStatusChangeRequestFromBody] of the status handlers: the message
    is dropped when the new status is active. *)
Definition buildStatusChangeRequestFromBody (body : UpdateServerStatusBody)
  : StatusChangeRequest :=
  let newStatus : Status := body.(BodyStatus) in
  mkStatusChangeRequest newStatus
    (if negb (newStatus =? StatusActive)%string
     then body.(BodyStatusMessage) else None).

(** ** An in-memory store

    Modelled from the spec: the implementation of [database.Database] (the
    PostgreSQL store) is missing from the sources.  Every definition of this
    module follows the contract the specification gives for the store
    primitives; the module is used to run the workflows on concrete
    registries and to state the latest-flag invariant. *)

Module memstore.

(** Modelled from the spec: one row of the table (the schema is missing),
    keyed by name and version, with the descriptor and the metadata. *)
Record Row := mkRow {
  descriptor : ServerJSON;
  meta : RegistryExtensions
}.

Record Store := mkStore {
  rows : list Row;
  clock : Time;
  locks : list string
}.

(** The verdicts of the validators (package validators is an external
    collaborator), which the store does not decide. *)
Record Validators := mkValidators {
  validatePublish : ServerJSON -> option error;
  validateUpdate : ServerJSON -> bool -> option error
}.

Definition response (r : Row) : ServerResponse :=
  mkServerResponse r.(descriptor) (mkResponseMeta (Some r.(meta))).

Definition hasName (name : string) (r : Row) : bool :=
  (r.(descriptor).(Name) =? name)%string.

Definition hasKey (name version : string) (r : Row) : bool :=
  hasName name r && (r.(descriptor).(Version) =? version)%string.

Definition isDeleted (r : Row) : bool :=
  (r.(meta).(Status_) =? StatusDeleted)%string.

Definition isLatestOf (name : string) (r : Row) : bool :=
  hasName name r && r.(meta).(IsLatest).

(** Modelled from the spec: the namespace format [<reverse-dns>/<slug>] of a
    name (the format check of the store is missing), read as two non-empty
    parts around a single slash. *)
Definition nameFormatOK (name : string) : bool :=
  match String.index 0 "/" name with
  | None => false
  | Some i =>
      let slug := String.substring (S i) (String.length name - S i) name in
      negb (Nat.eqb i 0) && negb (slug =? "")%string
      && isNil (String.index 0 "/" slug)
  end.

Definition messageFits (message : option string) : bool :=
  match message with
  | None => true
  | Some m => (String.length m <=? 500)%nat
  end.

(** Modelled from the spec: [CreateServer] (missing store code) inserts a
    new row; Conflict on a duplicate key, Invalid on a malformed name, a
    message over 500 characters or [statusChangedAt < publishedAt]. *)
Definition CreateServer (serverJSON : ServerJSON) (officialMeta : RegistryExtensions)
    (s : Store) : (option ServerResponse * option error) * Store :=
  if negb (nameFormatOK serverJSON.(Name)) then ((None, Some (ErrStore Invalid)), s)
  else if existsb (hasKey serverJSON.(Name) serverJSON.(Version)) s.(rows)
  then ((None, Some (ErrStore Conflict)), s)
  else if negb (messageFits officialMeta.(StatusMessage))
          || (officialMeta.(StatusChangedAt) <? officialMeta.(PublishedAt))
  then ((None, Some (ErrStore Invalid)), s)
  else
    let row := mkRow serverJSON officialMeta in
    ((Some (response row), None),
     mkStore (s.(rows) ++ [row]) s.(clock) s.(locks)).

(** Modelled from the spec: [GetByNameAndVersion] (missing store code)
    returns the version, hiding deleted ones unless asked for. *)
Definition GetServerByNameAndVersion (name version : string)
    (includeDeleted : bool) (s : Store) : option ServerResponse * option error :=
  match find (fun r => hasKey name version r
                       && (includeDeleted || negb (isDeleted r))) s.(rows) with
  | Some r => (Some (response r), None)
  | None => (None, Some ErrNotFound)
  end.

(** Modelled from the spec: [CountVersions], [VersionExists] and
    [GetCurrentLatest] (missing store code). *)
Definition CountServerVersions (name : string) (s : Store) : Z * option error :=
  (Z.of_nat (List.length (filter (hasName name) s.(rows))), None).

Definition CheckVersionExists (name version : string) (s : Store)
  : bool * option error :=
  (existsb (hasKey name version) s.(rows), None).

Definition GetCurrentLatestVersion (name : string) (s : Store)
  : option ServerResponse * option error :=
  match find (isLatestOf name) s.(rows) with
  | Some r => (Some (response r), None)
  | None => (None, Some ErrNotFound)
  end.

(** Modelled from the spec: [UnmarkAsLatest] (missing store code) clears
    [isLatest] for every version of the name. *)
Definition unmark (name : string) (r : Row) : Row :=
  if hasName name r
  then mkRow r.(descriptor)
         (mkRegistryExtensions r.(meta).(Status_) r.(meta).(StatusMessage)
            r.(meta).(StatusChangedAt) r.(meta).(PublishedAt)
            r.(meta).(UpdatedAt) false)
  else r.

Definition UnmarkAsLatest (name : string) (s : Store) : option error * Store :=
  (None, mkStore (map (unmark name) s.(rows)) s.(clock) s.(locks)).

(** Modelled from the spec: [UpdateDescriptor] (missing store code) replaces
    the descriptor and bumps [updatedAt]; the other metadata are kept. *)
Definition redescribe (name version : string) (d : ServerJSON) (now : Time)
    (r : Row) : Row :=
  if hasKey name version r
  then mkRow d
         (mkRegistryExtensions r.(meta).(Status_) r.(meta).(StatusMessage)
            r.(meta).(StatusChangedAt) r.(meta).(PublishedAt) now
            r.(meta).(IsLatest))
  else r.

Definition UpdateServer (name version : string) (d : ServerJSON) (s : Store)
  : (option ServerResponse * option error) * Store :=
  match find (hasKey name version) s.(rows) with
  | None => ((None, Some ErrNotFound), s)
  | Some r =>
      ((Some (response (redescribe name version d s.(clock) r)), None),
       mkStore (map (redescribe name version d s.(clock)) s.(rows))
         s.(clock) s.(locks))
  end.

(** Modelled from the spec: [SetStatus] (missing store code) writes the
    status fields; [statusChangedAt] is refreshed iff the status value
    changes, [updatedAt] always; invalid status values are rejected. *)
Definition restatus (newStatus : Status) (message : option string) (now : Time)
    (r : Row) : Row :=
  mkRow r.(descriptor)
    (mkRegistryExtensions newStatus message
       (if (r.(meta).(Status_) =? newStatus)%string
        then r.(meta).(StatusChangedAt) else now)
       r.(meta).(PublishedAt) now r.(meta).(IsLatest)).

Definition SetServerStatus (name version : string) (newStatus : Status)
    (message : option string) (s : Store)
  : (option ServerResponse * option error) * Store :=
  if negb (validStatuses newStatus) || negb (messageFits message)
  then ((None, Some (ErrStore Invalid)), s)
  else
    match find (hasKey name version) s.(rows) with
    | None => ((None, Some ErrNotFound), s)
    | Some r =>
        let upd := fun r' =>
          if hasKey name version r' then restatus newStatus message s.(clock) r'
          else r' in
        ((Some (response (upd r)), None),
         mkStore (map upd s.(rows)) s.(clock) s.(locks))
    end.

(** Modelled from the spec: [SetAllVersionsStatus] (missing store code)
    applies [SetStatus] to every version of the name; NotFound if none. *)
Definition SetAllVersionsStatus (name : string) (newStatus : Status)
    (message : option string) (s : Store)
  : (list ServerResponse * option error) * Store :=
  if negb (validStatuses newStatus) || negb (messageFits message)
  then (([], Some (ErrStore Invalid)), s)
  else if negb (existsb (hasName name) s.(rows))
  then (([], Some ErrNotFound), s)
  else
    let upd := fun r' =>
      if hasName name r' then restatus newStatus message s.(clock) r' else r' in
    ((map response (filter (hasName name) (map upd s.(rows))), None),
     mkStore (map upd s.(rows)) s.(clock) s.(locks)).

(** Lower-casing of the ASCII letters, for the case-insensitive search. *)
Definition lowerAscii (c : ascii) : ascii :=
  let n := nat_of_ascii c in
  if ((65 <=? n) && (n <=? 90))%nat then ascii_of_nat (n + 32) else c.

Fixpoint lower (s : string) : string :=
  match s with
  | EmptyString => EmptyString
  | String c rest => String (lowerAscii c) (lower rest)
  end.

Definition containsFold (needle hay : string) : bool :=
  negb (isNil (String.index 0 (lower needle) (lower hay))).

Definition unset {A} (field : option A) (test : A -> bool) : bool :=
  match field with
  | None => true
  | Some a => test a
  end.

(** Modelled from the spec: the filter semantics of [ListServers] (missing
    store code); the predicates of a filter are conjunctive and deleted rows
    are hidden unless [IncludeDeleted] is true. *)
Definition matches (filter : option ServerFilter) (r : Row) : bool :=
  match filter with
  | None => negb (isDeleted r)
  | Some f =>
      unset f.(FilterName) (fun n => hasName n r)
      && unset f.(FilterSubstringName)
           (fun sub => containsFold sub r.(descriptor).(Name))
      && unset f.(FilterVersion)
           (fun v => (r.(descriptor).(Version) =? v)%string)
      && unset f.(FilterRemoteURL)
           (fun u => existsb (fun t => (t.(URL) =? u)%string)
                       r.(descriptor).(Remotes))
      && unset f.(FilterIsLatest) (fun b => Bool.eqb r.(meta).(IsLatest) b)
      && unset f.(FilterUpdatedSince) (fun t => r.(meta).(UpdatedAt) >? t)
      && match f.(FilterIncludeDeleted) with
         | Some true => true
         | _ => negb (isDeleted r)
         end
  end.

(** Modelled from the spec: the listing order (missing store code), by name
    and then version, ascending. *)
Definition keyLeb (a b : Row) : bool :=
  match String.compare a.(descriptor).(Name) b.(descriptor).(Name) with
  | Lt => true
  | Gt => false
  | Eq => String.leb a.(descriptor).(Version) b.(descriptor).(Version)
  end.

Fixpoint insertRow (r : Row) (sorted : list Row) : list Row :=
  match sorted with
  | [] => [r]
  | r' :: rest => if keyLeb r r' then r :: sorted else r' :: insertRow r rest
  end.

Definition sortRows (l : list Row) : list Row :=
  fold_right insertRow [] l.

(** Modelled from the spec: the cursor (missing store code) names the last
    row that was emitted. *)
Definition cursorOf (r : Row) : string :=
  r.(descriptor).(Name) ++ ":" ++ r.(descriptor).(Version).

Definition afterCursor (cursor : string) (r : Row) : bool :=
  match String.index 0 ":" cursor with
  | None => true
  | Some i =>
      let name := String.substring 0 i cursor in
      let version :=
        String.substring (S i) (String.length cursor - S i) cursor in
      match String.compare r.(descriptor).(Name) name with
      | Gt => true
      | Lt => false
      | Eq => String.ltb version r.(descriptor).(Version)
      end
  end.

(** Modelled from the spec: [ListServers] (missing store code): the matching
    rows after the cursor, at most [limit] of them (30 when the limit is not
    positive); the next cursor is empty iff no further row exists. *)
Definition ListServers (filter : option ServerFilter) (cursor : string)
    (limit : Z) (s : Store) : list ServerResponse * string * option error :=
  let limit := Z.to_nat (if limit <=? 0 then 30 else limit) in
  let candidates :=
    List.filter (afterCursor cursor) (sortRows (List.filter (matches filter) s.(rows))) in
  let page := firstn limit candidates in
  let next :=
    if (limit <? List.length candidates)%nat
    then match last (map Some page) None with
         | Some r => cursorOf r
         | None => ""
         end
    else "" in
  (map response page, next, None).

(** Modelled from the spec: [AcquirePublishLock] (missing store code); the
    lock is recorded as held by the one transaction in progress. *)
Definition AcquirePublishLock (name : string) (s : Store) : option error * Store :=
  (None, mkStore s.(rows) s.(clock) (name :: s.(locks))).

(** Modelled from the spec: the environment of a transaction (the store
    code is missing): the store primitives above, the validators' verdicts
    and a clock that advances at every reading. *)
Definition handle (v : Validators) : handler Store :=
  fun X c s =>
    match c in db.Op X return X * Store with
    | db.ValidatePublishRequest req => (v.(validatePublish) req, s)
    | db.ValidateUpdateRequest req skip => (v.(validateUpdate) req skip, s)
    | db.TimeNow => (s.(clock), mkStore s.(rows) (s.(clock) + 1) s.(locks))
    | db.AcquirePublishLock n => AcquirePublishLock n s
    | db.ListServers f cur l => (ListServers f cur l s, s)
    | db.GetServerByNameAndVersion n ver d =>
        (GetServerByNameAndVersion n ver d s, s)
    | db.CountServerVersions n => (CountServerVersions n s, s)
    | db.CheckVersionExists n ver => (CheckVersionExists n ver s, s)
    | db.GetCurrentLatestVersion n => (GetCurrentLatestVersion n s, s)
    | db.UnmarkAsLatest n => UnmarkAsLatest n s
    | db.CreateServer d m => CreateServer d m s
    | db.UpdateServer n ver d => UpdateServer n ver d s
    | db.SetServerStatus n ver st m => SetServerStatus n ver st m s
    | db.SetAllVersionsStatus n st m => SetAllVersionsStatus n st m s
    end.

(** The number of versions of [name] that carry [isLatest = true]. *)
Definition latestCount (name : string) (s : Store) : nat :=
  List.length (filter (isLatestOf name) s.(rows)).

End memstore.

(** ** Observations on traces *)

(** The calls that create or modify rows. *)
Definition isWrite (e : Event) : bool :=
  match e with
  | EvUnmarkAsLatest _ _ | EvCreateServer _ _ _ | EvUpdateServer _ _ _ _
  | EvSetServerStatus _ _ _ _ _ | EvSetAllVersionsStatus _ _ _ _ => true
  | _ => false
  end.

Definition isUnmark (e : Event) : bool :=
  match e with
  | EvUnmarkAsLatest _ _ => true
  | _ => false
  end.

(** The call is the remote-URL listing for one of [urls]: filter by exact
    URL, empty cursor, limit 1000. *)
Definition isRemoteCheck (urls : list string) (e : Event) : Prop :=
  exists url ans,
    In url urls /\ e = EvListServers (service.remoteURLFilter url) "" 1000 ans.

(** The listing for [url] answered without error and named a server
    [other] whose name is not [name]. *)
Definition listsConflict (name url other : string) (e : Event) : Prop :=
  exists rows next row,
    e = EvListServers (service.remoteURLFilter url) "" 1000 (rows, next, None)
    /\ In row rows /\ row.(Server).(Name) = other /\ other <> name.

(** The listing answered without error and named servers of [name] only. *)
Definition listsOnly (name : string) (e : Event) : Prop :=
  forall f c l rows next err,
    e = EvListServers f c l (rows, next, err) ->
    err = None /\ forall row, In row rows -> row.(Server).(Name) = name.

(** Every remote was listed, in order. *)
Definition listedAll (remotes : list Transport) (tr : list Event) : Prop :=
  Forall2
    (fun remote e =>
       exists ans,
         e = EvListServers (service.remoteURLFilter remote.(URL)) "" 1000 ans)
    remotes tr.

(** The lock discipline as the workflows keep it: the trace is the calls of
    [prologue], in that order, then the lock request on [name]; calls
    follow the lock request only when the lock was granted, and none of
    them is another lock request or one of the [early] calls, which are
    made before the lock only. *)
Definition lockedAfter (name : string) (prologue : list Event)
    (early : Event -> Prop) (tr : list Event) : Prop :=
  exists ans post,
    tr = (prologue ++ EvAcquirePublishLock name ans :: post)%list
    /\ (post <> [] -> ans = None)
    /\ Forall (fun e => ~ early e /\ forall n a, e <> EvAcquirePublishLock n a)
         post.

(** The lock request is the first call of the trace. *)
Definition lockAcquiredFirst (name : string) (tr : list Event) : Prop :=
  exists ans rest, tr = EvAcquirePublishLock name ans :: rest.

(** What each workflow does before it asks for the lock: publish validates
    the request and reads the clock; edit reads the current version and
    validates the request; a status change reads the current version. *)
Definition publishPrologue (req : ServerJSON) (e : Event) : Prop :=
  (exists r, e = EvValidatePublishRequest req r) \/ (exists t, e = EvTimeNow t).

Definition editPrologue (name version : string) (req : ServerJSON)
    (e : Event) : Prop :=
  (exists r, e = EvGetServerByNameAndVersion name version true r)
  \/ (exists skip r, e = EvValidateUpdateRequest req skip r).

Definition statusPrologue (name version : string) (e : Event) : Prop :=
  exists r, e = EvGetServerByNameAndVersion name version true r.

Definition publishedAtOf (current : ServerResponse) : Time :=
  match current.(Meta).(Official) with
  | Some official => official.(PublishedAt)
  | None => zeroTime
  end.

(** The insert [CreateServer serverJSON officialMeta], answered by [ans], is
    the last call of the trace and its answer is the result; the row is the
    request with fresh metadata; [isLatest] is true when no current latest
    was found and is the comparator's strict verdict otherwise; and
    [UnmarkAsLatest] comes right before the insert exactly when the new
    version is latest while a current latest exists. *)
Definition insertedAsDecided
    (CompareVersions : string -> string -> Time -> Time -> Z) (req : ServerJSON)
    (tr : list Event) (r : option (option ServerResponse * option error))
    (serverJSON : ServerJSON) (officialMeta : RegistryExtensions)
    (ans : option ServerResponse * option error) : Prop :=
  exists publishTime currentLatest err pre,
    tr = (pre ++ [EvCreateServer serverJSON officialMeta ans])%list
    /\ r = Some ans
    /\ serverJSON = req
    /\ In (EvTimeNow publishTime) pre
    /\ In (EvGetCurrentLatestVersion req.(Name) (currentLatest, err)) pre
    /\ officialMeta
       = mkRegistryExtensions StatusActive None publishTime publishTime
           publishTime officialMeta.(IsLatest)
    /\ officialMeta.(IsLatest)
       = match currentLatest with
         | None => true
         | Some current =>
             CompareVersions req.(Version) current.(Server).(Version)
               publishTime (publishedAtOf current) >? 0
         end
    /\ (officialMeta.(IsLatest) = true /\ currentLatest <> None ->
        exists pre',
          pre = (pre' ++ [EvUnmarkAsLatest req.(Name) None])%list)
    /\ (officialMeta.(IsLatest) = false \/ currentLatest = None ->
        Forall (fun e => isUnmark e = false) pre).

(** The runs of [createServerInTransaction], one constructor for each place
    where the function returns.  [publishChecked] describes
    the part after the remote-URL check, [publishLocked] the part after the
    lock was granted ([checks] are the calls of the remote-URL check) and
    [publishRun] the whole run. *)
Inductive publishChecked (CompareVersions : string -> string -> Time -> Time -> Z)
    (req : ServerJSON)
  : Time -> list Event
    -> option (option ServerResponse * option error) -> Prop :=
  | publish_count_failed publishTime versionCount err :
      service.failedOtherThanNotFound err = true ->
      publishChecked CompareVersions req publishTime
        [EvCountServerVersions req.(Name) (versionCount, err)]
        (Some (None, err))
  | publish_limit publishTime versionCount err :
      service.failedOtherThanNotFound err = false ->
      versionCount >= maxServerVersionsPerServer ->
      publishChecked CompareVersions req publishTime
        [EvCountServerVersions req.(Name) (versionCount, err)]
        (Some (None, Some ErrMaxServersReached))
  | publish_exists_failed publishTime versionCount err versionExists e :
      service.failedOtherThanNotFound err = false ->
      versionCount < maxServerVersionsPerServer ->
      publishChecked CompareVersions req publishTime
        [EvCountServerVersions req.(Name) (versionCount, err);
         EvCheckVersionExists req.(Name) req.(Version) (versionExists, Some e)]
        (Some (None, Some e))
  | publish_duplicate publishTime versionCount err :
      service.failedOtherThanNotFound err = false ->
      versionCount < maxServerVersionsPerServer ->
      publishChecked CompareVersions req publishTime
        [EvCountServerVersions req.(Name) (versionCount, err);
         EvCheckVersionExists req.(Name) req.(Version) (true, None)]
        (Some (None, Some ErrInvalidVersion))
  | publish_latest_failed publishTime versionCount err currentLatest err' :
      service.failedOtherThanNotFound err = false ->
      versionCount < maxServerVersionsPerServer ->
      service.failedOtherThanNotFound err' = true ->
      publishChecked CompareVersions req publishTime
        [EvCountServerVersions req.(Name) (versionCount, err);
         EvCheckVersionExists req.(Name) req.(Version) (false, None);
         EvGetCurrentLatestVersion req.(Name) (currentLatest, err')]
        (Some (None, err'))
  | publish_unmark_failed publishTime versionCount err currentLatest err' e :
      service.failedOtherThanNotFound err = false ->
      versionCount < maxServerVersionsPerServer ->
      service.failedOtherThanNotFound err' = false ->
      service.isNewLatest CompareVersions req publishTime currentLatest = true ->
      currentLatest <> None ->
      publishChecked CompareVersions req publishTime
        [EvCountServerVersions req.(Name) (versionCount, err);
         EvCheckVersionExists req.(Name) req.(Version) (false, None);
         EvGetCurrentLatestVersion req.(Name) (currentLatest, err');
         EvUnmarkAsLatest req.(Name) (Some e)]
        (Some (None, Some e))
  | publish_replaces_latest publishTime versionCount err currentLatest err' ans :
      service.failedOtherThanNotFound err = false ->
      versionCount < maxServerVersionsPerServer ->
      service.failedOtherThanNotFound err' = false ->
      service.isNewLatest CompareVersions req publishTime currentLatest = true ->
      currentLatest <> None ->
      publishChecked CompareVersions req publishTime
        [EvCountServerVersions req.(Name) (versionCount, err);
         EvCheckVersionExists req.(Name) req.(Version) (false, None);
         EvGetCurrentLatestVersion req.(Name) (currentLatest, err');
         EvUnmarkAsLatest req.(Name) None;
         EvCreateServer req
           (mkRegistryExtensions StatusActive None publishTime publishTime
              publishTime true) ans]
        (Some ans)
  | publish_keeps_flags publishTime versionCount err currentLatest err' ans :
      service.failedOtherThanNotFound err = false ->
      versionCount < maxServerVersionsPerServer ->
      service.failedOtherThanNotFound err' = false ->
      (service.isNewLatest CompareVersions req publishTime currentLatest = false
       \/ currentLatest = None) ->
      publishChecked CompareVersions req publishTime
        [EvCountServerVersions req.(Name) (versionCount, err);
         EvCheckVersionExists req.(Name) req.(Version) (false, None);
         EvGetCurrentLatestVersion req.(Name) (currentLatest, err');
         EvCreateServer req
           (mkRegistryExtensions StatusActive None publishTime publishTime
              publishTime
              (service.isNewLatest CompareVersions req publishTime currentLatest))
           ans]
        (Some ans).

Inductive publishLocked (CompareVersions : string -> string -> Time -> Time -> Z)
    (req : ServerJSON)
  : Time -> list Event -> list Event
    -> option (option ServerResponse * option error) -> Prop :=
  | publish_url_conflict publishTime checks e :
      runs (service.validateNoDuplicateRemoteURLs req) checks (Some (Some e)) ->
      publishLocked CompareVersions req publishTime checks []
        (Some (None, Some e))
  | publish_checked publishTime checks rest r :
      runs (service.validateNoDuplicateRemoteURLs req) checks (Some None) ->
      publishChecked CompareVersions req publishTime rest r ->
      publishLocked CompareVersions req publishTime checks rest r.

Inductive publishRun (CompareVersions : string -> string -> Time -> Time -> Z)
    (req : ServerJSON)
  : list Event -> option (option ServerResponse * option error) -> Prop :=
  | publish_invalid e :
      publishRun CompareVersions req
        [EvValidatePublishRequest req (Some e)]
        (Some (None, Some e))
  | publish_lock_failed publishTime e :
      publishRun CompareVersions req
        [EvValidatePublishRequest req None; EvTimeNow publishTime;
         EvAcquirePublishLock req.(Name) (Some e)]
        (Some (None, Some e))
  | publish_locked publishTime checks rest r :
      publishLocked CompareVersions req publishTime checks rest r ->
      publishRun CompareVersions req
        (EvValidatePublishRequest req None :: EvTimeNow publishTime
         :: EvAcquirePublishLock req.(Name) None :: checks ++ rest)
        r.

(** ** Runs of the edit and status workflows *)

(** The two conditions under which [updateServerInTransaction] skips the
    registry validation. *)
Definition currentlyDeleted (currentServer : ServerResponse) : bool :=
  match currentServer.(Meta).(Official) with
  | Some official => (official.(Status_) =? StatusDeleted)%string
  | None => false
  end.

Definition beingDeleted (statusChange : option StatusChangeRequest) : bool :=
  match statusChange with
  | Some sc => (sc.(NewStatus) =? StatusDeleted)%string
  | None => false
  end.

(** The runs of [updateServerInTransaction], one constructor for each place
    where the function returns or stops; [editLocked] is the part after the
    lock was granted. *)
Inductive editLocked (serverName version : string) (req : ServerJSON)
    (statusChange : option StatusChangeRequest)
  : list Event -> list Event
    -> option (option ServerResponse * option error) -> Prop :=
  | edit_url_conflict checks e :
      runs (service.validateNoDuplicateRemoteURLs req) checks (Some (Some e)) ->
      editLocked serverName version req statusChange checks []
        (Some (None, Some e))
  | edit_update_failed checks updated e :
      runs (service.validateNoDuplicateRemoteURLs req) checks (Some None) ->
      editLocked serverName version req statusChange checks
        [EvUpdateServer serverName version req (updated, Some e)]
        (Some (None, Some e))
  | edit_updated checks updated :
      runs (service.validateNoDuplicateRemoteURLs req) checks (Some None) ->
      statusChange = None ->
      editLocked serverName version req statusChange checks
        [EvUpdateServer serverName version req (updated, None)]
        (Some (updated, None))
  | edit_status_failed checks updated sc withStatus e :
      runs (service.validateNoDuplicateRemoteURLs req) checks (Some None) ->
      statusChange = Some sc ->
      editLocked serverName version req statusChange checks
        [EvUpdateServer serverName version req (updated, None);
         EvSetServerStatus serverName version sc.(NewStatus)
           sc.(ChangeStatusMessage) (withStatus, Some e)]
        (Some (None, Some e))
  | edit_status_set checks updated sc withStatus :
      runs (service.validateNoDuplicateRemoteURLs req) checks (Some None) ->
      statusChange = Some sc ->
      editLocked serverName version req statusChange checks
        [EvUpdateServer serverName version req (updated, None);
         EvSetServerStatus serverName version sc.(NewStatus)
           sc.(ChangeStatusMessage) (withStatus, None)]
        (Some (withStatus, None)).

Inductive editRun (serverName version : string) (req : ServerJSON)
    (statusChange : option StatusChangeRequest)
  : list Event -> option (option ServerResponse * option error) -> Prop :=
  | edit_read_failed currentServer e :
      editRun serverName version req statusChange
        [EvGetServerByNameAndVersion serverName version true
           (currentServer, Some e)]
        (Some (None, Some e))
  | edit_read_nil :
      editRun serverName version req statusChange
        [EvGetServerByNameAndVersion serverName version true (None, None)]
        None
  | edit_invalid currentServer e :
      editRun serverName version req statusChange
        [EvGetServerByNameAndVersion serverName version true
           (Some currentServer, None);
         EvValidateUpdateRequest req
           (currentlyDeleted currentServer || beingDeleted statusChange)
           (Some e)]
        (Some (None, Some e))
  | edit_lock_failed currentServer e :
      editRun serverName version req statusChange
        [EvGetServerByNameAndVersion serverName version true
           (Some currentServer, None);
         EvValidateUpdateRequest req
           (currentlyDeleted currentServer || beingDeleted statusChange) None;
         EvAcquirePublishLock serverName (Some e)]
        (Some (None, Some e))
  | edit_locked currentServer checks rest r :
      editLocked serverName version req statusChange checks rest r ->
      editRun serverName version req statusChange
        (EvGetServerByNameAndVersion serverName version true
           (Some currentServer, None)
         :: EvValidateUpdateRequest req
              (currentlyDeleted currentServer || beingDeleted statusChange)
              None
         :: EvAcquirePublishLock serverName None :: checks ++ rest)
        r.

(** A status change is a restore when it asks for active on a version
    whose current status is deleted. *)
Definition restoring (statusChange : StatusChangeRequest)
    (currentServer : ServerResponse) : bool :=
  (statusChange.(NewStatus) =? StatusActive)%string
  && currentlyDeleted currentServer.

(** The runs of [updateServerStatusInTransaction]. *)
Inductive statusRun (serverName version : string)
    (statusChange : StatusChangeRequest)
  : list Event -> option (option ServerResponse * option error) -> Prop :=
  | status_read_failed currentServer e :
      statusRun serverName version statusChange
        [EvGetServerByNameAndVersion serverName version true
           (currentServer, Some e)]
        (Some (None, Some e))
  | status_lock_failed currentServer e :
      statusRun serverName version statusChange
        [EvGetServerByNameAndVersion serverName version true
           (currentServer, None);
         EvAcquirePublishLock serverName (Some e)]
        (Some (None, Some e))
  | status_read_nil :
      statusChange.(NewStatus) = StatusActive ->
      statusRun serverName version statusChange
        [EvGetServerByNameAndVersion serverName version true (None, None);
         EvAcquirePublishLock serverName None]
        None
  | status_restore_refused currentServer checks e :
      restoring statusChange currentServer = true ->
      runs (service.validateNoDuplicateRemoteURLs currentServer.(Server))
        checks (Some (Some e)) ->
      statusRun serverName version statusChange
        (EvGetServerByNameAndVersion serverName version true
           (Some currentServer, None)
         :: EvAcquirePublishLock serverName None :: checks)
        (Some (None, Some e))
  | status_restored currentServer checks ans :
      restoring statusChange currentServer = true ->
      runs (service.validateNoDuplicateRemoteURLs currentServer.(Server))
        checks (Some None) ->
      statusRun serverName version statusChange
        (EvGetServerByNameAndVersion serverName version true
           (Some currentServer, None)
         :: EvAcquirePublishLock serverName None
         :: checks ++
            [EvSetServerStatus serverName version statusChange.(NewStatus)
               statusChange.(ChangeStatusMessage) ans])
        (Some ans)
  | status_set currentServer ans :
      match currentServer with
      | Some current => restoring statusChange current = false
      | None => statusChange.(NewStatus) <> StatusActive
      end ->
      statusRun serverName version statusChange
        [EvGetServerByNameAndVersion serverName version true
           (currentServer, None);
         EvAcquirePublishLock serverName None;
         EvSetServerStatus serverName version statusChange.(NewStatus)
           statusChange.(ChangeStatusMessage) ans]
        (Some ans).

(** The runs of [updateAllVersionsStatusInTransaction]. *)
Inductive bulkRun (serverName : string) (statusChange : StatusChangeRequest)
  : list Event -> option (list ServerResponse * option error) -> Prop :=
  | bulk_lock_failed e :
      bulkRun serverName statusChange
        [EvAcquirePublishLock serverName (Some e)]
        (Some ([], Some e))
  | bulk_set ans :
      statusChange.(NewStatus) <> StatusActive ->
      bulkRun serverName statusChange
        [EvAcquirePublishLock serverName None;
         EvSetAllVersionsStatus serverName statusChange.(NewStatus)
           statusChange.(ChangeStatusMessage) ans]
        (Some ans)
  | bulk_list_failed versions next e :
      statusChange.(NewStatus) = StatusActive ->
      bulkRun serverName statusChange
        [EvAcquirePublishLock serverName None;
         EvListServers (service.allVersionsFilter serverName) "" 1000
           (versions, next, Some e)]
        (Some ([], Some (Wrapf "failed to list server versions: " e)))
  | bulk_restore_refused versions next checks e :
      statusChange.(NewStatus) = StatusActive ->
      runs (service.revalidateDeleted versions) checks (Some (Some e)) ->
      bulkRun serverName statusChange
        (EvAcquirePublishLock serverName None
         :: EvListServers (service.allVersionsFilter serverName) "" 1000
              (versions, next, None)
         :: checks)
        (Some ([], Some e))
  | bulk_restored versions next checks ans :
      statusChange.(NewStatus) = StatusActive ->
      runs (service.revalidateDeleted versions) checks (Some None) ->
      bulkRun serverName statusChange
        (EvAcquirePublishLock serverName None
         :: EvListServers (service.allVersionsFilter serverName) "" 1000
              (versions, next, None)
         :: checks ++
            [EvSetAllVersionsStatus serverName statusChange.(NewStatus)
               statusChange.(ChangeStatusMessage) ans])
        (Some ans).

(** ** The status handlers (v0 status endpoints)

    The handlers talk to the JWT manager, to [url.PathUnescape] and to the
    registry service through its interface; as for the store, each call is
    an operation whose answer the environment chooses. *)

(** The two permission actions the handlers ask for. *)
Inductive PermissionAction := PermissionActionPublish | PermissionActionEdit.

(** The permissions of a token; the handlers hand them to [HasPermission]
    and never look inside. *)
Record Permission := mkPermission {
  PermAction : PermissionAction;
  ResourcePattern : string
}.

Record JWTClaims := mkJWTClaims {
  Permissions : list Permission
}.

(** An error a handler returns: [huma.NewError(status, detail, errs...)],
    or an error value of a callee returned as it is. *)
Inductive handlerError :=
  | HumaError (status : Z) (detail : string) (errs : list error)
  | Returned (e : error).

Definition Error401Unauthorized (msg : string) (errs : list error) : handlerError :=
  HumaError 401 msg errs.
Definition Error403Forbidden (msg : string) : handlerError :=
  HumaError 403 msg [].
Definition Error404NotFound (msg : string) : handlerError :=
  HumaError 404 msg [].
Definition Error500InternalServerError (msg : string) (errs : list error)
  : handlerError :=
  HumaError 500 msg errs.
Definition Error400BadRequestWith (msg : string) (errs : list error)
  : handlerError :=
  HumaError 400 msg errs.

(** The HTTP status of a handler error. *)
Definition httpStatus (e : handlerError) : option Z :=
  match e with
  | HumaError status _ _ => Some status
  | Returned (StatusError status _) => Some status
  | Returned _ => None
  end.

Record UpdateServerStatusInput := mkStatusInput {
  Authorization : string;
  InputServerName : string;
  InputVersion : string;
  Body : UpdateServerStatusBody
}.

Record UpdateAllVersionsStatusInput := mkAllVersionsInput {
  AllAuthorization : string;
  AllServerName : string;
  AllBody : UpdateServerStatusBody
}.

Record UpdateAllVersionsStatusResponse := mkAllVersionsResponse {
  UpdatedCount : Z;
  Servers : list ServerResponse
}.

Module v0.

Inductive Op : Type -> Type :=
  | ValidateToken (token : string) : Op (option JWTClaims * option error)
  | PathUnescape (s : string) : Op (string * option error)
  | GetServerByNameAndVersion (serverName version : string)
      (includeDeleted : bool) : Op (option ServerResponse * option error)
  | GetServerByName (serverName : string) (includeDeleted : bool)
      : Op (option ServerResponse * option error)
  | GetAllVersionsByServerName (serverName : string) (includeDeleted : bool)
      : Op (list ServerResponse * option error)
  | HasPermission (resource : string) (action : PermissionAction)
      (permissions : list Permission) : Op bool
  | UpdateServerStatus (serverName version : string)
      (statusChange : StatusChangeRequest)
      : Op (option ServerResponse * option error)
  | UpdateAllVersionsStatus (serverName : string)
      (statusChange : StatusChangeRequest)
      : Op (list ServerResponse * option error).

End v0.

(** One call of a handler together with its answer. *)
Inductive HandlerEvent :=
  | HvValidateToken (token : string) (r : option JWTClaims * option error)
  | HvPathUnescape (s : string) (r : string * option error)
  | HvGetServerByNameAndVersion (serverName version : string)
      (includeDeleted : bool) (r : option ServerResponse * option error)
  | HvGetServerByName (serverName : string) (includeDeleted : bool)
      (r : option ServerResponse * option error)
  | HvGetAllVersionsByServerName (serverName : string) (includeDeleted : bool)
      (r : list ServerResponse * option error)
  | HvHasPermission (resource : string) (action : PermissionAction)
      (permissions : list Permission) (r : bool)
  | HvUpdateServerStatus (serverName version : string)
      (statusChange : StatusChangeRequest)
      (r : option ServerResponse * option error)
  | HvUpdateAllVersionsStatus (serverName : string)
      (statusChange : StatusChangeRequest)
      (r : list ServerResponse * option error).

Definition handler_event_of {X} (c : v0.Op X) : X -> HandlerEvent :=
  match c in v0.Op X return X -> HandlerEvent with
  | v0.ValidateToken t => HvValidateToken t
  | v0.PathUnescape s => HvPathUnescape s
  | v0.GetServerByNameAndVersion n v d => HvGetServerByNameAndVersion n v d
  | v0.GetServerByName n d => HvGetServerByName n d
  | v0.GetAllVersionsByServerName n d => HvGetAllVersionsByServerName n d
  | v0.HasPermission res a p => HvHasPermission res a p
  | v0.UpdateServerStatus n v sc => HvUpdateServerStatus n v sc
  | v0.UpdateAllVersionsStatus n sc => HvUpdateAllVersionsStatus n sc
  end.

(** A handler computation: it returns, panics (a nil dereference) or calls
    a collaborator and goes on with the answer. *)
Inductive Req (A : Type) : Type :=
  | Reply (a : A)
  | Crash
  | Ask (X : Type) (c : v0.Op X) (k : X -> Req A).

Arguments Reply {A} a.
Arguments Crash {A}.
Arguments Ask {A X} c k.

Definition ask {X} (c : v0.Op X) : Req X := Ask c Reply.

Fixpoint andThen {A B} (t : Req A) (f : A -> Req B) : Req B :=
  match t with
  | Reply a => f a
  | Crash => Crash
  | Ask c k => Ask c (fun x => andThen (k x) f)
  end.

Declare Scope req_scope.
Delimit Scope req_scope with req.
Notation "x <- t ;; k" := (andThen t (fun x => k))
  (at level 61, t at next level, right associativity) : req_scope.
Notation "' pat <- t ;; k" := (andThen t (fun x => match x with pat => k end))
  (at level 61, pat pattern, t at next level, right associativity) : req_scope.

(** [serves t tr r]: the handler computation [t] makes the calls of [tr],
    with the answers recorded there, and stops with [r]; [None] is a
    panic. *)
Fixpoint serves {A} (t : Req A) (tr : list HandlerEvent) (r : option A) : Prop :=
  match t with
  | Reply a => tr = [] /\ r = Some a
  | Crash => tr = [] /\ r = None
  | Ask c k =>
      exists x tr', tr = handler_event_of c x :: tr' /\ serves (k x) tr' r
  end.

(** ASCII case folding.  [strings.EqualFold] folds Unicode; against the
    text [Bearer ] it agrees with the ASCII comparison, since no letter of
    that text has a fold partner outside ASCII. *)
Definition foldAscii (c : ascii) : ascii :=
  let n := nat_of_ascii c in
  if ((65 <=? n) && (n <=? 90))%nat then ascii_of_nat (n + 32) else c.

Fixpoint foldString (s : string) : string :=
  match s with
  | EmptyString => EmptyString
  | String c rest => String (foldAscii c) (foldString rest)
  end.

Definition EqualFold (s t : string) : bool :=
  (foldString s =? foldString t)%string.

Definition bearerPrefix : string := "Bearer ".

(** The bearer-token extraction both handlers start with: [None] when the
    header is shorter than the prefix or does not start with it. *)
Definition bearerToken (authHeader : string) : option string :=
  if (String.length authHeader <? String.length bearerPrefix)%nat
     || negb (EqualFold
                (String.substring 0 (String.length bearerPrefix) authHeader)
                bearerPrefix)
  then None
  else Some (String.substring (String.length bearerPrefix)
               (String.length authHeader - String.length bearerPrefix)
               authHeader).

Definition invalidAuthorizationHeader : handlerError :=
  Error401Unauthorized
    "Invalid Authorization header format. Expected 'Bearer <token>'" [].

Open Scope req_scope.

(** The handler of [PATCH .../servers/{serverName}/versions/{version}/status]. *)
Definition updateServerStatusHandler (input : UpdateServerStatusInput)
  : Req (option ServerResponse * option handlerError) :=
  match bearerToken input.(Authorization) with
  | None => Reply (None, Some invalidAuthorizationHeader)
  | Some token =>
  '(claims, err) <- ask (v0.ValidateToken token) ;;
  match err with
  | Some e =>
      Reply (None, Some (Error401Unauthorized
                           "Invalid or expired Registry JWT token" [e]))
  | None =>
  '(serverName, err) <- ask (v0.PathUnescape input.(InputServerName)) ;;
  match err with
  | Some e =>
      Reply (None, Some (Error400BadRequestWith
                           "Invalid server name encoding" [e]))
  | None =>
  '(version, err) <- ask (v0.PathUnescape input.(InputVersion)) ;;
  match err with
  | Some e =>
      Reply (None, Some (Error400BadRequestWith "Invalid version encoding" [e]))
  | None =>
  let newStatus : Status := input.(Body).(BodyStatus) in
  '(currentServer, err) <-
    ask (v0.GetServerByNameAndVersion serverName version true) ;;
  match err with
  | Some e =>
      if errors_Is_ErrNotFound e
      then Reply (None, Some (Error404NotFound "Server version not found"))
      else Reply (None, Some (Error500InternalServerError
                                "Failed to get server" [e]))
  | None =>
  match currentServer with None => Crash | Some currentServer =>
  match claims with None => Crash | Some claims =>
  hasPublish <- ask (v0.HasPermission currentServer.(Server).(Name)
                       PermissionActionPublish claims.(Permissions)) ;;
  hasEdit <- ask (v0.HasPermission currentServer.(Server).(Name)
                    PermissionActionEdit claims.(Permissions)) ;;
  if negb hasPublish && negb hasEdit
  then Reply (None, Some (Error403Forbidden
                            "You do not have publish or edit permissions for this server"))
  else
  match validateStatusTransition currentServer newStatus input.(Body) with
  | Some e => Reply (None, Some (Returned e))
  | None =>
  let statusChange := buildStatusChangeRequestFromBody input.(Body) in
  '(updatedServer, err) <-
    ask (v0.UpdateServerStatus serverName version statusChange) ;;
  match err with
  | Some e =>
      if errors_Is_ErrNotFound e
      then Reply (None, Some (Error404NotFound "Server not found"))
      else Reply (None, Some (Error400BadRequestWith
                                "Failed to update server status" [e]))
  | None =>
  match updatedServer with
  | None => Crash
  | Some updated => Reply (Some updated, None)
  end end end end end end end end end end.

(** The handler of [PATCH .../servers/{serverName}/status]. *)
Definition updateAllVersionsStatusHandler (input : UpdateAllVersionsStatusInput)
  : Req (option UpdateAllVersionsStatusResponse * option handlerError) :=
  match bearerToken input.(AllAuthorization) with
  | None => Reply (None, Some invalidAuthorizationHeader)
  | Some token =>
  '(claims, err) <- ask (v0.ValidateToken token) ;;
  match err with
  | Some e =>
      Reply (None, Some (Error401Unauthorized
                           "Invalid or expired Registry JWT token" [e]))
  | None =>
  '(serverName, err) <- ask (v0.PathUnescape input.(AllServerName)) ;;
  match err with
  | Some e =>
      Reply (None, Some (Error400BadRequestWith
                           "Invalid server name encoding" [e]))
  | None =>
  '(currentServer, err) <- ask (v0.GetServerByName serverName true) ;;
  match err with
  | Some e =>
      if errors_Is_ErrNotFound e
      then Reply (None, Some (Error404NotFound "Server not found"))
      else Reply (None, Some (Error500InternalServerError
                                "Failed to get server" [e]))
  | None =>
  match currentServer with None => Crash | Some currentServer =>
  match claims with None => Crash | Some claims =>
  hasPublish <- ask (v0.HasPermission currentServer.(Server).(Name)
                       PermissionActionPublish claims.(Permissions)) ;;
  hasEdit <- ask (v0.HasPermission currentServer.(Server).(Name)
                    PermissionActionEdit claims.(Permissions)) ;;
  if negb hasPublish && negb hasEdit
  then Reply (None, Some (Error403Forbidden
                            "You do not have publish or edit permissions for this server"))
  else
  let newStatus : Status := input.(AllBody).(BodyStatus) in
  '(allVersions, err) <- ask (v0.GetAllVersionsByServerName serverName true) ;;
  match err with
  | Some e =>
      Reply (None, Some (Error500InternalServerError
                           "Failed to get server versions" [e]))
  | None =>
  match validateBulkStatusTransition allVersions newStatus input.(AllBody) with
  | Some e => Reply (None, Some (Returned e))
  | None =>
  let statusChange := buildStatusChangeRequestFromBody input.(AllBody) in
  '(updatedServers, err) <-
    ask (v0.UpdateAllVersionsStatus serverName statusChange) ;;
  match err with
  | Some e =>
      if errors_Is_ErrNotFound e
      then Reply (None, Some (Error404NotFound "Server not found"))
      else Reply (None, Some (Error400BadRequestWith
                                "Failed to update server status" [e]))
  | None =>
  let servers := updatedServers in
  Reply (Some (mkAllVersionsResponse (Z.of_nat (List.length servers)) servers),
         None)
  end end end end end end end end end.

Close Scope req_scope.

(** The runs of [updateServerStatusHandler], one constructor for each
    reply; [statusAuthorized] is the part after the version was read. *)
Inductive statusAuthorized (input : UpdateServerStatusInput)
    (serverName version : string) (currentServer : ServerResponse)
    (claims : JWTClaims)
  : list HandlerEvent
    -> option (option ServerResponse * option handlerError) -> Prop :=
  | status_forbidden :
      statusAuthorized input serverName version currentServer claims
        [HvHasPermission currentServer.(Server).(Name) PermissionActionPublish
           claims.(Permissions) false;
         HvHasPermission currentServer.(Server).(Name) PermissionActionEdit
           claims.(Permissions) false]
        (Some (None, Some (Error403Forbidden
                             "You do not have publish or edit permissions for this server")))
  | status_rejected hasPublish hasEdit e :
      hasPublish || hasEdit = true ->
      validateStatusTransition currentServer input.(Body).(BodyStatus)
        input.(Body) = Some e ->
      statusAuthorized input serverName version currentServer claims
        [HvHasPermission currentServer.(Server).(Name) PermissionActionPublish
           claims.(Permissions) hasPublish;
         HvHasPermission currentServer.(Server).(Name) PermissionActionEdit
           claims.(Permissions) hasEdit]
        (Some (None, Some (Returned e)))
  | status_update_failed hasPublish hasEdit updated e :
      hasPublish || hasEdit = true ->
      validateStatusTransition currentServer input.(Body).(BodyStatus)
        input.(Body) = None ->
      statusAuthorized input serverName version currentServer claims
        [HvHasPermission currentServer.(Server).(Name) PermissionActionPublish
           claims.(Permissions) hasPublish;
         HvHasPermission currentServer.(Server).(Name) PermissionActionEdit
           claims.(Permissions) hasEdit;
         HvUpdateServerStatus serverName version
           (buildStatusChangeRequestFromBody input.(Body)) (updated, Some e)]
        (Some (None,
               Some (if errors_Is_ErrNotFound e
                     then Error404NotFound "Server not found"
                     else Error400BadRequestWith
                            "Failed to update server status" [e])))
  | status_update_nil hasPublish hasEdit :
      hasPublish || hasEdit = true ->
      validateStatusTransition currentServer input.(Body).(BodyStatus)
        input.(Body) = None ->
      statusAuthorized input serverName version currentServer claims
        [HvHasPermission currentServer.(Server).(Name) PermissionActionPublish
           claims.(Permissions) hasPublish;
         HvHasPermission currentServer.(Server).(Name) PermissionActionEdit
           claims.(Permissions) hasEdit;
         HvUpdateServerStatus serverName version
           (buildStatusChangeRequestFromBody input.(Body)) (None, None)]
        None
  | status_updated hasPublish hasEdit updated :
      hasPublish || hasEdit = true ->
      validateStatusTransition currentServer input.(Body).(BodyStatus)
        input.(Body) = None ->
      statusAuthorized input serverName version currentServer claims
        [HvHasPermission currentServer.(Server).(Name) PermissionActionPublish
           claims.(Permissions) hasPublish;
         HvHasPermission currentServer.(Server).(Name) PermissionActionEdit
           claims.(Permissions) hasEdit;
         HvUpdateServerStatus serverName version
           (buildStatusChangeRequestFromBody input.(Body)) (Some updated, None)]
        (Some (Some updated, None)).

Inductive statusHandled (input : UpdateServerStatusInput)
  : list HandlerEvent
    -> option (option ServerResponse * option handlerError) -> Prop :=
  | status_bad_header :
      bearerToken input.(Authorization) = None ->
      statusHandled input [] (Some (None, Some invalidAuthorizationHeader))
  | status_bad_token token claims e :
      bearerToken input.(Authorization) = Some token ->
      statusHandled input
        [HvValidateToken token (claims, Some e)]
        (Some (None, Some (Error401Unauthorized
                             "Invalid or expired Registry JWT token" [e])))
  | status_bad_name token claims serverName e :
      bearerToken input.(Authorization) = Some token ->
      statusHandled input
        [HvValidateToken token (claims, None);
         HvPathUnescape input.(InputServerName) (serverName, Some e)]
        (Some (None, Some (Error400BadRequestWith
                             "Invalid server name encoding" [e])))
  | status_bad_version token claims serverName version e :
      bearerToken input.(Authorization) = Some token ->
      statusHandled input
        [HvValidateToken token (claims, None);
         HvPathUnescape input.(InputServerName) (serverName, None);
         HvPathUnescape input.(InputVersion) (version, Some e)]
        (Some (None, Some (Error400BadRequestWith
                             "Invalid version encoding" [e])))
  | status_read_error token claims serverName version currentServer e :
      bearerToken input.(Authorization) = Some token ->
      statusHandled input
        [HvValidateToken token (claims, None);
         HvPathUnescape input.(InputServerName) (serverName, None);
         HvPathUnescape input.(InputVersion) (version, None);
         HvGetServerByNameAndVersion serverName version true
           (currentServer, Some e)]
        (Some (None,
               Some (if errors_Is_ErrNotFound e
                     then Error404NotFound "Server version not found"
                     else Error500InternalServerError
                            "Failed to get server" [e])))
  | status_nil_pointer token claims serverName version currentServer :
      bearerToken input.(Authorization) = Some token ->
      claims = None \/ currentServer = None ->
      statusHandled input
        [HvValidateToken token (claims, None);
         HvPathUnescape input.(InputServerName) (serverName, None);
         HvPathUnescape input.(InputVersion) (version, None);
         HvGetServerByNameAndVersion serverName version true
           (currentServer, None)]
        None
  | status_authorized token claims serverName version currentServer rest r :
      bearerToken input.(Authorization) = Some token ->
      statusAuthorized input serverName version currentServer claims rest r ->
      statusHandled input
        (HvValidateToken token (Some claims, None)
         :: HvPathUnescape input.(InputServerName) (serverName, None)
         :: HvPathUnescape input.(InputVersion) (version, None)
         :: HvGetServerByNameAndVersion serverName version true
              (Some currentServer, None)
         :: rest)
        r.

(** The runs of [updateAllVersionsStatusHandler]. *)
Inductive allVersionsAuthorized (input : UpdateAllVersionsStatusInput)
    (serverName : string) (currentServer : ServerResponse) (claims : JWTClaims)
  : list HandlerEvent
    -> option (option UpdateAllVersionsStatusResponse * option handlerError)
    -> Prop :=
  | all_forbidden :
      allVersionsAuthorized input serverName currentServer claims
        [HvHasPermission currentServer.(Server).(Name) PermissionActionPublish
           claims.(Permissions) false;
         HvHasPermission currentServer.(Server).(Name) PermissionActionEdit
           claims.(Permissions) false]
        (Some (None, Some (Error403Forbidden
                             "You do not have publish or edit permissions for this server")))
  | all_versions_error hasPublish hasEdit allVersions e :
      hasPublish || hasEdit = true ->
      allVersionsAuthorized input serverName currentServer claims
        [HvHasPermission currentServer.(Server).(Name) PermissionActionPublish
           claims.(Permissions) hasPublish;
         HvHasPermission currentServer.(Server).(Name) PermissionActionEdit
           claims.(Permissions) hasEdit;
         HvGetAllVersionsByServerName serverName true (allVersions, Some e)]
        (Some (None, Some (Error500InternalServerError
                             "Failed to get server versions" [e])))
  | all_rejected hasPublish hasEdit allVersions e :
      hasPublish || hasEdit = true ->
      validateBulkStatusTransition allVersions input.(AllBody).(BodyStatus)
        input.(AllBody) = Some e ->
      allVersionsAuthorized input serverName currentServer claims
        [HvHasPermission currentServer.(Server).(Name) PermissionActionPublish
           claims.(Permissions) hasPublish;
         HvHasPermission currentServer.(Server).(Name) PermissionActionEdit
           claims.(Permissions) hasEdit;
         HvGetAllVersionsByServerName serverName true (allVersions, None)]
        (Some (None, Some (Returned e)))
  | all_update_failed hasPublish hasEdit allVersions updated e :
      hasPublish || hasEdit = true ->
      validateBulkStatusTransition allVersions input.(AllBody).(BodyStatus)
        input.(AllBody) = None ->
      allVersionsAuthorized input serverName currentServer claims
        [HvHasPermission currentServer.(Server).(Name) PermissionActionPublish
           claims.(Permissions) hasPublish;
         HvHasPermission currentServer.(Server).(Name) PermissionActionEdit
           claims.(Permissions) hasEdit;
         HvGetAllVersionsByServerName serverName true (allVersions, None);
         HvUpdateAllVersionsStatus serverName
           (buildStatusChangeRequestFromBody input.(AllBody)) (updated, Some e)]
        (Some (None,
               Some (if errors_Is_ErrNotFound e
                     then Error404NotFound "Server not found"
                     else Error400BadRequestWith
                            "Failed to update server status" [e])))
  | all_updated hasPublish hasEdit allVersions updated :
      hasPublish || hasEdit = true ->
      validateBulkStatusTransition allVersions input.(AllBody).(BodyStatus)
        input.(AllBody) = None ->
      allVersionsAuthorized input serverName currentServer claims
        [HvHasPermission currentServer.(Server).(Name) PermissionActionPublish
           claims.(Permissions) hasPublish;
         HvHasPermission currentServer.(Server).(Name) PermissionActionEdit
           claims.(Permissions) hasEdit;
         HvGetAllVersionsByServerName serverName true (allVersions, None);
         HvUpdateAllVersionsStatus serverName
           (buildStatusChangeRequestFromBody input.(AllBody)) (updated, None)]
        (Some (Some (mkAllVersionsResponse (Z.of_nat (List.length updated))
                       updated),
               None)).

Inductive allVersionsHandled (input : UpdateAllVersionsStatusInput)
  : list HandlerEvent
    -> option (option UpdateAllVersionsStatusResponse * option handlerError)
    -> Prop :=
  | all_bad_header :
      bearerToken input.(AllAuthorization) = None ->
      allVersionsHandled input [] (Some (None, Some invalidAuthorizationHeader))
  | all_bad_token token claims e :
      bearerToken input.(AllAuthorization) = Some token ->
      allVersionsHandled input
        [HvValidateToken token (claims, Some e)]
        (Some (None, Some (Error401Unauthorized
                             "Invalid or expired Registry JWT token" [e])))
  | all_bad_name token claims serverName e :
      bearerToken input.(AllAuthorization) = Some token ->
      allVersionsHandled input
        [HvValidateToken token (claims, None);
         HvPathUnescape input.(AllServerName) (serverName, Some e)]
        (Some (None, Some (Error400BadRequestWith
                             "Invalid server name encoding" [e])))
  | all_read_error token claims serverName currentServer e :
      bearerToken input.(AllAuthorization) = Some token ->
      allVersionsHandled input
        [HvValidateToken token (claims, None);
         HvPathUnescape input.(AllServerName) (serverName, None);
         HvGetServerByName serverName true (currentServer, Some e)]
        (Some (None,
               Some (if errors_Is_ErrNotFound e
                     then Error404NotFound "Server not found"
                     else Error500InternalServerError
                            "Failed to get server" [e])))
  | all_nil_pointer token claims serverName currentServer :
      bearerToken input.(AllAuthorization) = Some token ->
      claims = None \/ currentServer = None ->
      allVersionsHandled input
        [HvValidateToken token (claims, None);
         HvPathUnescape input.(AllServerName) (serverName, None);
         HvGetServerByName serverName true (currentServer, None)]
        None
  | all_authorized token claims serverName currentServer rest r :
      bearerToken input.(AllAuthorization) = Some token ->
      allVersionsAuthorized input serverName currentServer claims rest r ->
      allVersionsHandled input
        (HvValidateToken token (Some claims, None)
         :: HvPathUnescape input.(AllServerName) (serverName, None)
         :: HvGetServerByName serverName true (Some currentServer, None)
         :: rest)
        r.

(** ** Sample registries *)

(** A comparator to run the publish workflow with: the tokens are compared
    lexically and the more recent publication wins a tie. *)
Definition lexicalCompareVersions (v1 v2 : string) (t1 t2 : Time) : Z :=
  match String.compare v1 v2 with
  | Lt => -1
  | Gt => 1
  | Eq => if t1 <? t2 then -1 else if t2 <? t1 then 1 else 0
  end.

Definition acceptAll : memstore.Validators :=
  memstore.mkValidators (fun _ => None) (fun _ _ => None).

Definition sampleRepo : Repository :=
  mkRepository "https://github.com/u/s" "github" "1".

Definition sampleServer (name version url : string) : ServerJSON :=
  mkServerJSON "https://static.modelcontextprotocol.io/schemas/server.schema.json"
    name "A sample server" version sampleRepo [mkTransport "streamable-http" url].

Definition sampleMeta (status : Status) (message : option string)
    (latest : bool) : RegistryExtensions :=
  mkRegistryExtensions status message 10 10 10 latest.

Definition sampleRow (name version url : string) (status : Status)
    (message : option string) (latest : bool) : memstore.Row :=
  memstore.mkRow (sampleServer name version url)
    (sampleMeta status message latest).

Definition sampleResponse (status : Status) (message : option string)
  : ServerResponse :=
  memstore.response
    (sampleRow "io.github.u/s" "1.0.0" "https://u.example/mcp" status message true).

Definition emptyStore : memstore.Store := memstore.mkStore [] 100 [].

(** One active version of [io.github.u/s]. *)
Definition storeV1 : memstore.Store :=
  memstore.mkStore
    [sampleRow "io.github.u/s" "1.0.0" "https://u.example/mcp" StatusActive None true]
    100 [].

(** [io.github.u/s] is deleted and [io.github.w/t] has taken its URL. *)
Definition storeStolen : memstore.Store :=
  memstore.mkStore
    [sampleRow "io.github.u/s" "1.0.0" "https://u.example/mcp" StatusDeleted None true;
     sampleRow "io.github.w/t" "0.1.0" "https://u.example/mcp" StatusActive None true]
    100 [].

(** [io.github.u/s] is deleted and nobody else uses its URL. *)
Definition storeDeleted : memstore.Store :=
  memstore.mkStore
    [sampleRow "io.github.u/s" "1.0.0" "https://u.example/mcp" StatusDeleted None true;
     sampleRow "io.github.u/s" "0.9.0" "https://u.example/mcp" StatusActive None false]
    100 [].

(** A registry in which [io.github.u/s] has [n] versions, numbered in two
    characters. *)
Fixpoint manyVersions (n : nat) : list memstore.Row :=
  match n with
  | O => []
  | S n' =>
      sampleRow "io.github.u/s"
        (String (ascii_of_nat (n' / 128)) (String (ascii_of_nat (n' mod 128)) ""))
        "https://u.example/mcp" StatusActive None false
      :: manyVersions n'
  end.

Definition crowdedStore : memstore.Store :=
  memstore.mkStore (manyVersions (Z.to_nat maxServerVersionsPerServer)) 100 [].

(** A descriptor without remotes. *)
Definition plainServer (name version : string) : ServerJSON :=
  mkServerJSON "https://static.modelcontextprotocol.io/schemas/server.schema.json"
    name "A sample server" version sampleRepo [].

Definition versionWithoutMetadata : ServerResponse :=
  mkServerResponse (sampleServer "io.github.u/s" "1.0.0" "https://u.example/mcp")
    (mkResponseMeta None).

(** ** Faulty stores *)

(** [faulty plan h] answers as [plan] says where it says something and as
    [h] everywhere else; the state is left alone by a planned answer. *)
Definition faulty {S} (plan : forall X, db.Op X -> option X) (h : handler S)
  : handler S :=
  fun X c s =>
    match plan X c with
    | Some x => (x, s)
    | None => h X c s
    end.

(** Every lock request is refused with [e]. *)
Definition lockRefused (e : error) : forall X, db.Op X -> option X :=
  fun X c =>
    match c in db.Op X return option X with
    | db.AcquirePublishLock _ => Some (Some e)
    | _ => None
    end.

(** Every listing fails with [e]. *)
Definition listingFails (e : error) : forall X, db.Op X -> option X :=
  fun X c =>
    match c in db.Op X return option X with
    | db.ListServers _ _ _ => Some ([], "", Some e)
    | _ => None
    end.

(** The version count fails with [e]. *)
Definition countFails (e : error) : forall X, db.Op X -> option X :=
  fun X c =>
    match c in db.Op X return option X with
    | db.CountServerVersions _ => Some (0, Some e)
    | _ => None
    end.

(** Two versions of [io.github.u/s], both active. *)
Definition storeTwoActive : memstore.Store :=
  memstore.mkStore
    [sampleRow "io.github.u/s" "1.0.0" "https://u.example/mcp" StatusActive None true;
     sampleRow "io.github.u/s" "0.9.0" "https://u.example/mcp" StatusActive None false]
    100 [].

(** ** Sample collaborators of the handlers *)

(** The collaborators of a handler answer every call. *)
Definition collaborators := forall X, v0.Op X -> X.

Fixpoint serve {A} (env : collaborators) (t : Req A)
  : option A * list HandlerEvent :=
  match t with
  | Reply a => (Some a, [])
  | Crash => (None, [])
  | Ask c k =>
      let x := env _ c in
      let '(r, tr) := serve env (k x) in
      (r, handler_event_of c x :: tr)
  end.

Definition hexValue (c : ascii) : option nat :=
  let n := nat_of_ascii c in
  if ((48 <=? n) && (n <=? 57))%nat then Some (n - 48)%nat
  else if ((65 <=? n) && (n <=? 70))%nat then Some (n - 55)%nat
  else if ((97 <=? n) && (n <=? 102))%nat then Some (n - 87)%nat
  else None.

(** Percent-decoding of a path segment: [%XY] with two hexadecimal digits
    is one byte, any other use of [%] is an error. *)
Fixpoint unescape (s : string) : option string :=
  match s with
  | EmptyString => Some EmptyString
  | String "%" (String a (String b rest)) =>
      match hexValue a, hexValue b, unescape rest with
      | Some x, Some y, Some decoded =>
          Some (String (ascii_of_nat (16 * x + y)) decoded)
      | _, _, _ => None
      end
  | String "%" _ => None
  | String c rest =>
      match unescape rest with
      | Some decoded => Some (String c decoded)
      | None => None
      end
  end.

Definition actionEqb (a b : PermissionAction) : bool :=
  match a, b with
  | PermissionActionPublish, PermissionActionPublish => true
  | PermissionActionEdit, PermissionActionEdit => true
  | _, _ => false
  end.

(** A permission covers a resource when its pattern, read up to a closing
    star, is a prefix of the resource. *)
Definition covers (resource : string) (action : PermissionAction)
    (p : Permission) : bool :=
  let pattern := p.(ResourcePattern) in
  let stem :=
    if String.prefix "*" (String.substring (String.length pattern - 1) 1 pattern)
       && negb (pattern =? "")%string
    then String.substring 0 (String.length pattern - 1) pattern
    else pattern in
  actionEqb p.(PermAction) action && String.prefix stem resource.

(** The tokens the sample collaborators know: a publisher of
    [io.github.u/*] and a visitor without permissions. *)
Definition sampleTokens (token : string) : option JWTClaims :=
  if (token =? "publisher-token")%string
  then Some (mkJWTClaims [mkPermission PermissionActionPublish "io.github.u/*"])
  else if (token =? "visitor-token")%string
  then Some (mkJWTClaims [])
  else None.

(** Collaborators over a registry in state [s]: the reads come from the
    store, an update is the service workflow run on the store, run under
    the store's environment [h]. *)
Definition registryOver (h : handler memstore.Store) (s : memstore.Store)
  : collaborators :=
  fun X c =>
    match c in v0.Op X return X with
    | v0.ValidateToken token =>
        match sampleTokens token with
        | Some claims => (Some claims, None)
        | None => (None, Some (Errorf "token is not valid"))
        end
    | v0.PathUnescape text =>
        match unescape text with
        | Some decoded => (decoded, None)
        | None => (EmptyString, Some (Errorf "invalid URL escape"))
        end
    | v0.GetServerByNameAndVersion n ver d =>
        memstore.GetServerByNameAndVersion n ver d s
    | v0.GetServerByName n _ => memstore.GetCurrentLatestVersion n s
    | v0.GetAllVersionsByServerName n _ =>
        (map memstore.response (filter (memstore.hasName n) s.(memstore.rows)),
         None)
    | v0.HasPermission resource action permissions =>
        existsb (covers resource action) permissions
    | v0.UpdateServerStatus n ver statusChange =>
        match fst (fst (exec h
                          (service.updateServerStatusInTransaction n ver
                             statusChange) s)) with
        | Some ans => ans
        | None => (None, Some (Errorf "panic"))
        end
    | v0.UpdateAllVersionsStatus n statusChange =>
        match fst (fst (exec h
                          (service.updateAllVersionsStatusInTransaction n
                             statusChange) s)) with
        | Some ans => ans
        | None => ([], Some (Errorf "panic"))
        end
    end.

Definition sampleStatusInput (authorization name version : string)
    (status : Status) (message : option string) : UpdateServerStatusInput :=
  mkStatusInput authorization name version (mkBody status message).

Definition sampleAllVersionsInput (authorization name : string)
    (status : Status) (message : option string)
  : UpdateAllVersionsStatusInput :=
  mkAllVersionsInput authorization name (mkBody status message).

(** * Properties *)

(** ** The status-transition validator *)

Section ValidatorFacts.

Lemma isNil_false_iff {A} (p : option A) : isNil p = false <-> p <> None.
Proof. destruct p; simpl; split; intro H; congruence. Qed.

Lemma messageChanges_false_iff (c n : option string) :
  messageChanges c n = false <-> c = n.
Proof.
  unfold messageChanges.
  destruct c as [c|], n as [n|]; simpl; split; intro H;
    try congruence; try discriminate.
  - apply negb_false_iff, String.eqb_eq in H. congruence.
  - injection H as ->. now rewrite String.eqb_refl.
Qed.

Lemma messageChanges_true_iff (c n : option string) :
  messageChanges c n = true <-> c <> n.
Proof.
  rewrite <- not_false_iff_true, messageChanges_false_iff. tauto.
Qed.

(** What the validator does once its first two checks have passed. *)
Lemma validateStatusTransition_checked cur newStatus body :
  validStatuses newStatus = true ->
  (newStatus = StatusActive -> body.(BodyStatusMessage) = None) ->
  validateStatusTransition cur newStatus body =
    match cur.(Meta).(Official) with
    | None => None
    | Some official =>
        if negb (official.(Status_) =? newStatus)%string
           || messageChanges official.(StatusMessage) body.(BodyStatusMessage)
        then None
        else Some (Error400BadRequest
                     "No changes to apply: status and message are already set to the provided values")
    end.
Proof.
  intros Hvalid Hactive. unfold validateStatusTransition.
  rewrite Hvalid. simpl negb at 1. cbv iota.
  destruct (String.eqb_spec newStatus StatusActive) as [Heq|Hne].
  - rewrite (Hactive Heq). reflexivity.
  - reflexivity.
Qed.

End ValidatorFacts.

(** C6: a request for status [active] that carries a status message is
    rejected with the 400 error [status_message cannot be provided when
    setting status to active], whatever the current status and message of
    the version are. *)
Theorem active_with_message_rejected :
  forall (currentServer : ServerResponse) (bodyStatus message : string),
    validateStatusTransition currentServer StatusActive
      (mkBody bodyStatus (Some message))
    = Some (Error400BadRequest
              "status_message cannot be provided when setting status to active").
Proof. intros. reflexivity. Qed.

(** C10: when the version carries no official metadata, a request that
    passes the valid-status check and the active-with-message check is
    accepted; the no-op comparison is not made. *)
Theorem missing_metadata_accepted :
  forall (currentServer : ServerResponse) (newStatus : Status)
         (body : UpdateServerStatusBody),
    currentServer.(Meta).(Official) = None ->
    validStatuses newStatus = true ->
    (newStatus = StatusActive -> body.(BodyStatusMessage) = None) ->
    validateStatusTransition currentServer newStatus body = None.
Proof.
  intros cur newStatus body Hnone Hvalid Hactive.
  rewrite validateStatusTransition_checked by assumption.
  now rewrite Hnone.
Qed.

(** C5, as the validator has it: for a version with official metadata and a
    request that passes the valid-status and the active-with-message checks,
    the request is rejected with the 400 error [No changes to apply: status
    and message are already set to the provided values] when status and
    message both equal the current ones, and accepted when either differs. *)
Theorem noop_rejected_change_accepted :
  forall (currentServer : ServerResponse) (official : RegistryExtensions)
         (newStatus : Status) (body : UpdateServerStatusBody),
    currentServer.(Meta).(Official) = Some official ->
    validStatuses newStatus = true ->
    (newStatus = StatusActive -> body.(BodyStatusMessage) = None) ->
    (official.(Status_) = newStatus
     /\ official.(StatusMessage) = body.(BodyStatusMessage) ->
     validateStatusTransition currentServer newStatus body
     = Some (Error400BadRequest
               "No changes to apply: status and message are already set to the provided values"))
    /\ (official.(Status_) <> newStatus
        \/ official.(StatusMessage) <> body.(BodyStatusMessage) ->
        validateStatusTransition currentServer newStatus body = None).
Proof.
  intros cur official newStatus body Hoff Hvalid Hactive.
  rewrite validateStatusTransition_checked by assumption.
  rewrite Hoff. split.
  - intros [Hs Hm].
    apply String.eqb_eq in Hs. apply messageChanges_false_iff in Hm.
    now rewrite Hs, Hm.
  - intros [Hs | Hm].
    + apply String.eqb_neq in Hs. now rewrite Hs.
    + apply messageChanges_true_iff in Hm. rewrite Hm.
      now rewrite orb_true_r.
Qed.

(** C5 as stated fails: the version is deprecated without a message and
    the request asks for [active] with a message, so the status differs, yet
    the validator rejects the request. *)
Lemma status_differs_yet_rejected :
  (exists official,
      (sampleResponse StatusDeprecated None).(Meta).(Official) = Some official
      /\ official.(Status_) <> StatusActive)
  /\ validateStatusTransition (sampleResponse StatusDeprecated None)
       StatusActive (mkBody "active" (Some "x"))
     = Some (Error400BadRequest
               "status_message cannot be provided when setting status to active").
Proof.
  split.
  - eexists. split; [reflexivity | discriminate].
  - reflexivity.
Qed.

Lemma anyVersionAccepts_iff versions newStatus body :
  anyVersionAccepts versions newStatus body = true
  <-> exists version,
        In version versions
        /\ validateStatusTransition version newStatus body = None.
Proof.
  induction versions as [|v rest IH]; simpl.
  - split; [discriminate | intros (? & [] & _)].
  - destruct (validateStatusTransition v newStatus body) eqn:Hv.
    + rewrite IH. split.
      * intros (w & Hin & Hw). eauto.
      * intros (w & [<- | Hin] & Hw); [congruence | eauto].
    + split; eauto.
Qed.

(** C7: over a non-empty list of versions the bulk validator accepts exactly
    when the single-version validator accepts the request for at least one
    version; otherwise it rejects with the 400 error [No changes to apply:
    all versions already have the requested status and message]. *)
Theorem bulk_accepts_iff_some_version_accepts :
  forall (versions : list ServerResponse) (newStatus : Status)
         (body : UpdateServerStatusBody),
    versions <> [] ->
    (validateBulkStatusTransition versions newStatus body = None
     <-> exists version,
           In version versions
           /\ validateStatusTransition version newStatus body = None)
    /\ (validateBulkStatusTransition versions newStatus body <> None ->
        validateBulkStatusTransition versions newStatus body
        = Some (Error400BadRequest
                  "No changes to apply: all versions already have the requested status and message")).
Proof.
  intros versions newStatus body Hne.
  destruct versions as [|v rest]; [congruence|].
  unfold validateBulkStatusTransition.
  rewrite <- anyVersionAccepts_iff.
  destruct (anyVersionAccepts (v :: rest) newStatus body); split;
    try tauto; try congruence; split; congruence.
Qed.

(** ** Runs of transaction programs *)

Section RunFacts.

Lemma runs_bind {A B} (t : Tx A) (f : A -> Tx B) tr r :
  runs (bind t f) tr r <->
  exists tr1 r1,
    runs t tr1 r1
    /\ match r1 with
       | Some a => exists tr2, tr = (tr1 ++ tr2)%list /\ runs (f a) tr2 r
       | None => tr = tr1 /\ r = None
       end.
Proof.
  revert tr. induction t as [a | | X c k IH]; intros tr; simpl.
  - split.
    + intros H. exists [], (Some a). split; [now split|]. now exists tr.
    + intros (tr1 & r1 & [-> ->] & tr2 & -> & H). exact H.
  - split.
    + intros [-> ->]. exists [], None. repeat split.
    + intros (tr1 & r1 & [-> ->] & -> & ->). now split.
  - split.
    + intros (x & tr' & -> & H). apply IH in H.
      destruct H as (tr1 & r1 & H1 & H2).
      exists (event_of c x :: tr1), r1. split; [now exists x, tr1|].
      destruct r1 as [a|].
      * destruct H2 as (tr2 & -> & H2). now exists tr2.
      * destruct H2 as [-> ->]. now split.
    + intros (tr1 & r1 & (x & tr' & -> & H1) & H2).
      destruct r1 as [a|].
      * destruct H2 as (tr2 & -> & H2). exists x, (tr' ++ tr2)%list.
        split; [reflexivity|]. apply IH. exists tr', (Some a).
        split; [assumption|]. now exists tr2.
      * destruct H2 as [-> ->]. exists x, tr'. split; [reflexivity|].
        apply IH. exists tr', None. now repeat split.
Qed.

Lemma runs_call {X} (c : db.Op X) tr r :
  runs (call c) tr r <-> exists x, tr = [event_of c x] /\ r = Some x.
Proof.
  unfold call. simpl. split.
  - intros (x & tr' & -> & -> & ->). now exists x.
  - intros (x & -> & ->). now exists x, [].
Qed.

(** Every execution against an environment is a run. *)
Lemma exec_runs {S A} (h : handler S) (t : Tx A) :
  forall s r s' tr, exec h t s = (r, s', tr) -> runs t tr r.
Proof.
  induction t as [a | | X c k IH]; intros s r s' tr; simpl.
  - intros [= <- _ <-]. now split.
  - intros [= <- _ <-]. now split.
  - destruct (h X c s) as [x s1] eqn:Hh.
    destruct (exec h (k x) s1) as [[r2 s2] tr2] eqn:He.
    intros [= <- _ <-]. exists x, tr2. split; [reflexivity|].
    eapply IH. eassumption.
Qed.

Lemma exec_is_run {S A} (h : handler S) (t : Tx A) (s : S) :
  runs t (snd (exec h t s)) (fst (fst (exec h t s))).
Proof.
  destruct (exec h t s) as [[r s'] tr] eqn:He. simpl.
  eapply exec_runs. eassumption.
Qed.

Lemma exec_bind {S A B} (h : handler S) (t : Tx A) (f : A -> Tx B) :
  forall s,
    exec h (bind t f) s =
    let '(r1, s1, tr1) := exec h t s in
    match r1 with
    | Some a =>
        let '(r2, s2, tr2) := exec h (f a) s1 in (r2, s2, (tr1 ++ tr2)%list)
    | None => (None, s1, tr1)
    end.
Proof.
  induction t as [a | | X c k IH]; intros s; simpl.
  - now destruct (exec h (f a) s) as [[r2 s2] tr2].
  - reflexivity.
  - destruct (h X c s) as [x s1]. rewrite IH.
    destruct (exec h (k x) s1) as [[r1 s2] tr1].
    destruct r1 as [a|]; [|reflexivity].
    now destruct (exec h (f a) s2) as [[r2 s3] tr2].
Qed.

End RunFacts.

(** ** The remote-URL check *)

Section RemoteCheckFacts.

Lemma conflictingName_Some name rows other :
  service.conflictingName name rows = Some other ->
  exists row, In row rows /\ row.(Server).(Name) = other /\ other <> name.
Proof.
  induction rows as [|row rest IH]; simpl; [discriminate|].
  destruct (String.eqb_spec row.(Server).(Name) name) as [Heq|Hne]; simpl.
  - intros H. destruct (IH H) as (row' & Hin & Hrow). eauto.
  - intros [= <-]. eauto.
Qed.

Lemma conflictingName_None name rows :
  service.conflictingName name rows = None <->
  forall row, In row rows -> row.(Server).(Name) = name.
Proof.
  induction rows as [|row rest IH]; simpl.
  - split; [intros _ ? [] | reflexivity].
  - destruct (String.eqb_spec row.(Server).(Name) name) as [Heq|Hne]; simpl.
    + rewrite IH. split.
      * intros H row' [<- | Hin]; auto.
      * intros H row' Hin. auto.
    + split; [discriminate|]. intros H. elim Hne. auto.
Qed.

Lemma isRemoteCheck_weaken url urls e :
  isRemoteCheck urls e -> isRemoteCheck (url :: urls) e.
Proof. intros (u & ans & Hin & ->). exists u, ans. simpl. auto. Qed.

Lemma checkRemotes_runs name remotes :
  forall tr r,
    runs (service.checkRemotes name remotes) tr r ->
    Forall (isRemoteCheck (map URL remotes)) tr
    /\ exists err,
         r = Some err
         /\ ((exists url other e, In e tr /\ listsConflict name url other e) ->
             exists url other e,
               In e tr /\ listsConflict name url other e
               /\ In url (map URL remotes)
               /\ err = Some (service.errRemoteURLInUse url other))
         /\ ((exists url other, err = Some (service.errRemoteURLInUse url other)) ->
             exists url other e, In e tr /\ listsConflict name url other e)
         /\ (err = None <-> Forall (listsOnly name) tr)
         /\ (err = None -> listedAll remotes tr).
Proof.
  induction remotes as [|remote rest IH]; intros tr r; simpl.
  - intros [-> ->]. split; [constructor|]. exists None. repeat split.
    + intros (? & ? & ? & [] & _).
    + intros (? & ? & [=]).
    + constructor.
    + constructor.
  - cbn [runs bind call].
    intros ([[rows next] [e|]] & tr1 & -> & H).
    + destruct H as [-> ->]. split.
      { constructor; [|constructor]. eexists _, _. split; [now left | reflexivity]. }
      eexists. split; [reflexivity|]. repeat split.
      * intros (url & other & ev & [<- | []] & (? & ? & ? & [=] & _)).
      * intros (? & ? & [=]).
      * discriminate.
      * intros Hall. inversion Hall as [|? ? Hev _]; subst.
        destruct (Hev _ _ _ _ _ _ eq_refl) as [[=] _].
      * discriminate.
    + destruct (service.conflictingName name rows) as [other|] eqn:Hconf.
      * destruct H as [-> ->].
        destruct (conflictingName_Some _ _ Hconf) as (row & Hin & Hrow & Hne).
        assert (listsConflict name remote.(URL) other
                  (EvListServers (service.remoteURLFilter remote.(URL)) "" 1000
                     (rows, next, None))) as Hlc.
        { exists rows, next, row. auto. }
        split.
        { constructor; [|constructor]. eexists _, _. split; [now left | reflexivity]. }
        eexists. split; [reflexivity|]. repeat split.
        -- intros _. eexists _, _, _. repeat split; [now left | exact Hlc | now left].
        -- intros _. eexists _, _, _. split; [now left | exact Hlc].
        -- discriminate.
        -- intros Hall. inversion Hall as [|? ? Hev _]; subst.
           destruct (Hev _ _ _ _ _ _ eq_refl) as [_ Hrows].
           elim Hne. rewrite <- (Hrows _ Hin). reflexivity.
        -- discriminate.
      * destruct (IH _ _ H) as (Hchecks & err & -> & Hfound & Honly & Hnone & Hall).
        assert (listsOnly name
                  (EvListServers (service.remoteURLFilter remote.(URL)) "" 1000
                     (rows, next, None))) as Hlo.
        { intros f c l rows' next' err' [= _ _ _ <- _ <-]. split; [reflexivity|].
          now apply conflictingName_None. }
        assert (forall url other,
                   ~ listsConflict name url other
                       (EvListServers (service.remoteURLFilter remote.(URL)) "" 1000
                          (rows, next, None))) as Hnc.
        { intros url other (rows' & next' & row & [= _ <- _] & Hin & Hrow & Hne).
          apply Hne. rewrite <- Hrow.
          now apply (proj1 (conflictingName_None name rows) Hconf). }
        split.
        { constructor.
          - eexists _, _. split; [now left | reflexivity].
          - eapply Forall_impl; [|exact Hchecks].
            intros. now apply isRemoteCheck_weaken. }
        exists err. split; [reflexivity|]. repeat split.
        -- intros (url & other & ev & [<- | Hin] & Hlc); [now elim (Hnc url other)|].
           destruct Hfound as (url' & other' & ev' & Hin' & Hlc' & Hurl & Herr);
             [eauto|].
           exists url', other', ev'. repeat split; auto. now right.
        -- intros Herr. destruct (Honly Herr) as (url & other & ev & Hin & Hlc).
           exists url, other, ev. split; [now right | assumption].
        -- intros Herr. constructor; [exact Hlo | now apply Hnone].
        -- intros Hforall. inversion Hforall; subst. now apply Hnone.
        -- intros Herr. constructor; [now eexists | now apply Hall].
Qed.

Lemma validateNoDuplicateRemoteURLs_returns serverDetail tr r :
  runs (service.validateNoDuplicateRemoteURLs serverDetail) tr r ->
  Forall (isRemoteCheck (map URL serverDetail.(Remotes))) tr
  /\ exists err, r = Some err.
Proof.
  intros H. apply checkRemotes_runs in H.
  destruct H as (Hchecks & err & -> & _). eauto.
Qed.

End RemoteCheckFacts.

(** ** Runs of the publish workflow *)

Section PublishFacts.

Variable CompareVersions : string -> string -> Time -> Time -> Z.

Lemma publish_checked_runs req publishTime tr r :
  runs
    ('(versionCount, err) <- call (db.CountServerVersions req.(Name)) ;;
     if service.failedOtherThanNotFound err then Ret (None, err)
     else if versionCount >=? maxServerVersionsPerServer
     then Ret (None, Some ErrMaxServersReached)
     else
     '(versionExists, err) <-
       call (db.CheckVersionExists req.(Name) req.(Version)) ;;
     match err with Some e => Ret (None, Some e) | None =>
     if versionExists then Ret (None, Some ErrInvalidVersion) else
     '(currentLatest, err) <- call (db.GetCurrentLatestVersion req.(Name)) ;;
     if service.failedOtherThanNotFound err then Ret (None, err)
     else
     let isNewLatest :=
       service.isNewLatest CompareVersions req publishTime currentLatest in
     err <- (if isNewLatest && negb (isNil currentLatest)
             then call (db.UnmarkAsLatest req.(Name))
             else Ret None) ;;
     match err with Some e => Ret (None, Some e) | None =>
     let officialMeta :=
       mkRegistryExtensions StatusActive None publishTime publishTime
         publishTime isNewLatest in
     call (db.CreateServer req officialMeta)
     end end) tr r ->
  publishChecked CompareVersions req publishTime tr r.
Proof.
  cbn [runs bind call].
  intros ([versionCount err] & tr1 & -> & H).
  destruct (service.failedOtherThanNotFound err) eqn:Herr.
  { destruct H as [-> ->]. now constructor. }
  destruct (versionCount >=? maxServerVersionsPerServer) eqn:Hcount.
  { destruct H as [-> ->]. constructor; [assumption|]. 
    apply Z.geb_le in Hcount. lia. }
  assert (versionCount < maxServerVersionsPerServer) as Hlt.
  { rewrite Z.geb_leb in Hcount. apply Z.leb_gt in Hcount. exact Hcount. }
  cbn [runs bind call] in H.
  destruct H as ([versionExists [e|]] & tr2 & -> & H).
  { destruct H as [-> ->]. now constructor. }
  destruct versionExists.
  { destruct H as [-> ->]. now constructor. }
  cbn [runs bind call] in H.
  destruct H as ([currentLatest err'] & tr3 & -> & H).
  destruct (service.failedOtherThanNotFound err') eqn:Herr'.
  { destruct H as [-> ->]. now constructor. }
  pose proof (@publish_keeps_flags CompareVersions req publishTime versionCount
                err currentLatest err') as Hkeep.
  destruct currentLatest as [current|].
  - destruct (service.isNewLatest CompareVersions req publishTime (Some current))
      eqn:Hnew; cbn [isNil negb andb runs bind call] in H.
    + destruct H as ([e|] & tr4 & -> & H); cbn [runs bind call] in H.
      * destruct H as [-> ->]. now constructor.
      * destruct H as (ans & tr5 & -> & -> & ->). now constructor.
    + destruct H as (ans & tr5 & -> & -> & ->). apply Hkeep; auto.
  - rewrite andb_false_r in H. cbn [runs bind call] in H.
    destruct H as (ans & tr5 & -> & -> & ->). apply Hkeep; auto.
Qed.

Lemma publish_runs req tr r :
  runs (service.createServerInTransaction CompareVersions req) tr r ->
  publishRun CompareVersions req tr r.
Proof.
  unfold service.createServerInTransaction. cbn [runs bind call].
  intros ([e|] & tr1 & -> & H).
  { destruct H as [-> ->]. constructor. }
  cbn [runs bind call] in H.
  destruct H as (publishTime & tr2 & -> & [e|] & tr3 & -> & H).
  { destruct H as [-> ->]. constructor. }
  apply runs_bind in H. destruct H as (checks & rc & Hc & H).
  destruct rc as [[e|]|].
  - destruct H as (rest & -> & -> & ->).
    apply publish_locked. now constructor.
  - destruct H as (rest & -> & H).
    apply publish_locked. apply publish_checked; [assumption|].
    now apply publish_checked_runs.
  - apply validateNoDuplicateRemoteURLs_returns in Hc.
    destruct Hc as (_ & ? & [=]).
Qed.
End PublishFacts.

Lemma isRemoteCheck_not_write urls e : isRemoteCheck urls e -> isWrite e = false.
Proof. now intros (? & ? & _ & ->). Qed.

Lemma publish_checks_quiet req checks err :
  runs (service.validateNoDuplicateRemoteURLs req) checks (Some err) ->
  Forall (isRemoteCheck (map URL req.(Remotes))) checks.
Proof. intros H. now apply validateNoDuplicateRemoteURLs_returns in H. Qed.

Lemma remote_check_in urls checks e :
  Forall (isRemoteCheck urls) checks -> In e checks ->
  exists f c l ans, e = EvListServers f c l ans.
Proof.
  intros Hall Hin. rewrite Forall_forall in Hall.
  destruct (Hall _ Hin) as (? & ? & _ & ->). eauto.
Qed.

(** C3: when [CheckVersionExists] reports, without error, that the (name,
    version) pair of the request exists, the publish returns the
    duplicate-version error [ErrInvalidVersion] (the Conflict of the publish
    workflow) and the run has made no call that creates or modifies a row. *)
Theorem duplicate_version_rejected :
  forall (CompareVersions : string -> string -> Time -> Time -> Z)
         (req : ServerJSON) (tr : list Event)
         (r : option (option ServerResponse * option error)),
    runs (service.createServerInTransaction CompareVersions req) tr r ->
    In (EvCheckVersionExists req.(Name) req.(Version) (true, None)) tr ->
    r = Some (None, Some ErrInvalidVersion)
    /\ Forall (fun e => isWrite e = false) tr.
Proof.
  intros cmp req tr r Hrun Hin. apply publish_runs in Hrun.
  destruct Hrun as [e | publishTime e | publishTime checks rest r Hlocked].
  - destruct Hin as [[=] | []].
  - destruct Hin as [[=] | [[=] | [[=] | []]]].
  - destruct Hin as [[=] | [[=] | [[=] | Hin]]].
    apply in_app_or in Hin.
    destruct Hlocked as [publishTime checks e Hchecks
                        | publishTime checks rest r Hchecks Hrest];
      apply publish_checks_quiet in Hchecks.
    + destruct Hin as [Hin | []].
      destruct (@remote_check_in _ _ _ Hchecks Hin) as (? & ? & ? & ? & [=]).
    + destruct Hin as [Hin | Hin].
      { destruct (@remote_check_in _ _ _ Hchecks Hin) as (? & ? & ? & ? & [=]). }
      assert (Forall (fun e => isWrite e = false) checks) as Hquiet.
      { eapply Forall_impl; [|exact Hchecks].
        intros. eapply isRemoteCheck_not_write; eassumption. }
      destruct Hrest; simpl in Hin;
        repeat match goal with
               | H : _ \/ _ |- _ => destruct H as [H | H]
               | H : False |- _ => destruct H
               | H : _ = _ :> Event |- _ => discriminate H
               end.
      split; [reflexivity|].
      repeat constructor. apply Forall_app. split; [assumption|].
      repeat constructor.
Qed.

(** C4: once [CountServerVersions] has answered for the name of the request
    (without an error other than not-found), a count of 10000 or more makes
    the publish return [ErrMaxServersReached] without any write, and a count
    below 10000 lets it go on to the duplicate-version check. *)
Theorem version_limit_guard :
  forall (CompareVersions : string -> string -> Time -> Time -> Z)
         (req : ServerJSON) (tr : list Event)
         (r : option (option ServerResponse * option error))
         (versionCount : Z) (err : option error),
    runs (service.createServerInTransaction CompareVersions req) tr r ->
    In (EvCountServerVersions req.(Name) (versionCount, err)) tr ->
    service.failedOtherThanNotFound err = false ->
    (versionCount >= 10000 ->
     r = Some (None, Some ErrMaxServersReached)
     /\ Forall (fun e => isWrite e = false) tr)
    /\ (versionCount < 10000 ->
        exists ans,
          In (EvCheckVersionExists req.(Name) req.(Version) ans) tr).
Proof.
  intros cmp req tr r versionCount err Hrun Hin Herr.
  apply publish_runs in Hrun.
  destruct Hrun as [e | publishTime e | publishTime checks rest r Hlocked].
  - destruct Hin as [[=] | []].
  - destruct Hin as [[=] | [[=] | [[=] | []]]].
  - destruct Hin as [[=] | [[=] | [[=] | Hin]]].
    apply in_app_or in Hin.
    destruct Hlocked as [publishTime checks e Hchecks
                        | publishTime checks rest r Hchecks Hrest];
      apply publish_checks_quiet in Hchecks.
    + destruct Hin as [Hin | []].
      destruct (@remote_check_in _ _ _ Hchecks Hin) as (? & ? & ? & ? & [=]).
    + destruct Hin as [Hin | Hin].
      { destruct (@remote_check_in _ _ _ Hchecks Hin) as (? & ? & ? & ? & [=]). }
      assert (Forall (fun e => isWrite e = false) checks) as Hquiet.
      { eapply Forall_impl; [|exact Hchecks].
        intros. eapply isRemoteCheck_not_write; eassumption. }
      destruct Hrest; unfold maxServerVersionsPerServer in *; simpl in Hin;
        repeat match goal with
               | H : _ \/ _ |- _ => destruct H as [H | H]
               | H : False |- _ => destruct H
               | H : _ = _ :> Event |- _ => first [discriminate H | injection H as -> ->]
               end;
        (split; [intros Hge | intros Hlt]);
        try lia; try congruence.
      all: try (split; [reflexivity|];
                repeat constructor; apply Forall_app; split; [assumption|];
                repeat constructor).
      all: eexists; do 3 right; apply in_or_app; right; simpl; eauto.
Qed.

(** ** The latest flag in the in-memory store *)

Section LatestFacts.

Import memstore.

Lemma isLatestOf_unmark_same name r : isLatestOf name (unmark name r) = false.
Proof.
  unfold isLatestOf, unmark.
  destruct (hasName name r) eqn:Hn; simpl.
  - unfold hasName in *. simpl. now rewrite andb_false_r.
  - now rewrite Hn.
Qed.

Lemma isLatestOf_unmark_other name name' r :
  name' <> name -> isLatestOf name' (unmark name r) = isLatestOf name' r.
Proof.
  intros Hne. unfold isLatestOf, unmark.
  destruct (hasName name r) eqn:Hn; [|reflexivity].
  unfold hasName in *. simpl. apply String.eqb_eq in Hn.
  destruct (String.eqb_spec r.(descriptor).(Name) name'); [congruence|].
  reflexivity.
Qed.

Lemma latestCount_unmark name name' s :
  latestCount name' (snd (UnmarkAsLatest name s)) =
  if (name' =? name)%string then O else latestCount name' s.
Proof.
  unfold latestCount, UnmarkAsLatest. simpl.
  destruct (String.eqb_spec name' name) as [-> | Hne].
  - induction (rows s) as [|r rest IH]; simpl; [reflexivity|].
    now rewrite isLatestOf_unmark_same.
  - induction (rows s) as [|r rest IH]; simpl; [reflexivity|].
    rewrite isLatestOf_unmark_other by assumption.
    destruct (isLatestOf name' r); simpl; now rewrite IH.
Qed.

Lemma latestCount_create name d m s :
  (latestCount name (snd (CreateServer d m s))
   <= latestCount name s + (if isLatestOf name (mkRow d m) then 1 else 0))%nat.
Proof.
  unfold CreateServer.
  repeat match goal with
         | |- context [if ?b then _ else _] =>
             lazymatch b with
             | isLatestOf _ _ => fail
             | _ => destruct b
             end
         end; simpl; try lia.
  unfold latestCount. simpl. rewrite filter_app, length_app. simpl.
  destruct (isLatestOf name (mkRow d m)); simpl; lia.
Qed.

Lemma latestCount_none name s :
  find (isLatestOf name) s.(rows) = None -> latestCount name s = O.
Proof.
  unfold latestCount. induction (rows s) as [|r rest IH]; simpl; [reflexivity|].
  destruct (isLatestOf name r); [discriminate | exact IH].
Qed.

Lemma exec_checkRemotes v name remotes s :
  exists err tr,
    exec (handle v) (service.checkRemotes name remotes) s = (Some err, s, tr).
Proof.
  induction remotes as [|remote rest IH];
    cbn [exec bind call handle service.checkRemotes]; [eauto|].
  destruct (ListServers (service.remoteURLFilter (URL remote)) "" 1000 s)
    as [[rowsL next] [e|]]; cbn [exec]; [eauto|].
  destruct (service.conflictingName name rowsL); cbn [exec]; [eauto|].
  destruct IH as (err & tr & ->). eauto.
Qed.

Lemma final_Do {S A X} (h : handler S) (c : db.Op X) (k : X -> Tx A) s :
  snd (fst (exec h (Do c k) s))
  = snd (fst (exec h (k (fst (h X c s))) (snd (h X c s)))).
Proof.
  simpl. destruct (h X c s) as [x s1]. simpl.
  now destruct (exec h (k x) s1) as [[r s2] tr].
Qed.

Lemma final_bind {S A B} (h : handler S) (t : Tx A) (f : A -> Tx B) s a s1 tr :
  exec h t s = (Some a, s1, tr) ->
  snd (fst (exec h (bind t f) s)) = snd (fst (exec h (f a) s1)).
Proof.
  intros H. rewrite exec_bind, H.
  now destruct (exec h (f a) s1) as [[r2 s2] tr2].
Qed.

(** Publishing keeps the number of latest versions of every name at most
    one. *)
Lemma publish_keeps_one_latest cmp v req s name :
  (latestCount name s <= 1)%nat ->
  (latestCount name
     (snd (fst (exec (handle v) (service.createServerInTransaction cmp req) s)))
   <= 1)%nat.
Proof.
  intros Hone. unfold service.createServerInTransaction.
  cbn [bind call]. rewrite final_Do. cbn [handle fst snd].
  destruct (validatePublish v req); [exact Hone|].
  cbn [bind call]. rewrite !final_Do. cbn [handle fst snd AcquirePublishLock].
  set (s1 := mkStore (rows s) (clock s + 1) (req.(Name) :: locks s)).
  assert (latestCount name s1 = latestCount name s) as H1 by reflexivity.
  unfold service.validateNoDuplicateRemoteURLs.
  destruct (exec_checkRemotes v req.(Name) req.(Remotes) s1) as (err & trc & Hc).
  rewrite (final_bind _ _ _ _ Hc).
  destruct err as [e|]; [now rewrite <- H1 in Hone|].
  cbn [bind call]. rewrite final_Do.
  cbn [handle fst snd CountServerVersions service.failedOtherThanNotFound].
  destruct (_ >=? maxServerVersionsPerServer); [now rewrite <- H1 in Hone|].
  cbn [bind call]. rewrite final_Do. cbn [handle fst snd CheckVersionExists].
  destruct (existsb _ _); [now rewrite <- H1 in Hone|].
  cbn [bind call]. rewrite final_Do.
  cbn [handle fst snd]. unfold GetCurrentLatestVersion.
  change (rows s1) with (rows s).
  destruct (find (isLatestOf req.(Name)) (rows s)) as [current|] eqn:Hfind.
  - cbn [service.failedOtherThanNotFound isNil negb].
    destruct (service.isNewLatest cmp req (clock s) (Some (response current)))
      eqn:Hnew; cbn [andb bind call]; unfold call; rewrite final_Do; cbn [handle].
    + pose proof (latestCount_unmark req.(Name) name s1) as Hu.
      destruct (UnmarkAsLatest req.(Name) s1) as [eu s2] eqn:Hun.
      assert (eu = None) as -> by (unfold UnmarkAsLatest in Hun; congruence).
      cbn [fst snd bind call] in *. unfold call. rewrite final_Do. cbn [handle].
      match goal with
      | |- context [CreateServer ?d ?m s2] =>
          pose proof (latestCount_create name d m s2) as Hcr;
          destruct (CreateServer d m s2) as [ansC s3]
      end.
      cbn [fst snd exec] in *. unfold isLatestOf, hasName in Hcr.
      cbn [descriptor meta IsLatest] in Hcr. rewrite andb_true_r in Hcr.
      rewrite (String.eqb_sym req.(Name) name) in Hcr.
      destruct (name =? req.(Name))%string; lia.
    + match goal with
      | |- context [CreateServer ?d ?m s1] =>
          pose proof (latestCount_create name d m s1) as Hcr;
          destruct (CreateServer d m s1) as [ansC s3]
      end.
      cbn [fst snd exec] in *. unfold isLatestOf in Hcr.
      cbn [meta IsLatest] in Hcr. rewrite andb_false_r in Hcr. lia.
  - cbn [service.failedOtherThanNotFound errors_Is_ErrNotFound negb isNil].
    rewrite andb_false_r. cbn [bind call]. unfold call. rewrite final_Do.
    cbn [handle].
    match goal with
    | |- context [CreateServer ?d ?m s1] =>
        pose proof (latestCount_create name d m s1) as Hcr;
        destruct (CreateServer d m s1) as [ansC s3]
    end.
    cbn [fst snd exec] in *.
    unfold isLatestOf, hasName in Hcr. cbn [descriptor meta IsLatest] in Hcr.
    destruct (String.eqb_spec req.(Name) name) as [<- | Hne]; simpl in Hcr.
    + rewrite H1, (latestCount_none _ _ Hfind) in Hcr. lia.
    + lia.
Qed.

End LatestFacts.

(** C1: the new row is inserted with [isLatest = true] when the name has no
    current latest version, and otherwise exactly when the comparator ranks
    the new version with its publish time strictly above the current latest
    with its publication time; when the new version becomes latest while a
    current latest exists, [UnmarkAsLatest] is the call right before the
    insert, and it is not called otherwise.  Run against the store, a publish
    therefore leaves at most one version of a name with [isLatest = true]. *)
Theorem publish_latest_policy :
  forall (CompareVersions : string -> string -> Time -> Time -> Z)
         (req : ServerJSON),
    (forall tr r serverJSON officialMeta ans,
        runs (service.createServerInTransaction CompareVersions req) tr r ->
        In (EvCreateServer serverJSON officialMeta ans) tr ->
        insertedAsDecided CompareVersions req tr r serverJSON officialMeta ans)
    /\ (forall validators s name,
           (memstore.latestCount name s <= 1)%nat ->
           (memstore.latestCount name
              (snd (fst (exec (memstore.handle validators)
                           (service.createServerInTransaction CompareVersions req)
                           s)))
            <= 1)%nat).
Proof.
  intros cmp req. split; [|intros; now apply publish_keeps_one_latest].
  intros tr r d m ans Hrun Hin. unfold insertedAsDecided.
  apply publish_runs in Hrun.
  destruct Hrun as [e | publishTime e | publishTime checks rest r Hlocked].
  - destruct Hin as [[=] | []].
  - destruct Hin as [[=] | [[=] | [[=] | []]]].
  - destruct Hin as [[=] | [[=] | [[=] | Hin]]].
    apply in_app_or in Hin.
    destruct Hlocked as [publishTime checks e Hchecks
                        | publishTime checks rest r Hchecks Hrest];
      apply publish_checks_quiet in Hchecks.
    + destruct Hin as [Hin | []].
      destruct (@remote_check_in _ _ _ Hchecks Hin) as (? & ? & ? & ? & [=]).
    + destruct Hin as [Hin | Hin].
      { destruct (@remote_check_in _ _ _ Hchecks Hin) as (? & ? & ? & ? & [=]). }
      assert (Forall (fun e => isUnmark e = false) checks) as Hquiet.
      { eapply Forall_impl; [|exact Hchecks].
        now intros ? (? & ? & _ & ->). }
      destruct Hrest as [ | | | | |
                          | publishTime versionCount err currentLatest err' ans'
                              Herr Hlt Herr' Hnew Hcur
                          | publishTime versionCount err currentLatest err' ans'
                              Herr Hlt Herr' Hnew ];
        simpl in Hin;
        repeat match goal with
               | H : _ \/ _ |- _ => destruct H as [H | H]
               | H : False |- _ => destruct H
               | H : _ = _ :> Event |- _ =>
                   first [discriminate H | injection H as <- <- <-]
               end.
      1: { exists publishTime, currentLatest, err'.
        exists (EvValidatePublishRequest req None :: EvTimeNow publishTime
                :: EvAcquirePublishLock req.(Name) None
                :: checks ++
                   [EvCountServerVersions req.(Name) (versionCount, err);
                    EvCheckVersionExists req.(Name) req.(Version) (false, None);
                    EvGetCurrentLatestVersion req.(Name) (currentLatest, err');
                    EvUnmarkAsLatest req.(Name) None])%list.
        repeat split.
        -- simpl. now rewrite <- app_assoc.
        -- simpl. auto.
        -- do 3 right. apply in_or_app. right. simpl. auto.
        -- cbn [IsLatest]. rewrite <- Hnew.
           destruct currentLatest; [reflexivity | congruence].
        -- intros _.
           exists (EvValidatePublishRequest req None :: EvTimeNow publishTime
                   :: EvAcquirePublishLock req.(Name) None
                   :: checks ++
                      [EvCountServerVersions req.(Name) (versionCount, err);
                       EvCheckVersionExists req.(Name) req.(Version) (false, None);
                       EvGetCurrentLatestVersion req.(Name) (currentLatest, err')])%list.
           simpl. now rewrite <- app_assoc.
        -- cbn [IsLatest]. intros [[=] | Hnone]. congruence. }
      all: exists publishTime, currentLatest, err';
        exists (EvValidatePublishRequest req None :: EvTimeNow publishTime
                :: EvAcquirePublishLock req.(Name) None
                :: checks ++
                   [EvCountServerVersions req.(Name) (versionCount, err);
                    EvCheckVersionExists req.(Name) req.(Version) (false, None);
                    EvGetCurrentLatestVersion req.(Name) (currentLatest, err')])%list;
        repeat split;
        [ simpl; now rewrite <- app_assoc
        | simpl; auto
        | do 3 right; apply in_or_app; right; simpl; auto
        | cbn [IsLatest]; intros [Htrue Hsome]; congruence
        | intros _; repeat constructor; apply Forall_app;
          split; [assumption | repeat constructor] ].
Qed.

(** ** Listing *)

(** C9: the service lists with limit 30 when the caller's limit is zero or
    negative, and with the caller's limit when it is strictly positive; the
    store is called once, with the caller's filter and cursor. *)
Theorem list_servers_default_limit :
  forall (filter : option ServerFilter) (cursor : string) (limit : Z)
         (tr : list Event)
         (r : option (list ServerResponse * string * option error)),
    runs (service.ListServers filter cursor limit) tr r ->
    (limit <= 0 -> exists ans, tr = [EvListServers filter cursor 30 ans])
    /\ (0 < limit -> exists ans, tr = [EvListServers filter cursor limit ans]).
Proof.
  intros filter cursor limit tr r. unfold service.ListServers.
  cbn [runs bind call].
  intros ([[records next] err] & tr' & -> & H).
  assert (tr' = []) as ->.
  { destruct err; now destruct H. }
  split; intros Hlimit.
  - apply Z.leb_le in Hlimit. rewrite Hlimit. eexists. reflexivity.
  - apply Z.leb_gt in Hlimit. rewrite Hlimit. eexists. reflexivity.
Qed.

Ltac each_call := repeat (first [apply Forall_cons | apply Forall_nil]).

(** ** Restoring a deleted version *)

(** C8: a single-version status change to [active] on a version whose
    current status is [deleted] runs the remote-URL check on that version
    after the lock and before [SetServerStatus].  If some listing of the
    check names a server with another name, the operation fails with
    [remote URL <url> is already used by server <name>] for such a URL and
    name and the status is not written; it fails that way only then; and
    listings that name versions of the same name only never stop it: every
    remote is listed and the status is written. *)
Theorem restore_rechecks_remote_urls :
  forall (serverName version : string) (statusChange : StatusChangeRequest)
         (currentServer : ServerResponse) (official : RegistryExtensions)
         (tr : list Event)
         (r : option (option ServerResponse * option error)),
    statusChange.(NewStatus) = StatusActive ->
    currentServer.(Meta).(Official) = Some official ->
    official.(Status_) = StatusDeleted ->
    runs (service.updateServerStatusInTransaction serverName version statusChange)
      (EvGetServerByNameAndVersion serverName version true
         (Some currentServer, None)
       :: EvAcquirePublishLock serverName None :: tr) r ->
    let candidate := currentServer.(Server) in
    let urls := map URL candidate.(Remotes) in
    (exists checks rest,
        tr = (checks ++ rest)%list
        /\ Forall (isRemoteCheck urls) checks
        /\ (rest = []
            \/ exists ans,
                 rest = [EvSetServerStatus serverName version StatusActive
                           statusChange.(ChangeStatusMessage) ans]
                 /\ r = Some ans))
    /\ ((exists url other e,
            In e tr /\ listsConflict candidate.(Name) url other e) ->
        exists url other e,
          In e tr /\ listsConflict candidate.(Name) url other e
          /\ In url urls
          /\ r = Some (None, Some (service.errRemoteURLInUse url other))
          /\ Forall (fun e' => isWrite e' = false) tr)
    /\ ((exists url other,
            r = Some (None, Some (service.errRemoteURLInUse url other)))
        /\ Forall (fun e' => isWrite e' = false) tr ->
        exists url other e,
          In e tr /\ listsConflict candidate.(Name) url other e)
    /\ (Forall (listsOnly candidate.(Name)) tr ->
        exists checks ans,
          tr = (checks ++
                [EvSetServerStatus serverName version StatusActive
                   statusChange.(ChangeStatusMessage) ans])%list
          /\ listedAll candidate.(Remotes) checks
          /\ r = Some ans).
Proof.
  intros serverName version statusChange cur official tr r Hactive Hoff Hdel.
  unfold service.updateServerStatusInTransaction. cbn [runs bind call].
  intros (x & tr1 & Heq & H). cbn [event_of] in Heq.
  injection Heq as <- <-.
  cbn [runs bind call] in H. destruct H as (x & tr2 & Heq & H).
  cbn [event_of] in Heq. injection Heq as <- <-.
  rewrite Hactive, Hoff, Hdel in H. cbn [String.eqb andb] in H.
  change ("active" =? StatusActive)%string with true in H.
  change ("deleted" =? StatusDeleted)%string with true in H.
  cbv iota in H. cbv zeta.
  apply runs_bind in H. destruct H as (checks & rc & Hc & H).
  unfold service.validateNoDuplicateRemoteURLs in Hc.
  apply checkRemotes_runs in Hc.
  destruct Hc as (Hchecks & err & -> & Hfound & Honly & Hnone & Hall).
  destruct H as (rest & -> & H).
  assert (Forall (fun e' => isWrite e' = false) checks) as Hquiet.
  { eapply Forall_impl; [|exact Hchecks].
    intros. eapply isRemoteCheck_not_write; eassumption. }
  destruct err as [e|].
  - destruct H as [-> ->]. rewrite app_nil_r. repeat split.
    + exists checks, []. rewrite app_nil_r. auto.
    + intros Hex. destruct (Hfound Hex) as (url & other & ev & Hin & Hlc & Hurl & [= ->]).
      exists url, other, ev. auto.
    + intros [(url & other & [= ->]) _]. apply Honly. eauto.
    + intros Honly'. apply Hnone in Honly'. discriminate.
  - apply runs_call in H. destruct H as (ans & -> & ->). cbn [event_of].
    assert (forall url other e,
               In e (checks ++
                     [EvSetServerStatus serverName version StatusActive
                        (ChangeStatusMessage statusChange) ans])%list ->
               listsConflict cur.(Server).(Name) url other e ->
               False) as Hno.
    { intros url other ev Hin Hlc. apply in_app_or in Hin.
      destruct Hin as [Hin | [<- | []]].
      - destruct Hfound as (? & ? & ? & _ & _ & _ & [=]). eauto.
      - destruct Hlc as (? & ? & ? & [=] & _). }
    repeat split.
    + exists checks, [EvSetServerStatus serverName version StatusActive
                       (ChangeStatusMessage statusChange) ans].
      repeat split; eauto.
    + intros (url & other & ev & Hin & Hlc). elim (Hno _ _ _ Hin Hlc).
    + intros [_ Hw]. apply Forall_app in Hw. destruct Hw as [_ Hw].
      inversion Hw; subst. discriminate.
    + intros _. exists checks, ans. auto.
Qed.

(** * The properties on sample registries *)

(** A version without official metadata accepts a deprecation. *)
Lemma missing_metadata_accepted_witness :
  versionWithoutMetadata.(Meta).(Official) = None
  /\ validateStatusTransition versionWithoutMetadata StatusDeprecated
       (mkBody "deprecated" (Some "superseded")) = None.
Proof.
  split; [reflexivity|].
  apply missing_metadata_accepted; [reflexivity | reflexivity | discriminate].
Defined.

(** A deprecated version with message [old]: the same request again is a
    no-op, a new message is a change. *)
Lemma noop_rejected_change_accepted_witness :
  validateStatusTransition (sampleResponse StatusDeprecated (Some "old"))
    StatusDeprecated (mkBody "deprecated" (Some "old"))
  = Some (Error400BadRequest
            "No changes to apply: status and message are already set to the provided values")
  /\ validateStatusTransition (sampleResponse StatusDeprecated (Some "old"))
       StatusDeprecated (mkBody "deprecated" (Some "new"))
     = None.
Proof.
  split.
  - apply (noop_rejected_change_accepted
             (sampleResponse StatusDeprecated (Some "old"))
             (official := sampleMeta StatusDeprecated (Some "old") true)
             (newStatus := StatusDeprecated)
             (mkBody "deprecated" (Some "old")));
      [reflexivity | reflexivity | discriminate | split; reflexivity].
  - apply (noop_rejected_change_accepted
             (sampleResponse StatusDeprecated (Some "old"))
             (official := sampleMeta StatusDeprecated (Some "old") true)
             (newStatus := StatusDeprecated)
             (mkBody "deprecated" (Some "new")));
      [reflexivity | reflexivity | discriminate | right; discriminate].
Defined.

(** One deprecated version among the versions lets a bulk activation pass;
    three active versions do not. *)
Lemma bulk_accepts_iff_some_version_accepts_witness :
  validateBulkStatusTransition
    [sampleResponse StatusActive None; sampleResponse StatusDeprecated None]
    StatusActive (mkBody "active" None) = None
  /\ validateBulkStatusTransition
       [sampleResponse StatusActive None; sampleResponse StatusActive None;
        sampleResponse StatusActive None]
       StatusActive (mkBody "active" None)
     = Some (Error400BadRequest
               "No changes to apply: all versions already have the requested status and message").
Proof.
  split.
  - apply (proj1 (bulk_accepts_iff_some_version_accepts
                    (versions := [sampleResponse StatusActive None;
                                  sampleResponse StatusDeprecated None])
                    StatusActive (mkBody "active" None)
                    ltac:(discriminate))).
    exists (sampleResponse StatusDeprecated None).
    split; [right; left; reflexivity | reflexivity].
  - apply (proj2 (bulk_accepts_iff_some_version_accepts
                    (versions := [sampleResponse StatusActive None;
                                  sampleResponse StatusActive None;
                                  sampleResponse StatusActive None])
                    StatusActive (mkBody "active" None)
                    ltac:(discriminate))).
    discriminate.
Defined.

(** Limits -5 and 7 against the one-version registry. *)
Lemma list_servers_default_limit_witness :
  (exists ans,
      snd (exec (memstore.handle acceptAll) (service.ListServers None "" (-5))
             storeV1)
      = [EvListServers None "" 30 ans])
  /\ (exists ans,
         snd (exec (memstore.handle acceptAll) (service.ListServers None "" 7)
                storeV1)
         = [EvListServers None "" 7 ans]).
Proof.
  split.
  - apply (proj1 (@list_servers_default_limit None "" (-5) _ _
                    (exec_is_run (memstore.handle acceptAll)
                       (service.ListServers None "" (-5)) storeV1))).
    lia.
  - apply (proj2 (@list_servers_default_limit None "" 7 _ _
                    (exec_is_run (memstore.handle acceptAll)
                       (service.ListServers None "" 7) storeV1))).
    lia.
Defined.

(** Publishing version 1.0.0 again on the one-version registry. *)
Lemma duplicate_version_rejected_witness :
  let req := sampleServer "io.github.u/s" "1.0.0" "https://u.example/mcp" in
  let run :=
    exec (memstore.handle acceptAll)
      (service.createServerInTransaction lexicalCompareVersions req) storeV1 in
  fst (fst run) = Some (None, Some ErrInvalidVersion)
  /\ Forall (fun e => isWrite e = false) (snd run).
Proof.
  intros req run.
  apply (@duplicate_version_rejected lexicalCompareVersions req _ _
           (exec_is_run (memstore.handle acceptAll)
              (service.createServerInTransaction lexicalCompareVersions req)
              storeV1)).
  vm_compute. do 5 right. left. reflexivity.
Defined.

(** Publishing to a name with 10000 versions, and to a name with one. *)
Lemma version_limit_guard_witness :
  let req := plainServer "io.github.u/s" "next" in
  let crowded :=
    exec (memstore.handle acceptAll)
      (service.createServerInTransaction lexicalCompareVersions req)
      crowdedStore in
  let normal :=
    exec (memstore.handle acceptAll)
      (service.createServerInTransaction lexicalCompareVersions req) storeV1 in
  (fst (fst crowded) = Some (None, Some ErrMaxServersReached)
   /\ Forall (fun e => isWrite e = false) (snd crowded))
  /\ (exists ans,
         In (EvCheckVersionExists req.(Name) req.(Version) ans) (snd normal)).
Proof.
  intros req crowded normal. split.
  - apply (proj1 (@version_limit_guard lexicalCompareVersions req _ _
                    10000 None
                    (exec_is_run (memstore.handle acceptAll)
                       (service.createServerInTransaction
                          lexicalCompareVersions req)
                       crowdedStore)
                    ltac:(vm_compute; do 3 right; left; reflexivity)
                    eq_refl)).
    lia.
  - apply (proj2 (@version_limit_guard lexicalCompareVersions req _ _
                    1 None
                    (exec_is_run (memstore.handle acceptAll)
                       (service.createServerInTransaction
                          lexicalCompareVersions req)
                       storeV1)
                    ltac:(vm_compute; do 3 right; left; reflexivity)
                    eq_refl)).
    lia.
Defined.

(** Publishing 2.0.0 over 1.0.0: the old latest is unmarked and the new row
    is inserted as latest. *)
Lemma publish_latest_policy_witness :
  let req := sampleServer "io.github.u/s" "2.0.0" "https://u.example/mcp" in
  let officialMeta :=
    mkRegistryExtensions StatusActive None 100 100 100 true in
  let ans :=
    (Some (mkServerResponse req (mkResponseMeta (Some officialMeta))), None) in
  let run :=
    exec (memstore.handle acceptAll)
      (service.createServerInTransaction lexicalCompareVersions req) storeV1 in
  insertedAsDecided lexicalCompareVersions req (snd run) (fst (fst run))
    req officialMeta ans
  /\ (memstore.latestCount "io.github.u/s" (snd (fst run)) <= 1)%nat.
Proof.
  intros req officialMeta ans run. split.
  - apply (proj1 (publish_latest_policy lexicalCompareVersions req)
             (snd run) (fst (fst run)) req officialMeta ans
             (exec_is_run (memstore.handle acceptAll)
                (service.createServerInTransaction lexicalCompareVersions req)
                storeV1)).
    vm_compute. do 8 right. left. reflexivity.
  - apply (proj2 (publish_latest_policy lexicalCompareVersions req)
             acceptAll storeV1 "io.github.u/s").
    vm_compute. lia.
Defined.

(** Restoring a deleted version whose URL another server has taken fails;
    restoring one whose URL only its own name uses goes through. *)
Lemma restore_rechecks_remote_urls_witness :
  let name := "io.github.u/s" in
  let url := "https://u.example/mcp" in
  let change := mkStatusChangeRequest StatusActive None in
  let current := memstore.response
                   (sampleRow name "1.0.0" url StatusDeleted None true) in
  let stolen :=
    exec (memstore.handle acceptAll)
      (service.updateServerStatusInTransaction name "1.0.0" change)
      storeStolen in
  let kept :=
    exec (memstore.handle acceptAll)
      (service.updateServerStatusInTransaction name "1.0.0" change)
      storeDeleted in
  (exists url' other e,
      In e (skipn 2 (snd stolen)) /\ listsConflict name url' other e
      /\ In url' [url]
      /\ fst (fst stolen)
         = Some (None, Some (service.errRemoteURLInUse url' other))
      /\ Forall (fun e' => isWrite e' = false) (skipn 2 (snd stolen)))
  /\ (exists checks ans,
         skipn 2 (snd kept)
         = (checks ++ [EvSetServerStatus name "1.0.0" StatusActive None ans])%list
         /\ listedAll [mkTransport "streamable-http" url] checks
         /\ fst (fst kept) = Some ans).
Proof.
  intros name url change current stolen kept. split.
  - apply (proj1 (proj2
             (@restore_rechecks_remote_urls name "1.0.0" change current
                (sampleMeta StatusDeleted None true)
                (skipn 2 (snd stolen)) (fst (fst stolen))
                eq_refl eq_refl eq_refl
                (exec_is_run (memstore.handle acceptAll)
                   (service.updateServerStatusInTransaction name "1.0.0" change)
                   storeStolen)))).
    exists url, "io.github.w/t".
    eexists. split; [left; reflexivity|].
    eexists _, _, _. split; [vm_compute; reflexivity|].
    split; [left; reflexivity|]. split; [reflexivity | discriminate].
  - apply (proj2 (proj2 (proj2
             (@restore_rechecks_remote_urls name "1.0.0" change current
                (sampleMeta StatusDeleted None true)
                (skipn 2 (snd kept)) (fst (fst kept))
                eq_refl eq_refl eq_refl
                (exec_is_run (memstore.handle acceptAll)
                   (service.updateServerStatusInTransaction name "1.0.0" change)
                   storeDeleted))))).
    vm_compute.
    repeat (first [apply Forall_cons | apply Forall_nil]).
    + intros f c l rows next err [= _ _ _ <- _ <-].
      split; [reflexivity|]. intros row [<- | []]. reflexivity.
    + intros f c l rows next err [=].
Defined.

(** * Further properties *)

(** ** The validators, case by case *)

Lemma validate_rejections :
  forall (currentServer : ServerResponse) (newStatus : Status)
         (body : UpdateServerStatusBody) (e : error),
    validateStatusTransition currentServer newStatus body = Some e ->
    (validStatuses newStatus = false
     /\ e = Error400BadRequest
              ("Invalid status: " ++ newStatus
               ++ ". Must be one of: active, deprecated, deleted"))
    \/ (newStatus = StatusActive
        /\ body.(BodyStatusMessage) <> None
        /\ e = Error400BadRequest
                 "status_message cannot be provided when setting status to active")
    \/ (validStatuses newStatus = true
        /\ (exists official,
               currentServer.(Meta).(Official) = Some official
               /\ official.(Status_) = newStatus
               /\ official.(StatusMessage) = body.(BodyStatusMessage))
        /\ e = Error400BadRequest
                 "No changes to apply: status and message are already set to the provided values").
Proof.
  intros cur newStatus body e. unfold validateStatusTransition.
  destruct (validStatuses newStatus) eqn:Hvalid; simpl negb; cbv iota.
  2:{ intros [= <-]. left. split; reflexivity. }
  destruct (String.eqb_spec newStatus StatusActive) as [Hact | Hact];
    destruct (isNil (BodyStatusMessage body)) eqn:Hmsg; simpl andb; cbv iota.
  2:{ intros [= <-]. right. left. repeat split; [assumption|].
      now apply isNil_false_iff. }
  all: destruct (Official (Meta cur)) as [official|]; [|discriminate].
  all: destruct (String.eqb_spec official.(Status_) newStatus) as [Hs | Hs];
    simpl; [|discriminate].
  all: destruct (messageChanges official.(StatusMessage) body.(BodyStatusMessage))
    eqn:Hm; [discriminate|].
  all: apply messageChanges_false_iff in Hm.
  all: intros [= <-]; right; right; repeat split; eauto.
Qed.

(** X1: every rejection of the single-version validator is one of three 400
    errors, each with its cause: the status is not a legal value; the status
    is active and a message is given; or the status is legal, the version
    has official metadata and status and message both equal the current
    ones. *)
Theorem validateStatusTransition_rejections :
  forall (currentServer : ServerResponse) (newStatus : Status)
         (body : UpdateServerStatusBody) (e : error),
    validateStatusTransition currentServer newStatus body = Some e ->
    (validStatuses newStatus = false
     /\ e = Error400BadRequest
              ("Invalid status: " ++ newStatus
               ++ ". Must be one of: active, deprecated, deleted"))
    \/ (newStatus = StatusActive
        /\ body.(BodyStatusMessage) <> None
        /\ e = Error400BadRequest
                 "status_message cannot be provided when setting status to active")
    \/ (validStatuses newStatus = true
        /\ (exists official,
               currentServer.(Meta).(Official) = Some official
               /\ official.(Status_) = newStatus
               /\ official.(StatusMessage) = body.(BodyStatusMessage))
        /\ e = Error400BadRequest
                 "No changes to apply: status and message are already set to the provided values").
Proof. exact validate_rejections. Qed.

Lemma validate_accepts_iff :
  forall (currentServer : ServerResponse) (newStatus : Status)
         (body : UpdateServerStatusBody),
    validateStatusTransition currentServer newStatus body = None
    <-> validStatuses newStatus = true
        /\ (newStatus = StatusActive -> body.(BodyStatusMessage) = None)
        /\ (forall official,
               currentServer.(Meta).(Official) = Some official ->
               official.(Status_) <> newStatus
               \/ official.(StatusMessage) <> body.(BodyStatusMessage)).
Proof.
  intros cur newStatus body. split.
  - intros Hnone.
    destruct (validStatuses newStatus) eqn:Hvalid.
    2:{ unfold validateStatusTransition in Hnone. rewrite Hvalid in Hnone.
        discriminate. }
    assert (newStatus = StatusActive -> BodyStatusMessage body = None) as Hact.
    { intros ->. destruct (BodyStatusMessage body) eqn:Hm; [|reflexivity].
      unfold validateStatusTransition in Hnone. rewrite Hm in Hnone.
      discriminate. }
    repeat split; [assumption|].
    intros official Hoff.
    rewrite validateStatusTransition_checked in Hnone by assumption.
    rewrite Hoff in Hnone.
    destruct (String.eqb_spec official.(Status_) newStatus) as [Hs | Hs];
      [|now left].
    simpl in Hnone.
    destruct (messageChanges official.(StatusMessage) body.(BodyStatusMessage))
      eqn:Hm; [|discriminate].
    right. now apply messageChanges_true_iff.
  - intros (Hvalid & Hact & Hchange).
    rewrite validateStatusTransition_checked by assumption.
    destruct (Official (Meta cur)) as [official|]; [|reflexivity].
    destruct (Hchange official eq_refl) as [Hs | Hm].
    + apply String.eqb_neq in Hs. now rewrite Hs.
    + apply messageChanges_true_iff in Hm. rewrite Hm. now rewrite orb_true_r.
Qed.

(** X2: the single-version validator accepts exactly the requests whose
    status is legal, that do not combine active with a message, and that
    change something: the version has no official metadata, or the status
    differs, or the message differs. *)
Theorem validateStatusTransition_accepts_iff :
  forall (currentServer : ServerResponse) (newStatus : Status)
         (body : UpdateServerStatusBody),
    validateStatusTransition currentServer newStatus body = None
    <-> validStatuses newStatus = true
        /\ (newStatus = StatusActive -> body.(BodyStatusMessage) = None)
        /\ (forall official,
               currentServer.(Meta).(Official) = Some official ->
               official.(Status_) <> newStatus
               \/ official.(StatusMessage) <> body.(BodyStatusMessage)).
Proof. exact validate_accepts_iff. Qed.

(** X3: the message comparison of the validator is inequality of optional
    strings: a missing message differs from every present one, the empty
    string included, and two present messages differ when their texts do;
    the comparison is symmetric. *)
Theorem messageChanges_is_inequality :
  forall (currentMessage newMessage : option string),
    (messageChanges currentMessage newMessage = true
     <-> currentMessage <> newMessage)
    /\ messageChanges currentMessage newMessage
       = messageChanges newMessage currentMessage.
Proof.
  intros c n. split.
  - destruct c as [c|], n as [n|]; unfold messageChanges; simpl;
      split; intro H; try congruence; try discriminate.
    + apply negb_true_iff, String.eqb_neq in H. congruence.
    + apply negb_true_iff, String.eqb_neq. congruence.
  - destruct c as [c|], n as [n|]; unfold messageChanges; simpl;
      try reflexivity.
    rewrite String.eqb_sym. reflexivity.
Qed.

(** X4: with no versions the bulk validator accepts every request, an
    illegal status included; with at least one version a request whose
    status is illegal, or that combines active with a message, is rejected
    with the bulk no-op message and not with the specific one. *)
Theorem bulk_masks_request_errors :
  forall (versions : list ServerResponse) (newStatus : Status)
         (body : UpdateServerStatusBody),
    validateBulkStatusTransition [] newStatus body = None
    /\ (versions <> [] ->
        validStatuses newStatus = false
        \/ (newStatus = StatusActive /\ body.(BodyStatusMessage) <> None) ->
        validateBulkStatusTransition versions newStatus body
        = Some (Error400BadRequest
                  "No changes to apply: all versions already have the requested status and message")).
Proof.
  intros versions newStatus body. split; [reflexivity|].
  intros Hne Hbad.
  destruct (validateBulkStatusTransition versions newStatus body) as [e|] eqn:Hb.
  - destruct versions as [|v rest]; [congruence|].
    unfold validateBulkStatusTransition in Hb.
    destruct (anyVersionAccepts (v :: rest) newStatus body); congruence.
  - exfalso. destruct versions as [|v rest]; [congruence|].
    unfold validateBulkStatusTransition in Hb.
    destruct (anyVersionAccepts (v :: rest) newStatus body) eqn:Hany;
      [|discriminate].
    apply anyVersionAccepts_iff in Hany. destruct Hany as (w & _ & Hw).
    apply validate_accepts_iff in Hw.
    destruct Hw as (Hvalid & Hact & _).
    destruct Hbad as [Hbad | [Heq Hmsg]]; [congruence | auto].
Qed.

(** X5: the verdict of the bulk validator depends on which versions are
    listed only, not on their order or on repetitions. *)
Theorem bulk_verdict_order_independent :
  forall (versions versions' : list ServerResponse) (newStatus : Status)
         (body : UpdateServerStatusBody),
    (forall version, In version versions <-> In version versions') ->
    validateBulkStatusTransition versions newStatus body
    = validateBulkStatusTransition versions' newStatus body.
Proof.
  intros versions versions' newStatus body Hsame.
  destruct versions as [|v rest]; destruct versions' as [|v' rest'].
  - reflexivity.
  - destruct (proj2 (Hsame v') (or_introl eq_refl)).
  - destruct (proj1 (Hsame v) (or_introl eq_refl)).
  - unfold validateBulkStatusTransition.
    destruct (anyVersionAccepts (v :: rest) newStatus body) eqn:H1;
      destruct (anyVersionAccepts (v' :: rest') newStatus body) eqn:H2;
      try reflexivity; exfalso.
    + apply anyVersionAccepts_iff in H1. destruct H1 as (w & Hin & Hw).
      apply not_true_iff_false in H2. apply H2.
      apply anyVersionAccepts_iff. exists w. split; [|assumption].
      now apply Hsame.
    + apply anyVersionAccepts_iff in H2. destruct H2 as (w & Hin & Hw).
      apply not_true_iff_false in H1. apply H1.
      apply anyVersionAccepts_iff. exists w. split; [|assumption].
      now apply Hsame.
Qed.

Lemma built_request_facts :
  forall (currentServer : ServerResponse) (body : UpdateServerStatusBody),
    let request := buildStatusChangeRequestFromBody body in
    request.(NewStatus) = body.(BodyStatus)
    /\ (request.(NewStatus) = StatusActive ->
        request.(ChangeStatusMessage) = None)
    /\ (validateStatusTransition currentServer body.(BodyStatus) body = None ->
        request.(ChangeStatusMessage) = body.(BodyStatusMessage)).
Proof.
  intros cur body. unfold buildStatusChangeRequestFromBody. simpl.
  split; [reflexivity|].
  destruct (String.eqb_spec body.(BodyStatus) StatusActive) as [Heq | Hne];
    simpl; split; try congruence; try reflexivity.
  intros Hok. apply validate_accepts_iff in Hok.
  destruct Hok as (_ & Hact & _). now rewrite Hact.
Qed.

(** X6: the status change built from a body never carries a message
    together with status active; and for a body the validator accepted the
    built request is the body as it is: same status, same message. *)
Theorem built_request_matches_validated_body :
  forall (currentServer : ServerResponse) (body : UpdateServerStatusBody),
    let request := buildStatusChangeRequestFromBody body in
    request.(NewStatus) = body.(BodyStatus)
    /\ (request.(NewStatus) = StatusActive ->
        request.(ChangeStatusMessage) = None)
    /\ (validateStatusTransition currentServer body.(BodyStatus) body = None ->
        request.(ChangeStatusMessage) = body.(BodyStatusMessage)).
Proof. exact built_request_facts. Qed.

(** ** Runs of the edit and status workflows *)

Section WorkflowRuns.

Lemma edit_runs serverName version req statusChange tr r :
  runs (service.updateServerInTransaction serverName version req statusChange)
    tr r ->
  editRun serverName version req statusChange tr r.
Proof.
  unfold service.updateServerInTransaction. cbn [runs bind call].
  intros ([currentServer [e|]] & tr1 & -> & H).
  { destruct H as [-> ->]. constructor. }
  destruct currentServer as [currentServer|].
  2:{ destruct H as [-> ->]. constructor. }
  cbn [runs bind call] in H.
  destruct H as ([e|] & tr2 & -> & H).
  { destruct H as [-> ->]. apply edit_invalid. }
  cbn [runs bind call] in H.
  destruct H as ([e|] & tr3 & -> & H).
  { destruct H as [-> ->]. apply edit_lock_failed. }
  apply runs_bind in H. destruct H as (checks & rc & Hc & H).
  destruct rc as [[e|]|].
  - destruct H as (rest & -> & -> & ->).
    apply edit_locked. now constructor.
  - destruct H as (rest & -> & H). cbn [runs bind call] in H.
    destruct H as ([updated [e|]] & tr4 & -> & H).
    { destruct H as [-> ->]. apply edit_locked. now constructor. }
    destruct statusChange as [sc|].
    + cbn [runs bind call] in H.
      destruct H as ([withStatus [e|]] & tr5 & -> & -> & ->);
        apply edit_locked.
      * now apply edit_status_failed.
      * now apply edit_status_set.
    + destruct H as [-> ->]. apply edit_locked. now apply edit_updated.
  - apply validateNoDuplicateRemoteURLs_returns in Hc.
    destruct Hc as (_ & ? & [=]).
Qed.

Lemma status_runs serverName version statusChange tr r :
  runs (service.updateServerStatusInTransaction serverName version statusChange)
    tr r ->
  statusRun serverName version statusChange tr r.
Proof.
  unfold service.updateServerStatusInTransaction. cbn [runs bind call].
  intros ([currentServer [e|]] & tr1 & -> & H).
  { destruct H as [-> ->]. constructor. }
  cbn [runs bind call] in H.
  destruct H as ([e|] & tr2 & -> & H).
  { destruct H as [-> ->]. constructor. }
  apply runs_bind in H. destruct H as (checks & rc & Hc & H).
  destruct (String.eqb_spec statusChange.(NewStatus) StatusActive)
    as [Hactive | Hother].
  - destruct currentServer as [currentServer|].
    2:{ destruct Hc as [-> ->]. destruct H as [-> ->].
        now apply status_read_nil. }
    destruct (currentlyDeleted currentServer) eqn:Hdel;
      unfold currentlyDeleted in Hdel; rewrite Hdel in Hc.
    + assert (restoring statusChange currentServer = true) as Hres.
      { unfold restoring, currentlyDeleted. rewrite Hdel, Hactive.
        reflexivity. }
      pose proof (@validateNoDuplicateRemoteURLs_returns _ _ _ Hc) as (_ & err & ->).
      destruct H as (rest & -> & H). destruct err as [e|].
      * destruct H as [-> ->]. rewrite app_nil_r.
        now apply status_restore_refused.
      * apply runs_call in H. destruct H as (ans & -> & ->).
        now apply status_restored.
    + destruct Hc as [-> ->]. destruct H as (rest & -> & H).
      apply runs_call in H. destruct H as (ans & -> & ->).
      apply (@status_set serverName version statusChange (Some currentServer)).
      unfold restoring, currentlyDeleted. rewrite Hdel. apply andb_false_r.
  - destruct Hc as [-> ->]. destruct H as (rest & -> & H).
    apply runs_call in H. destruct H as (ans & -> & ->).
    apply status_set. destruct currentServer as [current|]; [|assumption].
    unfold restoring. apply String.eqb_neq in Hother. now rewrite Hother.
Qed.

(** The calls of [revalidateDeleted] are remote-URL listings, and the loop
    returns. *)
Lemma revalidateDeleted_runs versions :
  forall tr r,
    runs (service.revalidateDeleted versions) tr r ->
    Forall (fun e => exists f c l ans, e = EvListServers f c l ans /\ l = 1000
                     /\ c = "" /\ exists url, f = service.remoteURLFilter url) tr
    /\ exists err, r = Some err.
Proof.
  induction versions as [|version rest IH]; intros tr r; simpl.
  - intros [-> ->]. split; [constructor | eauto].
  - intros H. apply runs_bind in H. destruct H as (checks & rc & Hc & H).
    assert (Forall (fun e => exists f c l ans,
                        e = EvListServers f c l ans /\ l = 1000 /\ c = ""
                        /\ exists url, f = service.remoteURLFilter url) checks
            /\ exists err, rc = Some err) as (Hchecks & err & ->).
    { destruct (match Official (Meta version) with
                | Some official => (Status_ official =? StatusDeleted)%string
                | None => false
                end).
      - apply validateNoDuplicateRemoteURLs_returns in Hc.
        destruct Hc as (Hall & err & ->). split; [|eauto].
        eapply Forall_impl; [|exact Hall].
        intros e (url & ans & _ & ->). eexists _, _, _, _. eauto.
      - destruct Hc as [-> ->]. split; [constructor | eauto]. }
    destruct H as (tr2 & -> & H). destruct err as [e|].
    + destruct H as [-> ->]. rewrite app_nil_r. eauto.
    + destruct (IH _ _ H) as (Hrest & err & ->).
      split; [apply Forall_app; auto | eauto].
Qed.

Lemma bulk_runs serverName statusChange tr r :
  runs (service.updateAllVersionsStatusInTransaction serverName statusChange)
    tr r ->
  bulkRun serverName statusChange tr r.
Proof.
  unfold service.updateAllVersionsStatusInTransaction. cbn [runs bind call].
  intros ([e|] & tr1 & -> & H).
  { destruct H as [-> ->]. constructor. }
  apply runs_bind in H. destruct H as (pre & rc & Hc & H).
  destruct (String.eqb_spec statusChange.(NewStatus) StatusActive)
    as [Hactive | Hother].
  - cbn [runs bind call] in Hc.
    destruct Hc as ([[versions next] [e|]] & tr2 & -> & Hc).
    + destruct Hc as [-> ->]. destruct H as (rest & -> & -> & ->).
      now apply bulk_list_failed.
    + pose proof (@revalidateDeleted_runs _ _ _ Hc) as (_ & err & ->).
      destruct H as (rest & -> & H). destruct err as [e|].
      * destruct H as [-> ->]. cbn [app]. rewrite app_nil_r.
        now apply bulk_restore_refused.
      * apply runs_call in H. destruct H as (ans & -> & ->).
        now apply bulk_restored.
  - destruct Hc as [-> ->]. destruct H as (rest & -> & H).
    apply runs_call in H. destruct H as (ans & -> & ->).
    now apply bulk_set.
Qed.

End WorkflowRuns.

(** ** The advisory lock *)

Ltac late_call :=
  split;
  [ unfold publishPrologue, editPrologue, statusPrologue; intros Hearly;
    decompose [ex or] Hearly; discriminate
  | intros ? ? ?; discriminate ].

Lemma remote_checks_late early urls checks :
  (forall f c l ans, ~ early (EvListServers f c l ans)) ->
  Forall (isRemoteCheck urls) checks ->
  Forall (fun e => ~ early e /\ forall n a, e <> EvAcquirePublishLock n a)
    checks.
Proof.
  intros Hearly Hall. eapply Forall_impl; [|exact Hall].
  intros e (url & ans & _ & ->). split; [apply Hearly | discriminate].
Qed.

(** C2, as the workflows have it: the all-versions status change asks for
    the lock on the server name as its first call.  Publish validates the
    request and reads the clock before it asks for the lock; edit reads the
    current version and validates the request before; the single-version
    status change reads the current version before.  A workflow that stops
    in these first calls never asks for the lock.  Every other call of the
    workflows, and so every write and the remote-URL check, comes after the
    lock request and only when the lock on the name was granted; the first
    calls are not repeated and the lock is asked for once. *)
Theorem lock_precedes_store_work :
  forall (CompareVersions : string -> string -> Time -> Time -> Z),
    (forall req tr r,
        runs (service.createServerInTransaction CompareVersions req) tr r ->
        (exists e, tr = [EvValidatePublishRequest req (Some e)])
        \/ exists publishTime,
             lockedAfter req.(Name)
               [EvValidatePublishRequest req None; EvTimeNow publishTime]
               (publishPrologue req) tr)
    /\ (forall serverName version req statusChange tr r,
           runs (service.updateServerInTransaction serverName version req
                   statusChange) tr r ->
           (exists currentServer e,
               tr = [EvGetServerByNameAndVersion serverName version true
                       (currentServer, Some e)])
           \/ tr = [EvGetServerByNameAndVersion serverName version true
                      (None, None)]
           \/ (exists currentServer skip e,
                  tr = [EvGetServerByNameAndVersion serverName version true
                          (Some currentServer, None);
                        EvValidateUpdateRequest req skip (Some e)])
           \/ exists currentServer skip,
                lockedAfter serverName
                  [EvGetServerByNameAndVersion serverName version true
                     (Some currentServer, None);
                   EvValidateUpdateRequest req skip None]
                  (editPrologue serverName version req) tr)
    /\ (forall serverName version statusChange tr r,
           runs (service.updateServerStatusInTransaction serverName version
                   statusChange) tr r ->
           (exists currentServer e,
               tr = [EvGetServerByNameAndVersion serverName version true
                       (currentServer, Some e)])
           \/ exists currentServer,
                lockedAfter serverName
                  [EvGetServerByNameAndVersion serverName version true
                     (currentServer, None)]
                  (statusPrologue serverName version) tr)
    /\ (forall serverName statusChange tr r,
           runs (service.updateAllVersionsStatusInTransaction serverName
                   statusChange) tr r ->
           lockedAfter serverName [] (fun _ => False) tr).
Proof.
  intros cmp. split; [|split; [|split]].
  - intros req tr r Hrun. apply publish_runs in Hrun.
    destruct Hrun as [e | publishTime e | publishTime checks rest r Hlocked].
    + left. eauto.
    + right. exists publishTime, (Some e), []. split; [reflexivity|].
      split; [intros H; now elim H | constructor].
    + right. exists publishTime, None, (checks ++ rest)%list.
      split; [reflexivity|]. split; [reflexivity|].
      apply Forall_app.
      destruct Hlocked as [publishTime checks e Hc
                          | publishTime checks rest r Hc Hchecked].
      * apply validateNoDuplicateRemoteURLs_returns in Hc.
        destruct Hc as (Hall & _). split; [|constructor].
        eapply remote_checks_late; [|exact Hall].
        intros f c l ans [[? H] | [? H]]; discriminate H.
      * apply validateNoDuplicateRemoteURLs_returns in Hc.
        destruct Hc as (Hall & _). split.
        { eapply remote_checks_late; [|exact Hall].
          intros f c l ans [[? H] | [? H]]; discriminate H. }
        destruct Hchecked; each_call; late_call.
  - intros serverName version req statusChange tr r Hrun.
    apply edit_runs in Hrun.
    destruct Hrun as [currentServer e | | currentServer e | currentServer e
                     | currentServer checks rest r Hlocked].
    + left. eauto.
    + right. left. reflexivity.
    + right. right. left. eauto.
    + do 3 right. eexists currentServer, _, (Some e), [].
      split; [reflexivity|].
      split; [intros H; now elim H | constructor].
    + do 3 right. eexists currentServer, _, None, (checks ++ rest)%list.
      split; [reflexivity|]. split; [reflexivity|].
      apply Forall_app.
      assert (Hchecks :
                Forall (fun e => ~ editPrologue serverName version req e
                                 /\ forall n a, e <> EvAcquirePublishLock n a)
                  checks).
      { assert (exists rc,
                   runs (service.validateNoDuplicateRemoteURLs req) checks rc)
          as (rc & Hc) by (destruct Hlocked; eauto).
        apply validateNoDuplicateRemoteURLs_returns in Hc.
        destruct Hc as (Hall & _).
        eapply remote_checks_late; [|exact Hall].
        intros f c l ans [[? H] | (? & ? & H)]; discriminate H. }
      split; [exact Hchecks|].
      destruct Hlocked; each_call; late_call.
  - intros serverName version statusChange tr r Hrun.
    apply status_runs in Hrun.
    destruct Hrun as [currentServer e | currentServer e | Hact
                     | currentServer checks e Hrestore Hc
                     | currentServer checks ans Hrestore Hc
                     | currentServer ans Hplain].
    + left. eauto.
    + right. exists currentServer, (Some e), []. split; [reflexivity|].
      split; [intros H; now elim H | constructor].
    + right. exists None, None, []. split; [reflexivity|].
      split; [reflexivity | constructor].
    + right. exists (Some currentServer), None, checks.
      split; [reflexivity|]. split; [reflexivity|].
      apply validateNoDuplicateRemoteURLs_returns in Hc.
      destruct Hc as (Hall & _).
      eapply remote_checks_late; [|exact Hall].
      intros f c l ans0 [? H]; discriminate H.
    + right. exists (Some currentServer), None. eexists.
      split; [reflexivity|]. split; [reflexivity|].
      apply Forall_app. split.
      * apply validateNoDuplicateRemoteURLs_returns in Hc.
        destruct Hc as (Hall & _).
        eapply remote_checks_late; [|exact Hall].
        intros f c l ans0 [? H]; discriminate H.
      * each_call. late_call.
    + right. exists currentServer, None. eexists.
      split; [reflexivity|]. split; [reflexivity|].
      each_call. late_call.
  - intros serverName statusChange tr r Hrun.
    apply bulk_runs in Hrun.
    assert (Hlistings :
              forall versions checks rc,
                runs (service.revalidateDeleted versions) checks rc ->
                Forall (fun e => ~ False
                                 /\ forall n a, e <> EvAcquirePublishLock n a)
                  checks).
    { intros versions checks rc Hc. apply revalidateDeleted_runs in Hc.
      destruct Hc as (Hall & _). eapply Forall_impl; [|exact Hall].
      intros e (f & c & l & ans & -> & _). split; [tauto | discriminate]. }
    destruct Hrun as [e | ans Hother | versions next e Hact
                     | versions next checks e Hact Hc
                     | versions next checks ans Hact Hc].
    + exists (Some e), []. split; [reflexivity|].
      split; [intros H; now elim H | constructor].
    + exists None. eexists. split; [reflexivity|]. split; [reflexivity|].
      each_call. split; [tauto | discriminate].
    + exists None. eexists. split; [reflexivity|]. split; [reflexivity|].
      each_call. split; [tauto | discriminate].
    + exists None. eexists. split; [reflexivity|]. split; [reflexivity|].
      apply Forall_cons; [split; [tauto | discriminate]|].
      eapply Hlistings; eassumption.
    + exists None. eexists. split; [reflexivity|]. split; [reflexivity|].
      apply Forall_cons; [split; [tauto | discriminate]|].
      apply Forall_app. split; [eapply Hlistings; eassumption|].
      each_call. split; [tauto | discriminate].
Qed.

(** C2 as stated fails: a single-version status change on a registry that
    holds the version reads the version first and asks for the lock second. *)
Lemma status_change_reads_before_lock :
  let tr :=
    snd (exec (memstore.handle acceptAll)
           (service.updateServerStatusInTransaction "io.github.u/s" "1.0.0"
              (mkStatusChangeRequest StatusDeprecated (Some "use 2.0.0")))
           storeV1) in
  (exists ans rest,
      tr = EvGetServerByNameAndVersion "io.github.u/s" "1.0.0" true ans
           :: EvAcquirePublishLock "io.github.u/s" None :: rest)
  /\ ~ lockAcquiredFirst "io.github.u/s" tr.
Proof.
  split.
  - eexists _, _. vm_compute. reflexivity.
  - intros (ans & rest & H). vm_compute in H. discriminate H.
Qed.

(** The four workflows on the one-version registry, and a publish against a
    store that refuses the lock: the refused request is the last call. *)
Lemma lock_precedes_store_work_witness :
  let name := "io.github.u/s" in
  let change := mkStatusChangeRequest StatusDeprecated (Some "use 2.0.0") in
  let req := sampleServer name "1.1.0" "https://u.example/mcp" in
  let busy := Errorf "could not obtain lock" in
  (exists publishTime,
      lockedAfter name [EvValidatePublishRequest req None; EvTimeNow publishTime]
        (publishPrologue req)
        (snd (exec (memstore.handle acceptAll)
                (service.createServerInTransaction lexicalCompareVersions req)
                storeV1)))
  /\ (exists currentServer skip,
         lockedAfter name
           [EvGetServerByNameAndVersion name "1.0.0" true
              (Some currentServer, None);
            EvValidateUpdateRequest req skip None]
           (editPrologue name "1.0.0" req)
           (snd (exec (memstore.handle acceptAll)
                   (service.updateServerInTransaction name "1.0.0" req
                      (Some change))
                   storeV1)))
  /\ (exists currentServer,
         lockedAfter name
           [EvGetServerByNameAndVersion name "1.0.0" true (currentServer, None)]
           (statusPrologue name "1.0.0")
           (snd (exec (memstore.handle acceptAll)
                   (service.updateServerStatusInTransaction name "1.0.0" change)
                   storeV1)))
  /\ lockedAfter name [] (fun _ => False)
       (snd (exec (memstore.handle acceptAll)
               (service.updateAllVersionsStatusInTransaction name change)
               storeV1))
  /\ snd (exec (faulty (lockRefused busy) (memstore.handle acceptAll))
            (service.createServerInTransaction lexicalCompareVersions req)
            storeV1)
     = [EvValidatePublishRequest req None; EvTimeNow 100;
        EvAcquirePublishLock name (Some busy)].
Proof.
  intros name change req busy.
  pose proof (lock_precedes_store_work lexicalCompareVersions)
    as (Hpublish & Hedit & Hstatus & Hall).
  split; [|split; [|split; [|split]]].
  - destruct (Hpublish req _ _
                (exec_is_run (memstore.handle acceptAll)
                   (service.createServerInTransaction lexicalCompareVersions
                      req) storeV1)) as [(e & He) | Hlocked].
    + vm_compute in He. discriminate He.
    + exact Hlocked.
  - destruct (Hedit name "1.0.0" req (Some change) _ _
                (exec_is_run (memstore.handle acceptAll)
                   (service.updateServerInTransaction name "1.0.0" req
                      (Some change)) storeV1))
      as [(c & e & He) | [He | [(c & skip & e & He) | Hlocked]]].
    + vm_compute in He. discriminate He.
    + vm_compute in He. discriminate He.
    + vm_compute in He. discriminate He.
    + exact Hlocked.
  - destruct (Hstatus name "1.0.0" change _ _
                (exec_is_run (memstore.handle acceptAll)
                   (service.updateServerStatusInTransaction name "1.0.0"
                      change) storeV1)) as [(c & e & He) | Hlocked].
    + vm_compute in He. discriminate He.
    + exact Hlocked.
  - exact (Hall name change _ _
             (exec_is_run (memstore.handle acceptAll)
                (service.updateAllVersionsStatusInTransaction name change)
                storeV1)).
  - reflexivity.
Defined.

(** ** The remote-URL check, call by call *)

Lemma conflictingName_first name rows other :
  service.conflictingName name rows = Some other ->
  exists before row after,
    rows = (before ++ row :: after)%list
    /\ (forall row', In row' before -> row'.(Server).(Name) = name)
    /\ row.(Server).(Name) = other
    /\ other <> name.
Proof.
  induction rows as [|row rest IH]; simpl; [discriminate|].
  destruct (String.eqb_spec row.(Server).(Name) name) as [Heq|Hne]; simpl.
  - intros H. destruct (IH H) as (before & row' & after & -> & Hbefore & Hrow).
    exists (row :: before), row', after. split; [reflexivity|].
    split; [|exact Hrow]. intros row0 [<- | Hin]; auto.
  - intros [= <-]. exists [], row, rest. repeat split; auto.
    intros ? [].
Qed.

Lemma checkRemotes_stops name remotes :
  forall tr r,
    runs (service.checkRemotes name remotes) tr r ->
    (listedAll remotes tr /\ Forall (listsOnly name) tr /\ r = Some None)
    \/ (exists checked remote unchecked pre rows next err,
          remotes = (checked ++ remote :: unchecked)%list
          /\ tr = (pre ++ [EvListServers (service.remoteURLFilter remote.(URL))
                             "" 1000 (rows, next, err)])%list
          /\ listedAll checked pre
          /\ Forall (listsOnly name) pre
          /\ match err with
             | Some cause =>
                 r = Some (Some (Wrapf "failed to check remote URL conflict: "
                                   cause))
             | None =>
                 exists before row after,
                   rows = (before ++ row :: after)%list
                   /\ (forall row', In row' before ->
                                    row'.(Server).(Name) = name)
                   /\ row.(Server).(Name) <> name
                   /\ r = Some (Some (service.errRemoteURLInUse remote.(URL)
                                        row.(Server).(Name)))
             end).
Proof.
  induction remotes as [|remote rest IH]; intros tr r; simpl.
  - intros [-> ->]. left. repeat split; constructor.
  - cbn [runs bind call].
    intros ([[rows next] [e|]] & tr1 & -> & H).
    + destruct H as [-> ->]. right.
      exists [], remote, rest, [], rows, next, (Some e).
      repeat split; constructor.
    + destruct (service.conflictingName name rows) as [other|] eqn:Hconf.
      * destruct H as [-> ->]. right.
        exists [], remote, rest, [], rows, next, None.
        split; [reflexivity|]. split; [reflexivity|].
        split; [constructor|]. split; [constructor|].
        destruct (conflictingName_first _ _ Hconf)
          as (before & row & after & -> & Hbefore & <- & Hne).
        exists before, row, after. auto.
      * assert (Hhead : listsOnly name
                          (EvListServers (service.remoteURLFilter remote.(URL))
                             "" 1000 (rows, next, None))).
        { intros f c l rows' next' err' [= _ _ _ <- _ <-].
          split; [reflexivity|]. now apply conflictingName_None. }
        destruct (IH _ _ H)
          as [(Hlisted & Honly & ->)
             | (checked & remote' & unchecked & pre & rows' & next' & err'
                & -> & -> & Hlisted & Honly & Hlast)].
        -- left. split; [|split; [|reflexivity]].
           ++ constructor; [now eexists | exact Hlisted].
           ++ constructor; assumption.
        -- right.
           exists (remote :: checked), remote', unchecked,
             (EvListServers (service.remoteURLFilter remote.(URL)) "" 1000
                (rows, next, None) :: pre), rows', next', err'.
           split; [reflexivity|]. split; [reflexivity|].
           split; [constructor; [now eexists | exact Hlisted]|].
           split; [constructor; assumption | exact Hlast].
Qed.

(** X7: the check lists the remotes in their order, one listing each, and
    stops at the first listing that fails or names another server.  Either
    every remote was listed, every listing succeeded and named servers of
    the descriptor's name only, and the check passes; or the calls are the
    listings of the remotes up to one of them, all but the last answered
    without error and with servers of that name only, and the last listing
    decides the error: its failure, wrapped as [failed to check remote URL
    conflict: <cause>], or [remote URL <url> is already used by server
    <name>] for its URL and the first listed server whose name differs.  A
    descriptor without remotes is accepted without any call. *)
Theorem remote_check_stops_at_first_failure :
  forall (serverDetail : ServerJSON) (tr : list Event)
         (r : option (option error)),
    runs (service.validateNoDuplicateRemoteURLs serverDetail) tr r ->
    ((listedAll serverDetail.(Remotes) tr
      /\ Forall (listsOnly serverDetail.(Name)) tr
      /\ r = Some None)
     \/ (exists checked remote unchecked pre rows next err,
           serverDetail.(Remotes) = (checked ++ remote :: unchecked)%list
           /\ tr = (pre ++ [EvListServers
                              (service.remoteURLFilter remote.(URL)) "" 1000
                              (rows, next, err)])%list
           /\ listedAll checked pre
           /\ Forall (listsOnly serverDetail.(Name)) pre
           /\ match err with
              | Some cause =>
                  r = Some (Some (Wrapf "failed to check remote URL conflict: "
                                    cause))
              | None =>
                  exists before row after,
                    rows = (before ++ row :: after)%list
                    /\ (forall row', In row' before ->
                                     row'.(Server).(Name) = serverDetail.(Name))
                    /\ row.(Server).(Name) <> serverDetail.(Name)
                    /\ r = Some (Some (service.errRemoteURLInUse remote.(URL)
                                         row.(Server).(Name)))
              end))
    /\ (serverDetail.(Remotes) = [] -> tr = [] /\ r = Some None).
Proof.
  intros serverDetail tr r Hrun. split.
  - now apply checkRemotes_stops.
  - intros Hnone. unfold service.validateNoDuplicateRemoteURLs in Hrun.
    rewrite Hnone in Hrun. exact Hrun.
Qed.

Lemma checkRemotes_listing_failure name remotes :
  forall tr r f c l rows next e,
    runs (service.checkRemotes name remotes) tr r ->
    In (EvListServers f c l (rows, next, Some e)) tr ->
    r = Some (Some (Wrapf "failed to check remote URL conflict: " e))
    /\ exists pre, tr = (pre ++ [EvListServers f c l (rows, next, Some e)])%list.
Proof.
  induction remotes as [|remote rest IH]; intros tr r f c l rows next e; simpl.
  - intros [-> ->] [].
  - cbn [runs bind call].
    intros ([[rows0 next0] [e0|]] & tr1 & -> & H) Hin.
    + destruct H as [-> ->]. destruct Hin as [[= <- <- <- <- <- <-] | []].
      split; [reflexivity|]. now exists [].
    + destruct Hin as [[=] | Hin].
      destruct (service.conflictingName name rows0).
      * destruct H as [-> ->]. destruct Hin.
      * destruct (IH _ _ _ _ _ _ _ _ H Hin) as (-> & pre & ->).
        split; [reflexivity|]. now eexists (_ :: pre).
Qed.

(** X8: when a listing of the check fails, the check stops there and
    returns the store's error wrapped as [failed to check remote URL
    conflict: <cause>]; the wrapped error is still recognised by
    [errors.Is(err, ErrNotFound)] exactly when the cause is. *)
Theorem remote_listing_failure_wrapped :
  forall (serverDetail : ServerJSON) (tr : list Event)
         (r : option (option error)) f c l rows next (e : error),
    runs (service.validateNoDuplicateRemoteURLs serverDetail) tr r ->
    In (EvListServers f c l (rows, next, Some e)) tr ->
    (exists pre,
        tr = (pre ++ [EvListServers f c l (rows, next, Some e)])%list)
    /\ exists wrapped,
         r = Some (Some wrapped)
         /\ wrapped = Wrapf "failed to check remote URL conflict: " e
         /\ errors_Is_ErrNotFound wrapped = errors_Is_ErrNotFound e.
Proof.
  intros serverDetail tr r f c l rows next e Hrun Hin.
  destruct (checkRemotes_listing_failure _ _ _ _ _ _ _ _ _ _ Hrun Hin)
    as (-> & pre & ->).
  split; [now exists pre|]. eexists. repeat split.
Qed.

(** X21: when the store's listing fails, [ListServers] of the service
    returns no records and an empty cursor with the store's error, whatever
    the store returned beside the error; otherwise it returns the store's
    records and cursor unchanged. *)
Theorem list_servers_result :
  forall (filter : option ServerFilter) (cursor : string) (limit : Z)
         (tr : list Event)
         (r : option (list ServerResponse * string * option error)),
    runs (service.ListServers filter cursor limit) tr r ->
    exists records next err l,
      tr = [EvListServers filter cursor l (records, next, err)]
      /\ r = Some match err with
                  | Some e => ([], "", Some e)
                  | None => (records, next, None)
                  end.
Proof.
  intros filter cursor limit tr r. unfold service.ListServers.
  cbn [runs bind call].
  intros ([[records next] err] & tr' & -> & H).
  exists records, next, err. eexists.
  destruct err; destruct H as [-> ->]; split; reflexivity.
Qed.

(** ** Publish, guard by guard *)

Ltac in_cases :=
  repeat match goal with
         | H : In _ (_ :: _) |- _ => apply in_inv in H; destruct H as [H | H]
         | H : In _ (_ ++ _)%list |- _ =>
             apply in_app_or in H; destruct H as [H | H]
         | H : In _ [] |- _ => apply in_nil in H; destruct H
         | H : _ = _ :> Event |- _ =>
             first [discriminate H | inversion H; clear H; subst]
         end.

Lemma checks_pass_only_same_name serverDetail checks :
  runs (service.validateNoDuplicateRemoteURLs serverDetail) checks (Some None) ->
  Forall (listsOnly serverDetail.(Name)) checks.
Proof.
  intros H. apply checkRemotes_runs in H.
  destruct H as (_ & err & [= <-] & _ & _ & Hnone & _). now apply Hnone.
Qed.

Lemma listsOnly_other name e :
  (forall f c l ans, e <> EvListServers f c l ans) -> listsOnly name e.
Proof. intros Hne f c l rows next err ->. now elim (Hne f c l (rows, next, err)). Qed.

(** X9: a publish that returns without error has passed every guard: the
    request was validated, the lock on its name was granted, every listing
    of the remote-URL check named servers of the same name only, the version
    count was below 10000, the version did not exist, and the result is the
    answer of [CreateServer], the last call. *)
Theorem publish_success_passed_every_guard :
  forall (CompareVersions : string -> string -> Time -> Time -> Z)
         (req : ServerJSON) (tr : list Event)
         (created : option ServerResponse),
    runs (service.createServerInTransaction CompareVersions req) tr
      (Some (created, None)) ->
    In (EvValidatePublishRequest req None) tr
    /\ In (EvAcquirePublishLock req.(Name) None) tr
    /\ Forall (listsOnly req.(Name)) tr
    /\ (exists versionCount err,
           In (EvCountServerVersions req.(Name) (versionCount, err)) tr
           /\ versionCount < 10000)
    /\ In (EvCheckVersionExists req.(Name) req.(Version) (false, None)) tr
    /\ exists pre officialMeta,
         tr = (pre ++ [EvCreateServer req officialMeta (created, None)])%list.
Proof.
  intros cmp req tr created Hrun. apply publish_runs in Hrun.
  inversion Hrun as [e | publishTime e | publishTime checks rest r Hlocked];
    subst; clear Hrun.
  inversion Hlocked as [? ? e Hchecks | ? ? ? ? Hchecks Hrest]; subst;
    clear Hlocked.
  pose proof (@checks_pass_only_same_name _ _ Hchecks) as Honly.
  assert (forall rest',
             Forall (listsOnly req.(Name)) rest' ->
             Forall (listsOnly req.(Name))
               (EvValidatePublishRequest req None :: EvTimeNow publishTime
                :: EvAcquirePublishLock req.(Name) None :: checks ++ rest'))
    as Hall.
  { intros rest' Hrest'.
    repeat (apply Forall_cons; [apply listsOnly_other; discriminate|]).
    apply Forall_app. auto. }
  inversion Hrest; subst; clear Hrest;
    try match goal with
        | H : service.failedOtherThanNotFound None = true |- _ => discriminate H
        end.
  all: unfold maxServerVersionsPerServer in *.
  all: repeat split;
    [ now left
    | do 2 right; now left
    | apply Hall;
      repeat (apply Forall_cons; [apply listsOnly_other; discriminate|]);
      apply Forall_nil
    | eexists _, _; split; [do 3 right; apply in_or_app; right; now left|];
      assumption
    | do 3 right; apply in_or_app; right; right; now left
    | ].
  - eexists (_ :: _ :: _ :: checks ++ [_; _; _; _])%list, _.
    simpl. rewrite <- app_assoc. reflexivity.
  - eexists (_ :: _ :: _ :: checks ++ [_; _; _])%list, _.
    simpl. rewrite <- app_assoc. reflexivity.
Qed.

Lemma remote_checks_quiet urls checks :
  Forall (isRemoteCheck urls) checks ->
  Forall (fun e => isWrite e = false) checks.
Proof.
  intros H. eapply Forall_impl; [|exact H].
  intros. eapply isRemoteCheck_not_write; eassumption.
Qed.

Ltac quiet_trace Hquiet :=
  repeat (apply Forall_cons; [reflexivity|]);
  first [ apply Forall_nil
        | apply Forall_app; split;
          [exact Hquiet | repeat (apply Forall_cons; [reflexivity|]);
                          apply Forall_nil]
        | exact Hquiet ].

(** X10: a publish whose remote-URL check lists a server of another name
    fails with [remote URL <url> is already used by server <name>] for a
    listed URL of the request and such a name; the run makes no write and
    does not get as far as counting the versions. *)
Theorem publish_url_conflict_aborts :
  forall (CompareVersions : string -> string -> Time -> Time -> Z)
         (req : ServerJSON) (tr : list Event)
         (r : option (option ServerResponse * option error))
         (url other : string) (e : Event),
    runs (service.createServerInTransaction CompareVersions req) tr r ->
    In e tr ->
    listsConflict req.(Name) url other e ->
    (exists url' other' e',
        In e' tr /\ listsConflict req.(Name) url' other' e'
        /\ In url' (map URL req.(Remotes))
        /\ r = Some (None, Some (service.errRemoteURLInUse url' other')))
    /\ Forall (fun e' => isWrite e' = false) tr
    /\ (forall name ans, ~ In (EvCountServerVersions name ans) tr).
Proof.
  intros cmp req tr r url other e Hrun Hin Hlc.
  assert (exists rows next,
             e = EvListServers (service.remoteURLFilter url) "" 1000
                   (rows, next, None)) as (rows & next & He).
  { destruct Hlc as (rows & next & _ & -> & _). eauto. }
  apply publish_runs in Hrun.
  destruct Hrun as [e0 | publishTime e0 | publishTime checks rest r Hlocked];
    subst e.
  1-2: in_cases.
  destruct Hin as [[=] | [[=] | [[=] | Hin]]]. apply in_app_or in Hin.
  destruct Hlocked as [publishTime checks e0 Hchecks
                      | publishTime checks rest r Hchecks Hrest].
  - destruct Hin as [Hin | []].
    pose proof (@publish_checks_quiet _ _ _ Hchecks) as Hrc.
    pose proof (remote_checks_quiet Hrc) as Hquiet.
    unfold service.validateNoDuplicateRemoteURLs in Hchecks.
    apply checkRemotes_runs in Hchecks.
    destruct Hchecks as (_ & err & [= <-] & Hfound & _).
    destruct Hfound as (url' & other' & e' & Hin' & Hlc' & Hurl & [= ->]);
      [eauto|].
    rewrite app_nil_r. repeat split.
    + exists url', other', e'. repeat split; auto. now do 3 right.
    + quiet_trace Hquiet.
    + intros name ans Hc. in_cases.
      rewrite Forall_forall in Hrc.
      destruct (Hrc _ Hc) as (? & ? & _ & [=]).
  - exfalso. destruct Hin as [Hin | Hin].
    + apply checks_pass_only_same_name in Hchecks.
      rewrite Forall_forall in Hchecks.
      destruct Hlc as (rows' & next' & row & [= <- <-] & Hrow & Hname & Hne).
      destruct (Hchecks _ Hin _ _ _ _ _ _ eq_refl) as (_ & Hsame).
      apply Hne. rewrite <- Hname. now apply Hsame.
    + destruct Hrest; in_cases.
Qed.

(** X11: the only writes of a publish are [UnmarkAsLatest] on the name of
    the request and [CreateServer] of the request; there are at most two,
    and the insert, when it is made, is the last call. *)
Theorem publish_writes :
  forall (CompareVersions : string -> string -> Time -> Time -> Z)
         (req : ServerJSON) (tr : list Event)
         (r : option (option ServerResponse * option error)),
    runs (service.createServerInTransaction CompareVersions req) tr r ->
    (forall e,
        In e tr -> isWrite e = true ->
        (exists ans, e = EvUnmarkAsLatest req.(Name) ans)
        \/ (exists officialMeta ans pre,
               e = EvCreateServer req officialMeta ans
               /\ tr = (pre ++ [e])%list))
    /\ (List.length (filter isWrite tr) <= 2)%nat.
Proof.
  intros cmp req tr r Hrun. apply publish_runs in Hrun.
  destruct Hrun as [e0 | publishTime e0 | publishTime checks rest r Hlocked].
  - split; [|simpl; lia]. intros e Hin Hw. in_cases. discriminate.
  - split; [|simpl; lia]. intros e Hin Hw. in_cases; discriminate.
  - assert (Forall (fun e => isWrite e = false) checks) as Hquiet.
    { destruct Hlocked as [? ? ? Hc | ? ? ? ? Hc _];
        apply publish_checks_quiet in Hc;
        eapply remote_checks_quiet; exact Hc. }
    assert (filter isWrite checks = []) as Hnone.
    { clear - Hquiet. induction Hquiet as [|e l He _ IH]; simpl;
        [reflexivity | now rewrite He]. }
    split.
    + intros e Hin Hw. in_cases; try discriminate.
      * rewrite Forall_forall in Hquiet. rewrite (Hquiet _ Hin) in Hw.
        discriminate.
      * destruct Hlocked as [? ? ? Hc | ? ? ? ? Hc Hrest]; [destruct Hin|].
        destruct Hrest; in_cases; try discriminate.
        -- left. eauto.
        -- left. eauto.
        -- right. eexists _, _, (_ :: _ :: _ :: checks ++ [_; _; _; _])%list.
           split; [reflexivity|]. simpl. now rewrite <- app_assoc.
        -- right. eexists _, _, (_ :: _ :: _ :: checks ++ [_; _; _])%list.
           split; [reflexivity|]. simpl. now rewrite <- app_assoc.
    + cbn [filter isWrite]. rewrite filter_app, Hnone. cbn [app].
      destruct Hlocked as [? ? ? Hc | ? ? ? ? Hc Hrest]; [simpl; lia|].
      destruct Hrest; simpl; lia.
Qed.

(** X12: a store error from the version count or from the latest-version
    lookup that is not [ErrNotFound] (directly or wrapped), and any error at
    all from the existence check, ends the publish: the error is returned
    as it is, the failing call is the last one and nothing was written. *)
Theorem publish_read_errors_returned :
  forall (CompareVersions : string -> string -> Time -> Time -> Z)
         (req : ServerJSON) (tr : list Event)
         (r : option (option ServerResponse * option error))
         (failing : Event) (e : error),
    runs (service.createServerInTransaction CompareVersions req) tr r ->
    In failing tr ->
    (exists versionCount,
        failing = EvCountServerVersions req.(Name) (versionCount, Some e)
        /\ errors_Is_ErrNotFound e = false)
    \/ (exists versionExists,
           failing = EvCheckVersionExists req.(Name) req.(Version)
                       (versionExists, Some e))
    \/ (exists currentLatest,
           failing = EvGetCurrentLatestVersion req.(Name)
                       (currentLatest, Some e)
           /\ errors_Is_ErrNotFound e = false) ->
    r = Some (None, Some e)
    /\ (exists pre, tr = (pre ++ [failing])%list)
    /\ Forall (fun e' => isWrite e' = false) tr.
Proof.
  intros cmp req tr r failing e Hrun Hin Hfail.
  assert (forall f c l ans, failing <> EvListServers f c l ans) as Hnl.
  { destruct Hfail as [(? & -> & _) | [(? & ->) | (? & -> & _)]]; discriminate. }
  apply publish_runs in Hrun.
  destruct Hrun as [e0 | publishTime e0 | publishTime checks rest r Hlocked].
  - exfalso.
    destruct Hfail as [(? & -> & _) | [(? & ->) | (? & -> & _)]]; in_cases.
  - exfalso.
    destruct Hfail as [(? & -> & _) | [(? & ->) | (? & -> & _)]]; in_cases.
  - assert (Forall (isRemoteCheck (map URL req.(Remotes))) checks) as Hrc.
    { destruct Hlocked as [? ? ? Hc | ? ? ? ? Hc _];
        now apply publish_checks_quiet in Hc. }
    pose proof (remote_checks_quiet Hrc) as Hquiet.
    assert (In failing rest) as Hin'.
    { destruct Hin as [<- | [<- | [<- | Hin]]];
        try (destruct Hfail as [(? & H & _) | [(? & H) | (? & H & _)]];
             discriminate H).
      apply in_app_or in Hin. destruct Hin as [Hin | Hin]; [|exact Hin].
      rewrite Forall_forall in Hrc.
      destruct (Hrc _ Hin) as (? & ? & _ & ->).
      exfalso. exact (Hnl _ _ _ _ eq_refl). }
    clear Hin.
    destruct Hlocked as [? ? ? Hc | ? ? ? ? Hc Hrest]; [destruct Hin'|].
    destruct Hrest;
      destruct Hfail as [(? & -> & Hnf) | [(? & ->) | (? & -> & Hnf)]];
      in_cases;
      try match goal with
          | H : service.failedOtherThanNotFound (Some _) = false |- _ =>
              simpl in H; rewrite Hnf in H; discriminate H
          end.
    all: repeat split;
      [ first [ eexists (_ :: _ :: _ :: checks)%list; reflexivity
              | eexists (_ :: _ :: _ :: checks ++ [_])%list;
                simpl; now rewrite <- app_assoc
              | eexists (_ :: _ :: _ :: checks ++ [_; _])%list;
                simpl; now rewrite <- app_assoc ]
      | quiet_trace Hquiet ].
Qed.

(** ** Edit, call by call *)

Lemma currentlyDeleted_iff currentServer :
  currentlyDeleted currentServer = true
  <-> exists official,
        currentServer.(Meta).(Official) = Some official
        /\ official.(Status_) = StatusDeleted.
Proof.
  unfold currentlyDeleted.
  destruct (Official (Meta currentServer)) as [official|].
  - rewrite String.eqb_eq. split; [eauto | now intros (? & [= <-] & ?)].
  - split; [discriminate | now intros (? & [=] & _)].
Qed.

Lemma beingDeleted_iff statusChange :
  beingDeleted statusChange = true
  <-> exists change,
        statusChange = Some change /\ change.(NewStatus) = StatusDeleted.
Proof.
  unfold beingDeleted. destruct statusChange as [change|].
  - rewrite String.eqb_eq. split; [eauto | now intros (? & [= <-] & ?)].
  - split; [discriminate | now intros (? & [=] & _)].
Qed.

(** X13: an edit asks the validators to skip the registry validation
    exactly when the version it read is currently deleted or the edit
    carries a status change to deleted; the request it validates is the
    request body. *)
Theorem edit_skips_registry_validation_iff_deleted :
  forall (serverName version : string) (req : ServerJSON)
         (statusChange : option StatusChangeRequest) (tr : list Event)
         (r : option (option ServerResponse * option error))
         (validated : ServerJSON) (skip : bool) (ans : option error),
    runs (service.updateServerInTransaction serverName version req statusChange)
      tr r ->
    In (EvValidateUpdateRequest validated skip ans) tr ->
    validated = req
    /\ exists currentServer,
         In (EvGetServerByNameAndVersion serverName version true
               (Some currentServer, None)) tr
         /\ (skip = true
             <-> (exists official,
                     currentServer.(Meta).(Official) = Some official
                     /\ official.(Status_) = StatusDeleted)
                 \/ (exists change,
                        statusChange = Some change
                        /\ change.(NewStatus) = StatusDeleted)).
Proof.
  intros serverName version req statusChange tr r validated skip ans Hrun Hin.
  apply edit_runs in Hrun.
  assert (forall currentServer,
             currentlyDeleted currentServer || beingDeleted statusChange = true
             <-> (exists official,
                     currentServer.(Meta).(Official) = Some official
                     /\ official.(Status_) = StatusDeleted)
                 \/ (exists change,
                        statusChange = Some change
                        /\ change.(NewStatus) = StatusDeleted)) as Hskip.
  { intros cur. rewrite orb_true_iff, currentlyDeleted_iff, beingDeleted_iff.
    reflexivity. }
  destruct Hrun as [cur e | | cur e | cur e | cur checks rest r Hlocked].
  - in_cases.
  - in_cases.
  - in_cases. split; [reflexivity|]. exists cur. split; [now left | apply Hskip].
  - in_cases. split; [reflexivity|]. exists cur. split; [now left | apply Hskip].
  - destruct Hin as [[=] | [Hin | [[=] | Hin]]].
    + injection Hin as <- <- <-. split; [reflexivity|].
      exists cur. split; [now left | apply Hskip].
    + exfalso. apply in_app_or in Hin.
      assert (Forall (isRemoteCheck (map URL req.(Remotes))) checks) as Hrc.
      { destruct Hlocked as [? ? Hc | ? ? ? Hc | ? ? Hc | ? ? ? ? ? Hc | ? ? ? ? Hc];
          now apply publish_checks_quiet in Hc. }
      destruct Hin as [Hin | Hin].
      * rewrite Forall_forall in Hrc. destruct (Hrc _ Hin) as (? & ? & _ & [=]).
      * destruct Hlocked; in_cases.
Qed.

(** X14: the writes of an edit are [UpdateServer] of the request under the
    path's name and version and, only when a status change is given and
    after the update succeeded, [SetServerStatus] with the status and
    message of that change.  A write is made only after the lock was
    granted and every listing of the remote-URL check named servers of the
    request's name only.  The result of a successful edit is the row of the
    last write: the status write when a status change is given, the update
    otherwise. *)
Theorem edit_writes_in_order :
  forall (serverName version : string) (req : ServerJSON)
         (statusChange : option StatusChangeRequest) (tr : list Event)
         (r : option (option ServerResponse * option error)),
    runs (service.updateServerInTransaction serverName version req statusChange)
      tr r ->
    (forall e,
        In e tr -> isWrite e = true ->
        ((exists ans, e = EvUpdateServer serverName version req ans)
         \/ (exists change ans updated,
                statusChange = Some change
                /\ e = EvSetServerStatus serverName version change.(NewStatus)
                         change.(ChangeStatusMessage) ans
                /\ In (EvUpdateServer serverName version req (updated, None)) tr))
        /\ In (EvAcquirePublishLock serverName None) tr
        /\ Forall (listsOnly req.(Name)) tr)
    /\ (forall row,
           r = Some (row, None) ->
           exists pre,
             tr = (pre ++
                   [match statusChange with
                    | Some change =>
                        EvSetServerStatus serverName version change.(NewStatus)
                          change.(ChangeStatusMessage) (row, None)
                    | None => EvUpdateServer serverName version req (row, None)
                    end])%list).
Proof.
  intros serverName version req statusChange tr r Hrun.
  apply edit_runs in Hrun.
  destruct Hrun as [cur e | | cur e | cur e | cur checks rest r Hlocked].
  1-4: split; [intros e' Hin Hw; in_cases; discriminate | intros row [=]].
  assert (Forall (isRemoteCheck (map URL req.(Remotes))) checks) as Hrc.
  { destruct Hlocked as [? ? Hc | ? ? ? Hc | ? ? Hc | ? ? ? ? ? Hc | ? ? ? ? Hc];
      now apply publish_checks_quiet in Hc. }
  pose proof (remote_checks_quiet Hrc) as Hquiet.
  assert (forall rest',
             Forall (listsOnly req.(Name)) checks ->
             Forall (fun e => forall f c l ans, e <> EvListServers f c l ans) rest' ->
             Forall (listsOnly req.(Name))
               (EvGetServerByNameAndVersion serverName version true (Some cur, None)
                :: EvValidateUpdateRequest req
                     (currentlyDeleted cur || beingDeleted statusChange) None
                :: EvAcquirePublishLock serverName None :: checks ++ rest'))
    as Hall.
  { intros rest' Hchecks Hrest'.
    repeat (apply Forall_cons; [apply listsOnly_other; discriminate|]).
    apply Forall_app. split; [assumption|].
    eapply Forall_impl; [|exact Hrest']. intros. now apply listsOnly_other. }
  split.
  - intros e' Hin Hw.
    destruct Hin as [<- | [<- | [<- | Hin]]]; try discriminate.
    apply in_app_or in Hin. destruct Hin as [Hin | Hin].
    { rewrite Forall_forall in Hquiet. rewrite (Hquiet _ Hin) in Hw.
      discriminate. }
    destruct Hlocked as [? ? Hc | ? ? ? Hc | ? ? Hc Hsc | ? ? ? ? ? Hc Hsc
                        | ? ? ? ? Hc Hsc];
      in_cases; try discriminate;
      apply checks_pass_only_same_name in Hc;
      (split; [|split; [do 2 right; now left
                       | apply Hall; [exact Hc|];
                         repeat (apply Forall_cons; [discriminate|]);
                         apply Forall_nil]]).
    all: try (left; eexists; reflexivity).
    all: right; eexists _, _, _; split; [reflexivity|]; split; [reflexivity|];
      do 3 right; apply in_or_app; right; now left.
  - intros row Hr.
    destruct Hlocked as [? ? Hc | ? ? ? Hc | ? ? Hc Hsc | ? ? ? ? ? Hc Hsc
                        | ? ? ? ? Hc Hsc];
      try discriminate; injection Hr as <-; subst statusChange.
    + eexists (_ :: _ :: _ :: checks)%list. reflexivity.
    + eexists (_ :: _ :: _ :: checks ++ [_])%list. simpl.
      now rewrite <- app_assoc.
Qed.

(** X15: an edit whose remote-URL check lists a server named otherwise than
    the request fails with [remote URL <url> is already used by server
    <name>] for a URL of the request and such a name, and writes nothing. *)
Theorem edit_url_conflict_aborts :
  forall (serverName version : string) (req : ServerJSON)
         (statusChange : option StatusChangeRequest) (tr : list Event)
         (r : option (option ServerResponse * option error))
         (url other : string) (e : Event),
    runs (service.updateServerInTransaction serverName version req statusChange)
      tr r ->
    In e tr ->
    listsConflict req.(Name) url other e ->
    (exists url' other' e',
        In e' tr /\ listsConflict req.(Name) url' other' e'
        /\ In url' (map URL req.(Remotes))
        /\ r = Some (None, Some (service.errRemoteURLInUse url' other')))
    /\ Forall (fun e' => isWrite e' = false) tr.
Proof.
  intros serverName version req statusChange tr r url other e Hrun Hin Hlc.
  assert (exists rows next,
             e = EvListServers (service.remoteURLFilter url) "" 1000
                   (rows, next, None)) as (rows & next & He).
  { destruct Hlc as (rows & next & _ & -> & _). eauto. }
  apply edit_runs in Hrun.
  destruct Hrun as [cur e0 | | cur e0 | cur e0 | cur checks rest r Hlocked];
    subst e.
  1-4: in_cases.
  destruct Hin as [[=] | [[=] | [[=] | Hin]]]. apply in_app_or in Hin.
  assert (forall err, runs (service.validateNoDuplicateRemoteURLs req) checks
                        (Some err) ->
                      In (EvListServers (service.remoteURLFilter url) "" 1000
                            (rows, next, None)) checks ->
                      exists url' other' e',
                        In e' checks /\ listsConflict req.(Name) url' other' e'
                        /\ In url' (map URL req.(Remotes))
                        /\ err = Some (service.errRemoteURLInUse url' other'))
    as Hconf.
  { intros err Hc Hin'. unfold service.validateNoDuplicateRemoteURLs in Hc.
    apply checkRemotes_runs in Hc.
    destruct Hc as (_ & err' & [= <-] & Hfound & _). apply Hfound. eauto. }
  destruct Hlocked as [? ? Hc | ? ? ? Hc | ? ? Hc Hsc | ? ? ? ? ? Hc Hsc
                      | ? ? ? ? Hc Hsc];
    (destruct Hin as [Hin | Hin]; [|in_cases]);
    destruct (Hconf _ Hc Hin) as (url' & other' & e' & Hin' & Hlc' & Hurl & Herr);
    try discriminate.
  injection Herr as ->.
  pose proof (@publish_checks_quiet _ _ _ Hc) as Hrc.
  pose proof (remote_checks_quiet Hrc) as Hquiet.
  rewrite app_nil_r. split.
  - exists url', other', e'. repeat split; auto. now do 3 right.
  - quiet_trace Hquiet.
Qed.

(** ** Status changes, call by call *)

Lemma restoring_iff statusChange currentServer :
  restoring statusChange currentServer = true
  <-> statusChange.(NewStatus) = StatusActive
      /\ exists official,
           currentServer.(Meta).(Official) = Some official
           /\ official.(Status_) = StatusDeleted.
Proof.
  unfold restoring.
  now rewrite andb_true_iff, String.eqb_eq, currentlyDeleted_iff.
Qed.

(** X16: a single-version status change lists servers only when it
    restores: if the new status is not active, or the version it read is
    not deleted, the run contains no listing. *)
Theorem status_change_lists_only_to_restore :
  forall (serverName version : string) (statusChange : StatusChangeRequest)
         (tr : list Event)
         (r : option (option ServerResponse * option error)),
    runs (service.updateServerStatusInTransaction serverName version
            statusChange) tr r ->
    statusChange.(NewStatus) <> StatusActive
    \/ (exists currentServer err,
           In (EvGetServerByNameAndVersion serverName version true
                 (Some currentServer, err)) tr
           /\ forall official,
                currentServer.(Meta).(Official) = Some official ->
                official.(Status_) <> StatusDeleted) ->
    forall f c l ans, ~ In (EvListServers f c l ans) tr.
Proof.
  intros serverName version statusChange tr r Hrun Hplain f c l ans Hin.
  apply status_runs in Hrun.
  assert (forall current,
             restoring statusChange current = true ->
             In (EvGetServerByNameAndVersion serverName version true
                   (Some current, None)) tr ->
             (forall g, In g tr ->
                        forall cur' err',
                          g = EvGetServerByNameAndVersion serverName version true
                                (Some cur', err') -> cur' = current) ->
             False) as Hno.
  { intros current Hres Hget Huniq. apply restoring_iff in Hres.
    destruct Hres as (Hact & official & Hoff & Hdel).
    destruct Hplain as [Hne | (cur' & err' & Hin' & Hnd)]; [congruence|].
    rewrite (Huniq _ Hin' _ _ eq_refl) in Hnd. exact (Hnd _ Hoff Hdel). }
  destruct Hrun as [cur e | cur e | Hact | cur checks e Hres Hc
                   | cur checks ans0 Hres Hc | cur ans0 Hplain'];
    try (in_cases; fail).
  - apply (Hno cur Hres); [now left|].
    intros g Hg cur' err' ->. destruct Hg as [[= <-] | [[=] | Hg]]; [reflexivity|].
    apply publish_checks_quiet in Hc. rewrite Forall_forall in Hc.
    destruct (Hc _ Hg) as (? & ? & _ & [=]).
  - apply (Hno cur Hres); [now left|].
    intros g Hg cur' err' ->. destruct Hg as [[= <-] | [[=] | Hg]]; [reflexivity|].
    apply in_app_or in Hg. destruct Hg as [Hg | [[=] | []]].
    apply publish_checks_quiet in Hc. rewrite Forall_forall in Hc.
    destruct (Hc _ Hg) as (? & ? & _ & [=]).
Qed.

(** X17: a single-version status change writes at most once: the only
    write is [SetServerStatus] under the path's name and version with the
    status and message of the request; it is the last call, its answer is
    the result, and it comes after a successful read and the granted lock. *)
Theorem status_change_single_write :
  forall (serverName version : string) (statusChange : StatusChangeRequest)
         (tr : list Event)
         (r : option (option ServerResponse * option error)) (e : Event),
    runs (service.updateServerStatusInTransaction serverName version
            statusChange) tr r ->
    In e tr ->
    isWrite e = true ->
    exists ans pre currentServer,
      e = EvSetServerStatus serverName version statusChange.(NewStatus)
            statusChange.(ChangeStatusMessage) ans
      /\ tr = (pre ++ [e])%list
      /\ Forall (fun e' => isWrite e' = false) pre
      /\ r = Some ans
      /\ In (EvGetServerByNameAndVersion serverName version true
               (currentServer, None)) pre
      /\ In (EvAcquirePublishLock serverName None) pre.
Proof.
  intros serverName version statusChange tr r e Hrun Hin Hw.
  apply status_runs in Hrun.
  destruct Hrun as [cur e0 | cur e0 | Hact | cur checks e0 Hres Hc
                   | cur checks ans Hres Hc | cur ans Hplain'].
  - in_cases; discriminate.
  - in_cases; discriminate.
  - in_cases; discriminate.
  - exfalso. destruct Hin as [<- | [<- | Hin]]; try discriminate.
    apply publish_checks_quiet, remote_checks_quiet in Hc.
    rewrite Forall_forall in Hc. rewrite (Hc _ Hin) in Hw. discriminate.
  - pose proof (remote_checks_quiet (@publish_checks_quiet _ _ _ Hc)) as Hquiet.
    destruct Hin as [<- | [<- | Hin]]; try discriminate.
    apply in_app_or in Hin. destruct Hin as [Hin | [<- | []]].
    { rewrite Forall_forall in Hquiet. rewrite (Hquiet _ Hin) in Hw.
      discriminate. }
    eexists ans, (_ :: _ :: checks)%list, (Some cur).
    repeat split; [| now left | right; now left].
    quiet_trace Hquiet.
  - destruct Hin as [<- | [<- | [<- | []]]]; try discriminate.
    eexists ans, [_; _], cur.
    repeat split; [| now left | right; now left].
    repeat constructor.
Qed.

(** ** Bulk status changes, call by call *)

(** X18: a bulk status change to a status other than active makes no
    listing and no remote-URL check: it asks for the lock and, once the lock
    is granted, calls [SetAllVersionsStatus] with the request's status and
    message and returns its answer; a refused lock is returned with no
    rows. *)
Theorem bulk_change_without_restore :
  forall (serverName : string) (statusChange : StatusChangeRequest)
         (tr : list Event) (r : option (list ServerResponse * option error)),
    runs (service.updateAllVersionsStatusInTransaction serverName statusChange)
      tr r ->
    statusChange.(NewStatus) <> StatusActive ->
    (exists e,
        tr = [EvAcquirePublishLock serverName (Some e)]
        /\ r = Some ([], Some e))
    \/ (exists ans,
           tr = [EvAcquirePublishLock serverName None;
                 EvSetAllVersionsStatus serverName statusChange.(NewStatus)
                   statusChange.(ChangeStatusMessage) ans]
           /\ r = Some ans).
Proof.
  intros serverName statusChange tr r Hrun Hother.
  apply bulk_runs in Hrun.
  destruct Hrun; try congruence; [left | right]; eauto.
Qed.

Lemma revalidateDeleted_checks versions :
  forall tr r,
    runs (service.revalidateDeleted versions) tr r ->
    Forall
      (fun e =>
         exists version url ans,
           In version versions
           /\ currentlyDeleted version = true
           /\ In url (map URL version.(Server).(Remotes))
           /\ e = EvListServers (service.remoteURLFilter url) "" 1000 ans)
      tr.
Proof.
  induction versions as [|version rest IH]; intros tr r; simpl.
  - intros [-> ->]. constructor.
  - intros H. apply runs_bind in H. destruct H as (checks & rc & Hc & H).
    fold (currentlyDeleted version) in Hc.
    destruct (currentlyDeleted version) eqn:Hdel.
    + pose proof (@validateNoDuplicateRemoteURLs_returns _ _ _ Hc)
        as (Hall & err & ->).
      assert (Forall
                (fun e =>
                   exists version0 url ans,
                     (version = version0 \/ In version0 rest)
                     /\ currentlyDeleted version0 = true
                     /\ In url (map URL version0.(Server).(Remotes))
                     /\ e = EvListServers (service.remoteURLFilter url) "" 1000
                              ans) checks) as Hchecks.
      { eapply Forall_impl; [|exact Hall].
        intros e (url & ans & Hurl & ->). exists version, url, ans. auto. }
      destruct H as (tr2 & -> & H). destruct err as [e|].
      * destruct H as [-> ->]. now rewrite app_nil_r.
      * apply Forall_app. split; [exact Hchecks|].
        eapply Forall_impl; [|exact (IH _ _ H)].
        intros e (v & url & ans & Hin & Hd & Hurl & ->).
        exists v, url, ans. auto.
    + destruct Hc as [-> ->]. destruct H as (tr2 & -> & H). simpl.
      eapply Forall_impl; [|exact (IH _ _ H)].
      intros e (v & url & ans & Hin & Hd & Hurl & ->).
      exists v, url, ans. auto.
Qed.

Lemma revalidateDeleted_none_deleted versions :
  Forall (fun version => currentlyDeleted version = false) versions ->
  forall tr r,
    runs (service.revalidateDeleted versions) tr r ->
    tr = [] /\ r = Some None.
Proof.
  induction 1 as [|version rest Hdel _ IH]; intros tr r; simpl.
  - intros [-> ->]. now split.
  - fold (currentlyDeleted version). rewrite Hdel. simpl. apply IH.
Qed.

(** X19: a bulk restore re-checks deleted versions only: once the versions
    of the name are listed, every remote-URL listing of the run is for a
    remote URL of a listed version that is deleted; and when no listed
    version is deleted the run goes from the listing straight to
    [SetAllVersionsStatus] and returns its answer. *)
Theorem bulk_restore_checks_deleted_only :
  forall (serverName : string) (statusChange : StatusChangeRequest)
         (tr : list Event) (r : option (list ServerResponse * option error))
         (versions : list ServerResponse) (next : string),
    runs (service.updateAllVersionsStatusInTransaction serverName statusChange)
      tr r ->
    In (EvListServers (service.allVersionsFilter serverName) "" 1000
          (versions, next, None)) tr ->
    (forall url ans,
        In (EvListServers (service.remoteURLFilter url) "" 1000 ans) tr ->
        exists version official,
          In version versions
          /\ version.(Meta).(Official) = Some official
          /\ official.(Status_) = StatusDeleted
          /\ In url (map URL version.(Server).(Remotes)))
    /\ ((forall version official,
            In version versions ->
            version.(Meta).(Official) = Some official ->
            official.(Status_) <> StatusDeleted) ->
        exists ans,
          tr = [EvAcquirePublishLock serverName None;
                EvListServers (service.allVersionsFilter serverName) "" 1000
                  (versions, next, None);
                EvSetAllVersionsStatus serverName statusChange.(NewStatus)
                  statusChange.(ChangeStatusMessage) ans]
          /\ r = Some ans).
Proof.
  intros serverName statusChange tr r versions next Hrun Hlist.
  apply bulk_runs in Hrun.
  assert (forall versions' checks rc,
             runs (service.revalidateDeleted versions') checks rc ->
             In (EvListServers (service.allVersionsFilter serverName) "" 1000
                   (versions, next, None)) checks -> False) as Hnot.
  { intros versions' checks rc Hc Hin. apply revalidateDeleted_checks in Hc.
    rewrite Forall_forall in Hc.
    destruct (Hc _ Hin) as (? & ? & ? & _ & _ & _ & [=]). }
  assert (forall checks rc,
             runs (service.revalidateDeleted versions) checks rc ->
             forall url ans,
               In (EvListServers (service.remoteURLFilter url) "" 1000 ans)
                 checks ->
               exists version official,
                 In version versions
                 /\ version.(Meta).(Official) = Some official
                 /\ official.(Status_) = StatusDeleted
                 /\ In url (map URL version.(Server).(Remotes))) as Hfrom.
  { intros checks rc Hc url ans Hin. apply revalidateDeleted_checks in Hc.
    rewrite Forall_forall in Hc.
    destruct (Hc _ Hin) as (v & url' & ans' & Hv & Hdel & Hurl & [= <- _]).
    apply currentlyDeleted_iff in Hdel. destruct Hdel as (official & ? & ?).
    exists v, official. auto. }
  assert ((forall version official,
              In version versions ->
              version.(Meta).(Official) = Some official ->
              official.(Status_) <> StatusDeleted) ->
          Forall (fun version => currentlyDeleted version = false) versions)
    as Hnone.
  { intros Hnd. apply Forall_forall. intros v Hv.
    destruct (currentlyDeleted v) eqn:Hd; [|reflexivity].
    apply currentlyDeleted_iff in Hd. destruct Hd as (official & Hoff & Hdel).
    now elim (Hnd v official). }
  destruct Hrun as [e | ans Hother | versions' next' e Hact
                   | versions' next' checks e Hact Hc
                   | versions' next' checks ans Hact Hc].
  - in_cases.
  - in_cases.
  - in_cases.
  - destruct Hlist as [[=] | [Hlist | Hlist]];
      [|exfalso; eapply Hnot; eassumption].
    injection Hlist as -> ->. split.
    + intros url ans Hin. destruct Hin as [[=] | [[=] | Hin]]. eauto.
    + intros Hnd. apply Hnone in Hnd.
      destruct (revalidateDeleted_none_deleted Hnd _ _ Hc) as (_ & [=]).
  - destruct Hlist as [[=] | [Hlist | Hlist]].
    2:{ exfalso. apply in_app_or in Hlist. destruct Hlist as [Hlist | Hlist];
          [eapply Hnot; eassumption | in_cases]. }
    injection Hlist as -> ->. split.
    + intros url ans' Hin. destruct Hin as [[=] | [[=] | Hin]].
      apply in_app_or in Hin. destruct Hin as [Hin | Hin]; [eauto | in_cases].
    + intros Hnd. apply Hnone in Hnd.
      destruct (revalidateDeleted_none_deleted Hnd _ _ Hc) as (-> & _).
      exists ans. split; reflexivity.
Qed.

(** X20: when the listing of the versions fails in a bulk restore, the
    error is returned wrapped as [failed to list server versions: <cause>]
    with no rows, and the failed listing is the last call: nothing is
    checked and nothing is written. *)
Theorem bulk_restore_listing_failure_wrapped :
  forall (serverName : string) (statusChange : StatusChangeRequest)
         (tr : list Event) (r : option (list ServerResponse * option error))
         (versions : list ServerResponse) (next : string) (e : error),
    runs (service.updateAllVersionsStatusInTransaction serverName statusChange)
      tr r ->
    In (EvListServers (service.allVersionsFilter serverName) "" 1000
          (versions, next, Some e)) tr ->
    tr = [EvAcquirePublishLock serverName None;
          EvListServers (service.allVersionsFilter serverName) "" 1000
            (versions, next, Some e)]
    /\ r = Some ([], Some (Wrapf "failed to list server versions: " e)).
Proof.
  intros serverName statusChange tr r versions next e Hrun Hlist.
  apply bulk_runs in Hrun.
  assert (forall versions' checks rc,
             runs (service.revalidateDeleted versions') checks rc ->
             In (EvListServers (service.allVersionsFilter serverName) "" 1000
                   (versions, next, Some e)) checks -> False) as Hnot.
  { intros versions' checks rc Hc Hin. apply revalidateDeleted_checks in Hc.
    rewrite Forall_forall in Hc.
    destruct (Hc _ Hin) as (? & ? & ? & _ & _ & _ & [=]). }
  destruct Hrun as [e0 | ans Hother | versions' next' e0 Hact
                   | versions' next' checks e0 Hact Hc
                   | versions' next' checks ans Hact Hc].
  - in_cases.
  - in_cases.
  - in_cases. now split.
  - exfalso. destruct Hlist as [[=] | [[=] | Hlist]]. eapply Hnot; eassumption.
  - exfalso. destruct Hlist as [[=] | [[=] | Hlist]].
    apply in_app_or in Hlist. destruct Hlist as [Hlist | Hlist];
      [eapply Hnot; eassumption | in_cases].
Qed.






(** ** A refused lock *)

(** X23: in each of the four workflows a refused lock ends the run: the
    lock's error is the result and the lock request is the last call, so
    nothing is listed, checked or written after it. *)
Theorem refused_lock_ends_workflow :
  forall (CompareVersions : string -> string -> Time -> Time -> Z)
         (lockName : string) (e : error),
    (forall req tr r,
        runs (service.createServerInTransaction CompareVersions req) tr r ->
        In (EvAcquirePublishLock lockName (Some e)) tr ->
        r = Some (None, Some e)
        /\ exists pre,
             tr = (pre ++ [EvAcquirePublishLock lockName (Some e)])%list
             /\ Forall (fun e' => isWrite e' = false) pre)
    /\ (forall serverName version req statusChange tr r,
           runs (service.updateServerInTransaction serverName version req
                   statusChange) tr r ->
           In (EvAcquirePublishLock lockName (Some e)) tr ->
           r = Some (None, Some e)
           /\ exists pre,
                tr = (pre ++ [EvAcquirePublishLock lockName (Some e)])%list
                /\ Forall (fun e' => isWrite e' = false) pre)
    /\ (forall serverName version statusChange tr r,
           runs (service.updateServerStatusInTransaction serverName version
                   statusChange) tr r ->
           In (EvAcquirePublishLock lockName (Some e)) tr ->
           r = Some (None, Some e)
           /\ exists pre,
                tr = (pre ++ [EvAcquirePublishLock lockName (Some e)])%list
                /\ Forall (fun e' => isWrite e' = false) pre)
    /\ (forall serverName statusChange tr r,
           runs (service.updateAllVersionsStatusInTransaction serverName
                   statusChange) tr r ->
           In (EvAcquirePublishLock lockName (Some e)) tr ->
           r = Some ([], Some e)
           /\ tr = [EvAcquirePublishLock lockName (Some e)]).
Proof.
  intros cmp lockName e.
  assert (forall serverDetail checks rc,
             runs (service.validateNoDuplicateRemoteURLs serverDetail) checks
               (Some rc) ->
             In (EvAcquirePublishLock lockName (Some e)) checks -> False)
    as Hnc.
  { intros serverDetail checks rc Hc Hin. apply publish_checks_quiet in Hc.
    rewrite Forall_forall in Hc. destruct (Hc _ Hin) as (? & ? & _ & [=]). }
  repeat split.
  - apply publish_runs in H.
    destruct H as [e0 | publishTime e0 | publishTime checks rest r Hlocked];
      in_cases; try reflexivity.
    + exfalso. destruct Hlocked; eapply Hnc; eassumption.
    + exfalso. destruct Hlocked as [| ? ? ? ? ? Hrest]; [in_cases|].
      destruct Hrest; in_cases.
  - apply publish_runs in H.
    destruct H as [e0 | publishTime e0 | publishTime checks rest r Hlocked];
      in_cases.
    + eexists [_; _]. split; [reflexivity | repeat constructor].
    + exfalso. destruct Hlocked; eapply Hnc; eassumption.
    + exfalso. destruct Hlocked as [| ? ? ? ? ? Hrest]; [in_cases|].
      destruct Hrest; in_cases.
  - apply edit_runs in H.
    destruct H as [cur e0 | | cur e0 | cur e0 | cur checks rest r Hlocked];
      in_cases; try reflexivity.
    + exfalso. destruct Hlocked; eapply Hnc; eassumption.
    + exfalso. destruct Hlocked; in_cases.
  - apply edit_runs in H.
    destruct H as [cur e0 | | cur e0 | cur e0 | cur checks rest r Hlocked];
      in_cases.
    + eexists [_; _]. split; [reflexivity | repeat constructor].
    + exfalso. destruct Hlocked; eapply Hnc; eassumption.
    + exfalso. destruct Hlocked; in_cases.
  - apply status_runs in H.
    destruct H; in_cases; try reflexivity; exfalso; eapply Hnc; eassumption.
  - apply status_runs in H.
    destruct H; in_cases;
      try (exfalso; eapply Hnc; eassumption).
    eexists [_]. split; [reflexivity | repeat constructor].
  - apply bulk_runs in H.
    destruct H as [e0 | | | ? ? ? ? ? Hc | ? ? ? ? ? Hc]; in_cases;
      try reflexivity; exfalso;
      apply revalidateDeleted_checks in Hc; rewrite Forall_forall in Hc;
      match goal with
      | Hin : In _ _ |- _ => destruct (Hc _ Hin) as (? & ? & ? & _ & _ & _ & [=])
      end.
  - apply bulk_runs in H.
    destruct H as [e0 | | | ? ? ? ? ? Hc | ? ? ? ? ? Hc]; in_cases;
      try reflexivity; exfalso;
      apply revalidateDeleted_checks in Hc; rewrite Forall_forall in Hc;
      match goal with
      | Hin : In _ _ |- _ => destruct (Hc _ Hin) as (? & ? & ? & _ & _ & _ & [=])
      end.
Qed.

(** ** The status handlers *)

Section HandlerRuns.

Lemma status_handler_runs input tr r :
  serves (updateServerStatusHandler input) tr r -> statusHandled input tr r.
Proof.
  unfold updateServerStatusHandler.
  destruct (bearerToken input.(Authorization)) as [token|] eqn:Hb.
  2:{ intros [-> ->]. now constructor. }
  cbn [serves andThen ask].
  intros ([claims [e|]] & tr1 & -> & H).
  { destruct H as [-> ->]. now constructor. }
  cbn [serves andThen ask] in H.
  destruct H as ([serverName [e|]] & tr2 & -> & H).
  { destruct H as [-> ->]. now constructor. }
  cbn [serves andThen ask] in H.
  destruct H as ([version [e|]] & tr3 & -> & H).
  { destruct H as [-> ->]. now constructor. }
  cbn [serves andThen ask] in H.
  destruct H as ([currentServer [e|]] & tr4 & -> & H).
  { destruct (errors_Is_ErrNotFound e) eqn:He; destruct H as [-> ->];
      pose proof (@status_read_error input token claims serverName version
                    currentServer e Hb) as P; rewrite He in P; exact P. }
  destruct currentServer as [currentServer|].
  2:{ destruct H as [-> ->]. apply status_nil_pointer; auto. }
  destruct claims as [claims|].
  2:{ destruct H as [-> ->]. apply status_nil_pointer; auto. }
  apply status_authorized; [assumption|].
  cbn [serves andThen ask] in H.
  destruct H as (hasPublish & tr5 & -> & hasEdit & tr6 & -> & H).
  destruct hasPublish, hasEdit; cbn [negb andb] in H;
    try (destruct H as [-> ->]; constructor).
  all: destruct (validateStatusTransition currentServer
                   (BodyStatus (Body input)) (Body input)) as [e|] eqn:Hv;
    [destruct H as [-> ->]; now constructor|].
  all: cbn [serves andThen ask] in H;
    destruct H as ([updated [e|]] & tr7 & -> & H);
    [ destruct (errors_Is_ErrNotFound e) eqn:He; destruct H as [-> ->];
      cbn [handler_event_of];
      match goal with
      | |- statusAuthorized _ _ _ _ _
             [HvHasPermission _ _ _ ?p; HvHasPermission _ _ _ ?q; _] _ =>
          pose proof (@status_update_failed input serverName version
                        currentServer claims p q updated e eq_refl Hv) as P;
          rewrite He in P; exact P
      end
    | destruct updated as [updated|]; destruct H as [-> ->];
      now constructor ].
Qed.

Lemma all_versions_handler_runs input tr r :
  serves (updateAllVersionsStatusHandler input) tr r ->
  allVersionsHandled input tr r.
Proof.
  unfold updateAllVersionsStatusHandler.
  destruct (bearerToken input.(AllAuthorization)) as [token|] eqn:Hb.
  2:{ intros [-> ->]. now constructor. }
  cbn [serves andThen ask].
  intros ([claims [e|]] & tr1 & -> & H).
  { destruct H as [-> ->]. now constructor. }
  cbn [serves andThen ask] in H.
  destruct H as ([serverName [e|]] & tr2 & -> & H).
  { destruct H as [-> ->]. now constructor. }
  cbn [serves andThen ask] in H.
  destruct H as ([currentServer [e|]] & tr4 & -> & H).
  { destruct (errors_Is_ErrNotFound e) eqn:He; destruct H as [-> ->];
      pose proof (@all_read_error input token claims serverName
                    currentServer e Hb) as P; rewrite He in P; exact P. }
  destruct currentServer as [currentServer|].
  2:{ destruct H as [-> ->]. apply all_nil_pointer; auto. }
  destruct claims as [claims|].
  2:{ destruct H as [-> ->]. apply all_nil_pointer; auto. }
  apply all_authorized; [assumption|].
  cbn [serves andThen ask] in H.
  destruct H as (hasPublish & tr5 & -> & hasEdit & tr6 & -> & H).
  destruct hasPublish, hasEdit; cbn [negb andb] in H;
    try (destruct H as [-> ->]; constructor).
  all: cbn [serves andThen ask] in H;
    destruct H as ([allVersions [e|]] & tr7 & -> & H);
    [destruct H as [-> ->]; now constructor|].
  all: destruct (validateBulkStatusTransition allVersions
                   (BodyStatus (AllBody input)) (AllBody input)) as [e|] eqn:Hv;
    [destruct H as [-> ->]; now constructor|].
  all: cbn [serves andThen ask] in H;
    destruct H as ([updated [e|]] & tr8 & -> & H);
    [ destruct (errors_Is_ErrNotFound e) eqn:He; destruct H as [-> ->];
      cbn [handler_event_of];
      match goal with
      | |- allVersionsAuthorized _ _ _ _
             [HvHasPermission _ _ _ ?p; HvHasPermission _ _ _ ?q; _; _] _ =>
          pose proof (@all_update_failed input serverName currentServer claims
                        p q allVersions updated e eq_refl Hv) as P;
          rewrite He in P; exact P
      end
    | destruct H as [-> ->]; now constructor ].
Qed.

End HandlerRuns.

Section BearerFacts.

Lemma length_append_string (p t : string) :
  String.length (p ++ t) = (String.length p + String.length t)%nat.
Proof. induction p as [|c p IH]; simpl; [reflexivity | now rewrite IH]. Qed.

Lemma substring_all (t : string) : String.substring 0 (String.length t) t = t.
Proof. induction t as [|c t IH]; simpl; [reflexivity | now rewrite IH]. Qed.

Lemma substring_head (p t : string) :
  String.substring 0 (String.length p) (p ++ t) = p.
Proof.
  induction p as [|c p IH]; simpl.
  - now destruct t.
  - now rewrite IH.
Qed.

Lemma substring_tail (p t : string) :
  String.substring (String.length p)
    (String.length (p ++ t) - String.length p) (p ++ t) = t.
Proof.
  rewrite length_append_string.
  replace (String.length p + String.length t - String.length p)%nat
    with (String.length t) by lia.
  induction p as [|c p IH]; simpl; [apply substring_all | exact IH].
Qed.

Lemma substring_split (n : nat) (h : string) :
  (n <= String.length h)%nat ->
  h = String.substring 0 n h ++ String.substring n (String.length h - n) h
  /\ String.length (String.substring 0 n h) = n.
Proof.
  revert h. induction n as [|n IH]; intros h Hn.
  - rewrite Nat.sub_0_r, substring_all. split; [|now destruct h].
    now destruct h.
  - destruct h as [|c h]; simpl in Hn; [lia|].
    destruct (IH h ltac:(lia)) as (Hh & Hl). simpl. split.
    + now rewrite <- Hh.
    + now rewrite Hl.
Qed.

End BearerFacts.

(** X24: the bearer-token extraction accepts exactly the headers made of a
    seven-character prefix equal to [Bearer ] up to ASCII case, followed by
    the token: such a header yields the text after the prefix, whatever it
    is (empty included), and a header that yields a token is its prefix
    followed by that token; a header shorter than the prefix is refused. *)
Theorem bearer_token_round_trip :
  (forall (prefix token : string),
      String.length prefix = 7%nat ->
      EqualFold prefix bearerPrefix = true ->
      bearerToken (prefix ++ token) = Some token)
  /\ (forall (authHeader token : string),
         bearerToken authHeader = Some token ->
         exists prefix,
           authHeader = prefix ++ token
           /\ String.length prefix = 7%nat
           /\ EqualFold prefix bearerPrefix = true)
  /\ (forall (authHeader : string),
         (String.length authHeader < 7)%nat -> bearerToken authHeader = None).
Proof.
  repeat split.
  - intros prefix token Hlen Hfold. unfold bearerToken.
    change (String.length bearerPrefix) with 7%nat. rewrite <- Hlen.
    rewrite substring_head, substring_tail, Hfold, length_append_string.
    replace (String.length prefix + String.length token <? String.length prefix)%nat
      with false; [reflexivity|].
    symmetry. apply Nat.ltb_ge. lia.
  - intros authHeader token. unfold bearerToken.
    change (String.length bearerPrefix) with 7%nat.
    destruct (String.length authHeader <? 7)%nat eqn:Hlen; [discriminate|].
    destruct (EqualFold (String.substring 0 7 authHeader) bearerPrefix) eqn:Hf;
      [|discriminate].
    simpl. intros [= <-]. apply Nat.ltb_ge in Hlen.
    destruct (@substring_split _ _ Hlen) as (Hsplit & Hl).
    exists (String.substring 0 7 authHeader). auto.
  - intros authHeader Hlen. unfold bearerToken.
    change (String.length bearerPrefix) with 7%nat.
    apply Nat.ltb_lt in Hlen. now rewrite Hlen.
Qed.

(** X25: with a malformed Authorization header both handlers reply 401
    [Invalid Authorization header format. Expected 'Bearer <token>'] without
    calling any collaborator; otherwise their first call validates the
    token that follows the prefix. *)
Theorem handlers_check_header_first :
  (forall input tr r,
      serves (updateServerStatusHandler input) tr r ->
      match bearerToken input.(Authorization) with
      | None => tr = [] /\ r = Some (None, Some invalidAuthorizationHeader)
      | Some token => exists ans rest, tr = HvValidateToken token ans :: rest
      end)
  /\ (forall input tr r,
         serves (updateAllVersionsStatusHandler input) tr r ->
         match bearerToken input.(AllAuthorization) with
         | None => tr = [] /\ r = Some (None, Some invalidAuthorizationHeader)
         | Some token => exists ans rest, tr = HvValidateToken token ans :: rest
         end).
Proof.
  split; intros input tr r H.
  - apply status_handler_runs in H.
    destruct H as [Hb | ? ? ? Hb | ? ? ? ? Hb | ? ? ? ? ? Hb | ? ? ? ? ? ? Hb
                  | ? ? ? ? ? Hb | ? ? ? ? ? ? ? Hb]; rewrite Hb; eauto.
  - apply all_versions_handler_runs in H.
    destruct H as [Hb | ? ? ? Hb | ? ? ? ? Hb | ? ? ? ? ? Hb | ? ? ? ? Hb
                  | ? ? ? ? ? ? Hb]; rewrite Hb; eauto.
Qed.

Ltac hv_cases :=
  repeat match goal with
         | H : In _ (_ :: _) |- _ => apply in_inv in H; destruct H as [H | H]
         | H : In _ [] |- _ => apply in_nil in H; destruct H
         | H : _ = _ :> HandlerEvent |- _ =>
             first [discriminate H | inversion H; clear H; subst]
         end.

(** X26: the single-version handler calls [UpdateServerStatus] only as its
    last call and only after the token was validated, name and version were
    decoded, the version was read, one of the permissions publish or edit
    was granted on the name of the version read, and the validator accepted
    the body against that version.  The update is made under the decoded
    name and version, with the status and message of the body. *)
Theorem status_update_only_when_authorized :
  forall (input : UpdateServerStatusInput) (tr : list HandlerEvent)
         (r : option (option ServerResponse * option handlerError))
         (serverName version : string) (statusChange : StatusChangeRequest)
         (ans : option ServerResponse * option error),
    serves (updateServerStatusHandler input) tr r ->
    In (HvUpdateServerStatus serverName version statusChange ans) tr ->
    exists token claims currentServer pre,
      tr = (pre ++ [HvUpdateServerStatus serverName version statusChange ans])%list
      /\ bearerToken input.(Authorization) = Some token
      /\ In (HvValidateToken token (Some claims, None)) pre
      /\ In (HvPathUnescape input.(InputServerName) (serverName, None)) pre
      /\ In (HvPathUnescape input.(InputVersion) (version, None)) pre
      /\ In (HvGetServerByNameAndVersion serverName version true
               (Some currentServer, None)) pre
      /\ (exists action,
             In (HvHasPermission currentServer.(Server).(Name) action
                   claims.(Permissions) true) pre)
      /\ validateStatusTransition currentServer input.(Body).(BodyStatus)
           input.(Body) = None
      /\ statusChange
         = mkStatusChangeRequest input.(Body).(BodyStatus)
             input.(Body).(BodyStatusMessage).
Proof.
  intros input tr r serverName version statusChange ans Hrun Hin.
  apply status_handler_runs in Hrun.
  destruct Hrun as [Hb | ? ? ? Hb | ? ? ? ? Hb | ? ? ? ? ? Hb | ? ? ? ? ? ? Hb
                   | ? ? ? ? ? Hb ?
                   | token claims name ver cur rest r Hb Hauth];
    try (hv_cases; fail).
  destruct Hin as [[=] | [[=] | [[=] | [[=] | Hin]]]].
  assert (forall p q,
             p || q = true ->
             exists action,
               In (HvHasPermission cur.(Server).(Name) action
                     claims.(Permissions) true)
                 [HvValidateToken token (Some claims, None);
                  HvPathUnescape input.(InputServerName) (name, None);
                  HvPathUnescape input.(InputVersion) (ver, None);
                  HvGetServerByNameAndVersion name ver true (Some cur, None);
                  HvHasPermission cur.(Server).(Name) PermissionActionPublish
                    claims.(Permissions) p;
                  HvHasPermission cur.(Server).(Name) PermissionActionEdit
                    claims.(Permissions) q]) as Hperm.
  { intros [|] [|] Hpq; try discriminate.
    - exists PermissionActionPublish. do 4 right. now left.
    - exists PermissionActionPublish. do 4 right. now left.
    - exists PermissionActionEdit. do 5 right. now left. }
  pose proof (built_request_facts cur input.(Body))
    as (Hst & _ & Hmsg).
  destruct Hauth as [ | p q e Hpq Hv | p q updated e Hpq Hv | p q Hpq Hv
                    | p q updated Hpq Hv]; hv_cases.
  all: exists token, claims, cur; eexists [_; _; _; _; _; _];
    (split; [reflexivity|]);
    (split; [assumption|]);
    (split; [now left|]);
    (split; [right; now left|]);
    (split; [do 2 right; now left|]);
    (split; [do 3 right; now left|]);
    (split; [now apply Hperm|]);
    (split; [assumption|]).
  all: destruct (buildStatusChangeRequestFromBody (Body input)) as [ns msg]
    eqn:Hbuilt; simpl in Hst, Hmsg; rewrite Hst, (Hmsg Hv); reflexivity.
Qed.

Lemma validate_error_is_400 currentServer newStatus body e :
  validateStatusTransition currentServer newStatus body = Some e ->
  exists msg, e = StatusError 400 msg.
Proof.
  intros H. apply validate_rejections in H.
  destruct H as [(_ & ->) | [(_ & _ & ->) | (_ & _ & ->)]]; eexists; reflexivity.
Qed.

(** X27: how the single-version handler maps failures to replies.  A
    refused token gives 401; a name or version that does not decode gives
    400; a failed read gives 404 [Server version not found] when the error
    is [ErrNotFound] and 500 otherwise; a failed update gives 404 [Server
    not found] when the error is [ErrNotFound] and 400 otherwise, with the
    cause attached.  Every error reply carries no body and has one of the
    statuses 400, 401, 403, 404, 500. *)
Theorem status_handler_error_mapping :
  forall (input : UpdateServerStatusInput) (tr : list HandlerEvent)
         (r : option (option ServerResponse * option handlerError)),
    serves (updateServerStatusHandler input) tr r ->
    (forall token claims e,
        In (HvValidateToken token (claims, Some e)) tr ->
        r = Some (None, Some (HumaError 401
                                "Invalid or expired Registry JWT token" [e])))
    /\ (forall s decoded e,
           In (HvPathUnescape s (decoded, Some e)) tr ->
           r = Some (None, Some (HumaError 400 "Invalid server name encoding" [e]))
           \/ r = Some (None, Some (HumaError 400 "Invalid version encoding" [e])))
    /\ (forall serverName version currentServer e,
           In (HvGetServerByNameAndVersion serverName version true
                 (currentServer, Some e)) tr ->
           r = Some (None,
                     Some (if errors_Is_ErrNotFound e
                           then HumaError 404 "Server version not found" []
                           else HumaError 500 "Failed to get server" [e])))
    /\ (forall serverName version statusChange updated e,
           In (HvUpdateServerStatus serverName version statusChange
                 (updated, Some e)) tr ->
           r = Some (None,
                     Some (if errors_Is_ErrNotFound e
                           then HumaError 404 "Server not found" []
                           else HumaError 400 "Failed to update server status"
                                  [e])))
    /\ (forall body e,
           r = Some (body, Some e) ->
           body = None
           /\ exists status,
                httpStatus e = Some status /\ In status [400; 401; 403; 404; 500]).
Proof.
  intros input tr r Hrun. apply status_handler_runs in Hrun.
  split; [|split; [|split; [|split]]].
  - intros token0 claims0 e0 Hin.
    destruct Hrun as [Hb | ? ? ? Hb | ? ? ? ? Hb | ? ? ? ? ? Hb | ? ? ? ? ? ? Hb
                     | ? ? ? ? ? Hb ? | ? ? ? ? ? ? ? Hb Hauth];
      hv_cases; try reflexivity.
    destruct Hauth; hv_cases.
  - intros s decoded e0 Hin.
    destruct Hrun as [Hb | ? ? ? Hb | ? ? ? ? Hb | ? ? ? ? ? Hb | ? ? ? ? ? ? Hb
                     | ? ? ? ? ? Hb ? | ? ? ? ? ? ? ? Hb Hauth];
      hv_cases; auto.
    destruct Hauth; hv_cases.
  - intros serverName version currentServer e0 Hin.
    destruct Hrun as [Hb | ? ? ? Hb | ? ? ? ? Hb | ? ? ? ? ? Hb | ? ? ? ? ? ? Hb
                     | ? ? ? ? ? Hb ? | ? ? ? ? ? ? ? Hb Hauth];
      hv_cases; try reflexivity.
    destruct Hauth; hv_cases.
  - intros serverName version statusChange updated e0 Hin.
    destruct Hrun as [Hb | ? ? ? Hb | ? ? ? ? Hb | ? ? ? ? ? Hb | ? ? ? ? ? ? Hb
                     | ? ? ? ? ? Hb ? | ? ? ? ? ? ? ? Hb Hauth];
      hv_cases.
    destruct Hauth; hv_cases; reflexivity.
  - intros body err Hr.
    assert (forall b (e' : handlerError) status,
               Some (b, Some e') = Some (body, Some err) ->
               b = None -> httpStatus e' = Some status ->
               In status [400; 401; 403; 404; 500] ->
               body = None
               /\ exists status',
                    httpStatus err = Some status'
                    /\ In status' [400; 401; 403; 404; 500]) as Hok.
    { intros b e' status [= <- <-] -> Hs Hin. eauto. }
    destruct Hrun as [Hb | token claims cause Hb | token claims name cause Hb
                     | token claims name ver cause Hb
                     | token claims name ver cur cause Hb
                     | token claims name ver cur Hb Hnil
                     | token claims name ver cur rest r Hb Hauth];
      try discriminate.
    + eapply Hok; [exact Hr | reflexivity | reflexivity | simpl; tauto].
    + eapply Hok; [exact Hr | reflexivity | reflexivity | simpl; tauto].
    + eapply Hok; [exact Hr | reflexivity | reflexivity | simpl; tauto].
    + eapply Hok; [exact Hr | reflexivity | reflexivity | simpl; tauto].
    + destruct (errors_Is_ErrNotFound cause);
        (eapply Hok; [exact Hr | reflexivity | reflexivity | simpl; tauto]).
    + destruct Hauth as [ | p q e1 Hpq Hv | p q updated e1 Hpq Hv | p q Hpq Hv
                        | p q updated Hpq Hv];
        try discriminate.
      * eapply Hok; [exact Hr | reflexivity | reflexivity | simpl; tauto].
      * destruct (validate_error_is_400 _ _ _ Hv) as (msg & ->).
        eapply Hok; [exact Hr | reflexivity | reflexivity | simpl; tauto].
      * destruct (errors_Is_ErrNotFound e1);
          (eapply Hok; [exact Hr | reflexivity | reflexivity | simpl; tauto]).
Qed.

(** X28: the all-versions handler calls [UpdateAllVersionsStatus] only as
    its last call and only after the token was validated, the name was
    decoded, a version of the server was read, one of the permissions
    publish or edit was granted on its name, all versions were read and the
    bulk validator accepted the body against them; the update carries the
    request built from the body.  A successful reply lists the rows the
    update returned and counts them. *)
Theorem all_versions_update_only_when_authorized :
  forall (input : UpdateAllVersionsStatusInput) (tr : list HandlerEvent)
         (r : option (option UpdateAllVersionsStatusResponse
                      * option handlerError)),
    serves (updateAllVersionsStatusHandler input) tr r ->
    (forall serverName statusChange ans,
        In (HvUpdateAllVersionsStatus serverName statusChange ans) tr ->
        exists token claims currentServer allVersions pre,
          tr = (pre ++ [HvUpdateAllVersionsStatus serverName statusChange ans])%list
          /\ bearerToken input.(AllAuthorization) = Some token
          /\ In (HvValidateToken token (Some claims, None)) pre
          /\ In (HvPathUnescape input.(AllServerName) (serverName, None)) pre
          /\ In (HvGetServerByName serverName true (Some currentServer, None)) pre
          /\ (exists action,
                 In (HvHasPermission currentServer.(Server).(Name) action
                       claims.(Permissions) true) pre)
          /\ In (HvGetAllVersionsByServerName serverName true
                   (allVersions, None)) pre
          /\ validateBulkStatusTransition allVersions
               input.(AllBody).(BodyStatus) input.(AllBody) = None
          /\ statusChange = buildStatusChangeRequestFromBody input.(AllBody))
    /\ (forall response,
           r = Some (Some response, None) ->
           exists serverName statusChange rows,
             In (HvUpdateAllVersionsStatus serverName statusChange (rows, None)) tr
             /\ response.(Servers) = rows
             /\ response.(UpdatedCount) = Z.of_nat (List.length rows)).
Proof.
  intros input tr r Hrun. apply all_versions_handler_runs in Hrun. split.
  - intros serverName statusChange ans Hin.
    destruct Hrun as [Hb | ? ? ? Hb | ? ? ? ? Hb | ? ? ? ? ? Hb | ? ? ? ? Hb ?
                     | token claims name cur rest r Hb Hauth];
      try (hv_cases; fail).
    destruct Hin as [[=] | [[=] | [[=] | Hin]]].
    assert (forall p q,
               p || q = true ->
               forall more,
               exists action,
                 In (HvHasPermission cur.(Server).(Name) action
                       claims.(Permissions) true)
                   (HvValidateToken token (Some claims, None)
                    :: HvPathUnescape input.(AllServerName) (name, None)
                    :: HvGetServerByName name true (Some cur, None)
                    :: HvHasPermission cur.(Server).(Name)
                         PermissionActionPublish claims.(Permissions) p
                    :: HvHasPermission cur.(Server).(Name) PermissionActionEdit
                         claims.(Permissions) q
                    :: more)) as Hperm.
    { intros [|] [|] Hpq more; try discriminate.
      - exists PermissionActionPublish. do 3 right. now left.
      - exists PermissionActionPublish. do 3 right. now left.
      - exists PermissionActionEdit. do 4 right. now left. }
    destruct Hauth as [ | p q allVersions e Hpq | p q allVersions e Hpq Hv
                      | p q allVersions updated e Hpq Hv
                      | p q allVersions updated Hpq Hv]; hv_cases.
    all: exists token, claims, cur, allVersions; eexists [_; _; _; _; _; _];
      (split; [reflexivity|]);
      (split; [assumption|]);
      (split; [now left|]);
      (split; [right; now left|]);
      (split; [do 2 right; now left|]);
      (split; [now apply Hperm|]);
      (split; [do 5 right; now left|]);
      (split; [assumption | reflexivity]).
  - intros response Hr.
    destruct Hrun as [Hb | ? ? ? Hb | ? ? ? ? Hb | ? ? ? ? ? Hb | ? ? ? ? Hb ?
                     | token claims name cur rest r Hb Hauth];
      try discriminate.
    destruct Hauth as [ | p q allVersions e Hpq | p q allVersions e Hpq Hv
                      | p q allVersions updated e Hpq Hv
                      | p q allVersions updated Hpq Hv]; try discriminate.
    injection Hr as <-. eexists _, _, updated.
    split; [do 6 right; now left | split; reflexivity].
Qed.

(** X29: both handlers reply 403 [You do not have publish or edit
    permissions for this server] exactly when the publish and the edit
    permission were both refused, and then neither update is called. *)
Theorem handlers_forbid_without_permission :
  let forbidden :=
    HumaError 403 "You do not have publish or edit permissions for this server"
      [] in
  let refused tr :=
    exists resource permissions,
      In (HvHasPermission resource PermissionActionPublish permissions false) tr
      /\ In (HvHasPermission resource PermissionActionEdit permissions false) tr in
  let quiet tr :=
    forall e,
      In e tr ->
      (forall n v sc ans, e <> HvUpdateServerStatus n v sc ans)
      /\ (forall n sc ans, e <> HvUpdateAllVersionsStatus n sc ans) in
  (forall input tr r,
      serves (updateServerStatusHandler input) tr r ->
      (r = Some (None, Some forbidden) <-> refused tr)
      /\ (refused tr -> quiet tr))
  /\ (forall input tr r,
         serves (updateAllVersionsStatusHandler input) tr r ->
         (r = Some (None, Some forbidden) <-> refused tr)
         /\ (refused tr -> quiet tr)).
Proof.
  intros forbidden refused quiet. subst forbidden refused quiet. cbv beta.
  split; intros input tr r Hrun.
  - apply status_handler_runs in Hrun.
    destruct Hrun as [Hb | ? ? ? Hb | ? ? ? ? Hb | ? ? ? ? ? Hb | ? ? ? ? ? ? Hb
                     | ? ? ? ? ? Hb ? | ? ? ? ? ? ? ? Hb Hauth].
    1-6: split; [split; [try discriminate;
                          try (match goal with
        | H : context [errors_Is_ErrNotFound ?x] |- _ =>
            destruct (errors_Is_ErrNotFound x); discriminate
        | |- context [errors_Is_ErrNotFound ?x] =>
            destruct (errors_Is_ErrNotFound x); discriminate
        end)
                        | intros (? & ? & H1 & H2); hv_cases]
                | intros (? & ? & H1 & H2); hv_cases].
    destruct Hauth as [ | p q e Hpq Hv | p q updated e Hpq Hv | p q Hpq Hv
                      | p q updated Hpq Hv].
    + split; [split; [intros _ | reflexivity] | intros _ e He].
      * eexists _, _. split; [do 4 right; now left | do 5 right; now left].
      * hv_cases; split; discriminate.
    + split; [split; [discriminate|] |];
        intros (? & ? & H1 & H2); hv_cases; discriminate.
    + split; [split; [match goal with
        | H : context [errors_Is_ErrNotFound ?x] |- _ =>
            destruct (errors_Is_ErrNotFound x); discriminate
        | |- context [errors_Is_ErrNotFound ?x] =>
            destruct (errors_Is_ErrNotFound x); discriminate
        end|] |];
        intros (? & ? & H1 & H2); hv_cases; discriminate.
    + split; [split; [discriminate|] |];
        intros (? & ? & H1 & H2); hv_cases; discriminate.
    + split; [split; [discriminate|] |];
        intros (? & ? & H1 & H2); hv_cases; discriminate.
  - apply all_versions_handler_runs in Hrun.
    destruct Hrun as [Hb | ? ? ? Hb | ? ? ? ? Hb | ? ? ? ? ? Hb | ? ? ? ? Hb ?
                     | ? ? ? ? ? ? Hb Hauth].
    1-5: split; [split; [try discriminate;
                          try (match goal with
        | H : context [errors_Is_ErrNotFound ?x] |- _ =>
            destruct (errors_Is_ErrNotFound x); discriminate
        | |- context [errors_Is_ErrNotFound ?x] =>
            destruct (errors_Is_ErrNotFound x); discriminate
        end)
                        | intros (? & ? & H1 & H2); hv_cases]
                | intros (? & ? & H1 & H2); hv_cases].
    destruct Hauth as [ | p q allVersions e Hpq | p q allVersions e Hpq Hv
                      | p q allVersions updated e Hpq Hv
                      | p q allVersions updated Hpq Hv].
    + split; [split; [intros _ | reflexivity] | intros _ e He].
      * eexists _, _. split; [do 3 right; now left | do 4 right; now left].
      * hv_cases; split; discriminate.
    + split; [split; [discriminate|] |];
        intros (? & ? & H1 & H2); hv_cases; discriminate.
    + split; [split; [discriminate|] |];
        intros (? & ? & H1 & H2); hv_cases; discriminate.
    + split; [split; [match goal with
        | H : context [errors_Is_ErrNotFound ?x] |- _ =>
            destruct (errors_Is_ErrNotFound x); discriminate
        | |- context [errors_Is_ErrNotFound ?x] =>
            destruct (errors_Is_ErrNotFound x); discriminate
        end|] |];
        intros (? & ? & H1 & H2); hv_cases; discriminate.
    + split; [split; [discriminate|] |];
        intros (? & ? & H1 & H2); hv_cases; discriminate.
Qed.

(** * Worked examples of the further properties *)

Lemma serve_serves {A} (env : collaborators) (t : Req A) :
  serves t (snd (serve env t)) (fst (serve env t)).
Proof.
  induction t as [a| |X c k IH]; simpl; auto.
  exists (env _ c), (snd (serve env (k (env _ c)))).
  specialize (IH (env _ c)).
  destruct (serve env (k (env _ c))) as [r tr]. simpl in *. auto.
Qed.

(** Repeating the current status and message of a deprecated version. *)
Lemma validateStatusTransition_rejections_witness :
  let current := sampleResponse StatusDeprecated (Some "old") in
  let body := mkBody StatusDeprecated (Some "old") in
  exists e,
    validateStatusTransition current StatusDeprecated body = Some e
    /\ ((validStatuses StatusDeprecated = false
         /\ e = Error400BadRequest
                  ("Invalid status: " ++ StatusDeprecated
                   ++ ". Must be one of: active, deprecated, deleted"))
        \/ (StatusDeprecated = StatusActive
            /\ body.(BodyStatusMessage) <> None
            /\ e = Error400BadRequest
                     "status_message cannot be provided when setting status to active")
        \/ (validStatuses StatusDeprecated = true
            /\ (exists official,
                   current.(Meta).(Official) = Some official
                   /\ official.(Status_) = StatusDeprecated
                   /\ official.(StatusMessage) = body.(BodyStatusMessage))
            /\ e = Error400BadRequest
                     "No changes to apply: status and message are already set to the provided values")).
Proof.
  intros current body. eexists. split; [reflexivity|].
  apply (@validateStatusTransition_rejections current StatusDeprecated body _
           eq_refl).
Defined.

(** Two versions listed in two orders, one of them twice. *)
Lemma bulk_verdict_order_independent_witness :
  let a := sampleResponse StatusDeprecated None in
  let b := sampleResponse StatusActive None in
  let body := mkBody StatusDeprecated None in
  validateBulkStatusTransition [a; b] StatusDeprecated body
  = validateBulkStatusTransition [b; a; b] StatusDeprecated body.
Proof.
  intros a b body.
  apply (@bulk_verdict_order_independent [a; b] [b; a; b] StatusDeprecated body).
  intros version. simpl. tauto.
Defined.

(** A descriptor with two remotes whose first URL another server uses: the
    check stops after one listing, with the error that names that server. *)
Lemma remote_check_stops_at_first_failure_witness :
  let serverDetail :=
    mkServerJSON "" "io.github.u/s" "" "1.0.0" sampleRepo
      [mkTransport "sse" "https://u.example/mcp";
       mkTransport "sse" "https://v.example/mcp"] in
  let run :=
    exec (memstore.handle acceptAll)
      (service.validateNoDuplicateRemoteURLs serverDetail) storeStolen in
  (List.length (snd run) = 1%nat
   /\ fst (fst run)
      = Some (Some (service.errRemoteURLInUse "https://u.example/mcp"
                      "io.github.w/t")))
  /\ ((listedAll serverDetail.(Remotes) (snd run)
       /\ Forall (listsOnly serverDetail.(Name)) (snd run)
       /\ fst (fst run) = Some None)
      \/ (exists checked remote unchecked pre rows next err,
            serverDetail.(Remotes) = (checked ++ remote :: unchecked)%list
            /\ snd run
               = (pre ++ [EvListServers
                            (service.remoteURLFilter remote.(URL)) "" 1000
                            (rows, next, err)])%list
            /\ listedAll checked pre
            /\ Forall (listsOnly serverDetail.(Name)) pre
            /\ match err with
               | Some cause =>
                   fst (fst run)
                   = Some (Some (Wrapf "failed to check remote URL conflict: "
                                   cause))
               | None =>
                   exists before row after,
                     rows = (before ++ row :: after)%list
                     /\ (forall row', In row' before ->
                                      row'.(Server).(Name) = serverDetail.(Name))
                     /\ row.(Server).(Name) <> serverDetail.(Name)
                     /\ fst (fst run)
                        = Some (Some (service.errRemoteURLInUse remote.(URL)
                                        row.(Server).(Name)))
               end)).
Proof.
  intros serverDetail run. split; [split; reflexivity|].
  apply (@remote_check_stops_at_first_failure serverDetail _ _
           (exec_is_run (memstore.handle acceptAll)
              (service.validateNoDuplicateRemoteURLs serverDetail) storeStolen)).
Defined.

(** The check of one remote against a store whose listings fail. *)
Lemma remote_listing_failure_wrapped_witness :
  let serverDetail := sampleServer "io.github.u/s" "1.0.0" "https://u.example/mcp" in
  let failed :=
    EvListServers (service.remoteURLFilter "https://u.example/mcp") "" 1000
      ([], "", Some (ErrStore Internal)) in
  let run :=
    exec (faulty (listingFails (ErrStore Internal)) (memstore.handle acceptAll))
      (service.validateNoDuplicateRemoteURLs serverDetail) storeV1 in
  (exists pre, snd run = (pre ++ [failed])%list)
  /\ exists wrapped,
       fst (fst run) = Some (Some wrapped)
       /\ wrapped = Wrapf "failed to check remote URL conflict: " (ErrStore Internal)
       /\ errors_Is_ErrNotFound wrapped = errors_Is_ErrNotFound (ErrStore Internal).
Proof.
  intros serverDetail failed run.
  apply (@remote_listing_failure_wrapped serverDetail _ _ _ _ _ _ _ _
           (exec_is_run
              (faulty (listingFails (ErrStore Internal))
                 (memstore.handle acceptAll))
              (service.validateNoDuplicateRemoteURLs serverDetail) storeV1)).
  left. reflexivity.
Defined.

(** A listing that fails, and one that succeeds. *)
Lemma list_servers_result_witness :
  let failing :=
    exec (faulty (listingFails (ErrStore Internal)) (memstore.handle acceptAll))
      (service.ListServers None "" 5) storeV1 in
  let working :=
    exec (memstore.handle acceptAll) (service.ListServers None "" 5) storeV1 in
  (fst (fst failing) = Some ([], "", Some (ErrStore Internal))
   /\ exists records next err l,
        snd failing = [EvListServers None "" l (records, next, err)]
        /\ fst (fst failing)
           = Some match err with
                  | Some e => ([], "", Some e)
                  | None => (records, next, None)
                  end)
  /\ (exists records next err l,
         snd working = [EvListServers None "" l (records, next, err)]
         /\ fst (fst working)
            = Some match err with
                   | Some e => ([], "", Some e)
                   | None => (records, next, None)
                   end).
Proof.
  intros failing working. split; [split; [reflexivity|] |].
  - apply (@list_servers_result None "" 5 _ _
             (exec_is_run
                (faulty (listingFails (ErrStore Internal))
                   (memstore.handle acceptAll))
                (service.ListServers None "" 5) storeV1)).
  - apply (@list_servers_result None "" 5 _ _
             (exec_is_run (memstore.handle acceptAll)
                (service.ListServers None "" 5) storeV1)).
Defined.

(** Publishing 1.1.0 beside 1.0.0. *)
Lemma publish_success_passed_every_guard_witness :
  let req := sampleServer "io.github.u/s" "1.1.0" "https://u.example/mcp" in
  let run :=
    exec (memstore.handle acceptAll)
      (service.createServerInTransaction lexicalCompareVersions req) storeV1 in
  exists created,
    fst (fst run) = Some (created, None)
    /\ In (EvValidatePublishRequest req None) (snd run)
    /\ In (EvAcquirePublishLock req.(Name) None) (snd run)
    /\ Forall (listsOnly req.(Name)) (snd run)
    /\ (exists versionCount err,
           In (EvCountServerVersions req.(Name) (versionCount, err)) (snd run)
           /\ versionCount < 10000)
    /\ In (EvCheckVersionExists req.(Name) req.(Version) (false, None)) (snd run)
    /\ exists pre officialMeta,
         snd run = (pre ++ [EvCreateServer req officialMeta (created, None)])%list.
Proof.
  intros req run. eexists. split; [vm_compute; reflexivity|].
  apply (@publish_success_passed_every_guard lexicalCompareVersions req
           (snd run) _).
  exact (exec_is_run (memstore.handle acceptAll)
           (service.createServerInTransaction lexicalCompareVersions req)
           storeV1).
Defined.

(** Publishing a new name with the URL of [io.github.u/s]. *)
Lemma publish_url_conflict_aborts_witness :
  let req := sampleServer "io.github.x/new" "1.0.0" "https://u.example/mcp" in
  let run :=
    exec (memstore.handle acceptAll)
      (service.createServerInTransaction lexicalCompareVersions req) storeV1 in
  (exists url' other' e',
      In e' (snd run) /\ listsConflict req.(Name) url' other' e'
      /\ In url' (map URL req.(Remotes))
      /\ fst (fst run) = Some (None, Some (service.errRemoteURLInUse url' other')))
  /\ Forall (fun e' => isWrite e' = false) (snd run)
  /\ (forall name ans, ~ In (EvCountServerVersions name ans) (snd run)).
Proof.
  intros req run.
  apply (@publish_url_conflict_aborts lexicalCompareVersions req (snd run)
           (fst (fst run)) "https://u.example/mcp" "io.github.u/s"
           (nth 3 (snd run) (EvTimeNow 0))
           (exec_is_run (memstore.handle acceptAll)
              (service.createServerInTransaction lexicalCompareVersions req)
              storeV1)).
  - vm_compute. do 3 right. left. reflexivity.
  - eexists _, _, _. split; [vm_compute; reflexivity|].
    split; [left; reflexivity|]. split; [reflexivity | discriminate].
Defined.

(** Publishing 2.0.0 over 1.0.0 writes twice: the unmarking and the insert. *)
Lemma publish_writes_witness :
  let req := sampleServer "io.github.u/s" "2.0.0" "https://u.example/mcp" in
  let run :=
    exec (memstore.handle acceptAll)
      (service.createServerInTransaction lexicalCompareVersions req) storeV1 in
  List.length (filter isWrite (snd run)) = 2%nat
  /\ (forall e,
         In e (snd run) -> isWrite e = true ->
         (exists ans, e = EvUnmarkAsLatest req.(Name) ans)
         \/ (exists officialMeta ans pre,
                e = EvCreateServer req officialMeta ans
                /\ snd run = (pre ++ [e])%list))
  /\ (List.length (filter isWrite (snd run)) <= 2)%nat.
Proof.
  intros req run. split; [reflexivity|].
  apply (@publish_writes lexicalCompareVersions req (snd run) (fst (fst run))
           (exec_is_run (memstore.handle acceptAll)
              (service.createServerInTransaction lexicalCompareVersions req)
              storeV1)).
Defined.

(** Publishing while the version count fails. *)
Lemma publish_read_errors_returned_witness :
  let req := plainServer "io.github.u/s" "next" in
  let failing := EvCountServerVersions "io.github.u/s" (0, Some (ErrStore Internal)) in
  let run :=
    exec (faulty (countFails (ErrStore Internal)) (memstore.handle acceptAll))
      (service.createServerInTransaction lexicalCompareVersions req) storeV1 in
  fst (fst run) = Some (None, Some (ErrStore Internal))
  /\ (exists pre, snd run = (pre ++ [failing])%list)
  /\ Forall (fun e' => isWrite e' = false) (snd run).
Proof.
  intros req failing run.
  apply (@publish_read_errors_returned lexicalCompareVersions req (snd run)
           (fst (fst run)) failing (ErrStore Internal)
           (exec_is_run
              (faulty (countFails (ErrStore Internal))
                 (memstore.handle acceptAll))
              (service.createServerInTransaction lexicalCompareVersions req)
              storeV1)).
  - vm_compute. do 3 right. left. reflexivity.
  - left. exists 0. split; reflexivity.
Defined.

(** Editing a deleted version: the registry validation is skipped. *)
Lemma edit_skips_registry_validation_iff_deleted_witness :
  let name := "io.github.u/s" in
  let req := sampleServer name "1.0.0" "https://u.example/mcp" in
  let run :=
    exec (memstore.handle acceptAll)
      (service.updateServerInTransaction name "1.0.0" req None) storeDeleted in
  In (EvValidateUpdateRequest req true None) (snd run)
  /\ req = req
  /\ exists currentServer,
       In (EvGetServerByNameAndVersion name "1.0.0" true
             (Some currentServer, None)) (snd run)
       /\ (true = true
           <-> (exists official,
                   currentServer.(Meta).(Official) = Some official
                   /\ official.(Status_) = StatusDeleted)
               \/ (exists change,
                      @None StatusChangeRequest = Some change
                      /\ change.(NewStatus) = StatusDeleted)).
Proof.
  intros name req run.
  assert (Hin : In (EvValidateUpdateRequest req true None) (snd run)).
  { vm_compute. right. left. reflexivity. }
  split; [exact Hin|].
  exact (@edit_skips_registry_validation_iff_deleted name "1.0.0" req None
           (snd run) (fst (fst run)) req true None
           (exec_is_run (memstore.handle acceptAll)
              (service.updateServerInTransaction name "1.0.0" req None)
              storeDeleted)
           Hin).
Defined.

(** Editing 1.0.0 and deprecating it in the same call: two writes. *)
Lemma edit_writes_in_order_witness :
  let name := "io.github.u/s" in
  let req := sampleServer name "1.0.0" "https://u2.example/mcp" in
  let change := mkStatusChangeRequest StatusDeprecated (Some "old") in
  let run :=
    exec (memstore.handle acceptAll)
      (service.updateServerInTransaction name "1.0.0" req (Some change))
      storeV1 in
  List.length (filter isWrite (snd run)) = 2%nat
  /\ (forall e,
         In e (snd run) -> isWrite e = true ->
         ((exists ans, e = EvUpdateServer name "1.0.0" req ans)
          \/ (exists change' ans updated,
                 Some change = Some change'
                 /\ e = EvSetServerStatus name "1.0.0" change'.(NewStatus)
                          change'.(ChangeStatusMessage) ans
                 /\ In (EvUpdateServer name "1.0.0" req (updated, None))
                      (snd run)))
         /\ In (EvAcquirePublishLock name None) (snd run)
         /\ Forall (listsOnly req.(Name)) (snd run))
  /\ (forall row,
         fst (fst run) = Some (row, None) ->
         exists pre,
           snd run
           = (pre ++ [EvSetServerStatus name "1.0.0" change.(NewStatus)
                        change.(ChangeStatusMessage) (row, None)])%list).
Proof.
  intros name req change run. split; [reflexivity|].
  exact (@edit_writes_in_order name "1.0.0" req (Some change) (snd run)
           (fst (fst run))
           (exec_is_run (memstore.handle acceptAll)
              (service.updateServerInTransaction name "1.0.0" req (Some change))
              storeV1)).
Defined.

(** Editing the deleted version whose URL [io.github.w/t] has taken. *)
Lemma edit_url_conflict_aborts_witness :
  let name := "io.github.u/s" in
  let req := sampleServer name "1.0.0" "https://u.example/mcp" in
  let run :=
    exec (memstore.handle acceptAll)
      (service.updateServerInTransaction name "1.0.0" req None) storeStolen in
  (exists url' other' e',
      In e' (snd run) /\ listsConflict req.(Name) url' other' e'
      /\ In url' (map URL req.(Remotes))
      /\ fst (fst run) = Some (None, Some (service.errRemoteURLInUse url' other')))
  /\ Forall (fun e' => isWrite e' = false) (snd run).
Proof.
  intros name req run.
  apply (@edit_url_conflict_aborts name "1.0.0" req None (snd run)
           (fst (fst run)) "https://u.example/mcp" "io.github.w/t"
           (nth 3 (snd run) (EvTimeNow 0))
           (exec_is_run (memstore.handle acceptAll)
              (service.updateServerInTransaction name "1.0.0" req None)
              storeStolen)).
  - vm_compute. do 3 right. left. reflexivity.
  - eexists _, _, _. split; [vm_compute; reflexivity|].
    split; [left; reflexivity|]. split; [reflexivity | discriminate].
Defined.

(** Deprecating an active version: no listing is made. *)
Lemma status_change_lists_only_to_restore_witness :
  let name := "io.github.u/s" in
  let change := mkStatusChangeRequest StatusDeprecated (Some "old") in
  let run :=
    exec (memstore.handle acceptAll)
      (service.updateServerStatusInTransaction name "1.0.0" change) storeV1 in
  List.length (snd run) = 3%nat
  /\ forall f c l ans, ~ In (EvListServers f c l ans) (snd run).
Proof.
  intros name change run. split; [reflexivity|].
  apply (@status_change_lists_only_to_restore name "1.0.0" change (snd run)
           (fst (fst run))
           (exec_is_run (memstore.handle acceptAll)
              (service.updateServerStatusInTransaction name "1.0.0" change)
              storeV1)).
  left. discriminate.
Defined.

(** Deprecating an active version: the third call is the one write. *)
Lemma status_change_single_write_witness :
  let name := "io.github.u/s" in
  let change := mkStatusChangeRequest StatusDeprecated (Some "old") in
  let run :=
    exec (memstore.handle acceptAll)
      (service.updateServerStatusInTransaction name "1.0.0" change) storeV1 in
  let e := nth 2 (snd run) (EvTimeNow 0) in
  exists ans pre currentServer,
    e = EvSetServerStatus name "1.0.0" StatusDeprecated (Some "old") ans
    /\ snd run = (pre ++ [e])%list
    /\ Forall (fun e' => isWrite e' = false) pre
    /\ fst (fst run) = Some ans
    /\ In (EvGetServerByNameAndVersion name "1.0.0" true (currentServer, None))
         pre
    /\ In (EvAcquirePublishLock name None) pre.
Proof.
  intros name change run e.
  apply (@status_change_single_write name "1.0.0" change (snd run)
           (fst (fst run)) e
           (exec_is_run (memstore.handle acceptAll)
              (service.updateServerStatusInTransaction name "1.0.0" change)
              storeV1)).
  - vm_compute. do 2 right. left. reflexivity.
  - reflexivity.
Defined.

(** Deleting both versions of a server: the lock and one write. *)
Lemma bulk_change_without_restore_witness :
  let name := "io.github.u/s" in
  let change := mkStatusChangeRequest StatusDeleted None in
  let run :=
    exec (memstore.handle acceptAll)
      (service.updateAllVersionsStatusInTransaction name change)
      storeTwoActive in
  List.length (snd run) = 2%nat
  /\ ((exists e,
          snd run = [EvAcquirePublishLock name (Some e)]
          /\ fst (fst run) = Some ([], Some e))
      \/ (exists ans,
             snd run = [EvAcquirePublishLock name None;
                        EvSetAllVersionsStatus name StatusDeleted None ans]
             /\ fst (fst run) = Some ans)).
Proof.
  intros name change run. split; [reflexivity|].
  apply (@bulk_change_without_restore name change (snd run) (fst (fst run))
           (exec_is_run (memstore.handle acceptAll)
              (service.updateAllVersionsStatusInTransaction name change)
              storeTwoActive)).
  discriminate.
Defined.

(** Restoring a server with one deleted and one active version, and one
    with two active versions. *)
Lemma bulk_restore_checks_deleted_only_witness :
  let name := "io.github.u/s" in
  let change := mkStatusChangeRequest StatusActive None in
  let versionsOf store :=
    fst (fst (memstore.ListServers (service.allVersionsFilter name) "" 1000
                store)) in
  let mixed :=
    exec (memstore.handle acceptAll)
      (service.updateAllVersionsStatusInTransaction name change) storeDeleted in
  let active :=
    exec (memstore.handle acceptAll)
      (service.updateAllVersionsStatusInTransaction name change)
      storeTwoActive in
  (forall url ans,
      In (EvListServers (service.remoteURLFilter url) "" 1000 ans) (snd mixed) ->
      exists version official,
        In version (versionsOf storeDeleted)
        /\ version.(Meta).(Official) = Some official
        /\ official.(Status_) = StatusDeleted
        /\ In url (map URL version.(Server).(Remotes)))
  /\ (exists ans,
         snd active
         = [EvAcquirePublishLock name None;
            EvListServers (service.allVersionsFilter name) "" 1000
              (versionsOf storeTwoActive, "", None);
            EvSetAllVersionsStatus name StatusActive None ans]
         /\ fst (fst active) = Some ans).
Proof.
  intros name change versionsOf mixed active. split.
  - apply (proj1
             (@bulk_restore_checks_deleted_only name change (snd mixed)
                (fst (fst mixed)) (versionsOf storeDeleted) ""
                (exec_is_run (memstore.handle acceptAll)
                   (service.updateAllVersionsStatusInTransaction name change)
                   storeDeleted)
                ltac:(vm_compute; right; left; reflexivity))).
  - apply (proj2
             (@bulk_restore_checks_deleted_only name change (snd active)
                (fst (fst active)) (versionsOf storeTwoActive) ""
                (exec_is_run (memstore.handle acceptAll)
                   (service.updateAllVersionsStatusInTransaction name change)
                   storeTwoActive)
                ltac:(vm_compute; right; left; reflexivity))).
    intros version official Hin Hmeta.
    vm_compute in Hin. destruct Hin as [<- | [<- | []]];
      injection Hmeta as <-; discriminate.
Defined.

(** Restoring while the listings fail. *)
Lemma bulk_restore_listing_failure_wrapped_witness :
  let name := "io.github.u/s" in
  let change := mkStatusChangeRequest StatusActive None in
  let run :=
    exec (faulty (listingFails (ErrStore Internal)) (memstore.handle acceptAll))
      (service.updateAllVersionsStatusInTransaction name change) storeDeleted in
  snd run
  = [EvAcquirePublishLock name None;
     EvListServers (service.allVersionsFilter name) "" 1000
       ([], "", Some (ErrStore Internal))]
  /\ fst (fst run)
     = Some ([], Some (Wrapf "failed to list server versions: "
                         (ErrStore Internal))).
Proof.
  intros name change run.
  apply (@bulk_restore_listing_failure_wrapped name change (snd run)
           (fst (fst run)) [] "" (ErrStore Internal)
           (exec_is_run
              (faulty (listingFails (ErrStore Internal))
                 (memstore.handle acceptAll))
              (service.updateAllVersionsStatusInTransaction name change)
              storeDeleted)).
  vm_compute. right. left. reflexivity.
Defined.


(** The four workflows against a store that refuses every lock. *)
Lemma refused_lock_ends_workflow_witness :
  let name := "io.github.u/s" in
  let busy := Errorf "could not obtain lock" in
  let refusing := faulty (lockRefused busy) (memstore.handle acceptAll) in
  let req := sampleServer name "1.1.0" "https://u.example/mcp" in
  let change := mkStatusChangeRequest StatusDeprecated None in
  fst (fst (exec refusing
              (service.createServerInTransaction lexicalCompareVersions req)
              storeV1))
  = Some (None, Some busy)
  /\ fst (fst (exec refusing
                 (service.updateServerInTransaction name "1.0.0" req None)
                 storeV1))
     = Some (None, Some busy)
  /\ fst (fst (exec refusing
                 (service.updateServerStatusInTransaction name "1.0.0" change)
                 storeV1))
     = Some (None, Some busy)
  /\ snd (exec refusing
            (service.updateAllVersionsStatusInTransaction name change) storeV1)
     = [EvAcquirePublishLock name (Some busy)].
Proof.
  intros name busy refusing req change.
  destruct (refused_lock_ends_workflow lexicalCompareVersions name busy)
    as (Hpublish & Hedit & Hstatus & Hbulk).
  split; [|split; [|split]].
  - apply (@Hpublish req _ _
             (exec_is_run refusing
                (service.createServerInTransaction lexicalCompareVersions req)
                storeV1)).
    vm_compute. do 2 right. left. reflexivity.
  - apply (@Hedit name "1.0.0" req None _ _
             (exec_is_run refusing
                (service.updateServerInTransaction name "1.0.0" req None)
                storeV1)).
    vm_compute. do 2 right. left. reflexivity.
  - apply (@Hstatus name "1.0.0" change _ _
             (exec_is_run refusing
                (service.updateServerStatusInTransaction name "1.0.0" change)
                storeV1)).
    vm_compute. right. left. reflexivity.
  - apply (@Hbulk name change _ _
             (exec_is_run refusing
                (service.updateAllVersionsStatusInTransaction name change)
                storeV1)).
    vm_compute. left. reflexivity.
Defined.

(** A bulk request with an illegal status against two versions. *)
Lemma bulk_masks_request_errors_witness :
  let versions :=
    [sampleResponse StatusActive None; sampleResponse StatusDeprecated None] in
  validateBulkStatusTransition [] "archived" (mkBody "archived" None) = None
  /\ validateBulkStatusTransition versions "archived" (mkBody "archived" None)
     = Some (Error400BadRequest
               "No changes to apply: all versions already have the requested status and message").
Proof.
  intros versions.
  destruct (@bulk_masks_request_errors versions "archived"
              (mkBody "archived" None)) as [Hempty Hmasked].
  split; [exact Hempty|].
  apply Hmasked; [discriminate | left; reflexivity].
Defined.

(** A deprecation with a message, accepted against an active version. *)
Lemma built_request_matches_validated_body_witness :
  let body := mkBody StatusDeprecated (Some "old") in
  (buildStatusChangeRequestFromBody body).(ChangeStatusMessage) = Some "old".
Proof.
  intros body.
  apply (proj2 (proj2 (@built_request_matches_validated_body
                         (sampleResponse StatusActive None) body))).
  reflexivity.
Defined.

(** A prefix in another case, and a header that is too short. *)
Lemma bearer_token_round_trip_witness :
  bearerToken ("bEARER " ++ "publisher-token") = Some "publisher-token"
  /\ (exists prefix,
         "Bearer publisher-token" = prefix ++ "publisher-token"
         /\ String.length prefix = 7%nat
         /\ EqualFold prefix bearerPrefix = true)
  /\ bearerToken "Bear" = None.
Proof.
  destruct bearer_token_round_trip as (Hmake & Hread & Hshort).
  split; [|split].
  - apply Hmake; reflexivity.
  - apply Hread. reflexivity.
  - apply Hshort. simpl. lia.
Defined.

(** A header without the prefix, and one with it. *)
Lemma handlers_check_header_first_witness :
  let env := registryOver (memstore.handle acceptAll) storeV1 in
  let malformed :=
    serve env
      (updateServerStatusHandler
         (sampleStatusInput "Token publisher-token" "io.github.u%2Fs" "1.0.0"
            StatusDeprecated None)) in
  let wellFormed :=
    serve env
      (updateAllVersionsStatusHandler
         (sampleAllVersionsInput "Bearer publisher-token" "io.github.u%2Fs"
            StatusDeprecated None)) in
  (snd malformed = []
   /\ fst malformed = Some (None, Some invalidAuthorizationHeader))
  /\ exists ans rest,
       snd wellFormed = HvValidateToken "publisher-token" ans :: rest.
Proof.
  intros env malformed wellFormed.
  destruct handlers_check_header_first as [Hone Hall].
  split.
  - exact (Hone _ _ _
             (@serve_serves _ env
                (updateServerStatusHandler
                   (sampleStatusInput "Token publisher-token" "io.github.u%2Fs"
                      "1.0.0" StatusDeprecated None)))).
  - exact (Hall _ _ _
             (@serve_serves _ env
                (updateAllVersionsStatusHandler
                   (sampleAllVersionsInput "Bearer publisher-token"
                      "io.github.u%2Fs" StatusDeprecated None)))).
Defined.

(** A publisher deprecates version 1.0.0 of its server. *)
Lemma status_update_only_when_authorized_witness :
  let env := registryOver (memstore.handle acceptAll) storeV1 in
  let input :=
    sampleStatusInput "Bearer publisher-token" "io.github.u%2Fs" "1.0.0"
      StatusDeprecated (Some "old") in
  let statusChange := mkStatusChangeRequest StatusDeprecated (Some "old") in
  let ans := env _ (v0.UpdateServerStatus "io.github.u/s" "1.0.0" statusChange) in
  let run := serve env (updateServerStatusHandler input) in
  exists token claims currentServer pre,
    snd run
    = (pre ++ [HvUpdateServerStatus "io.github.u/s" "1.0.0" statusChange ans])%list
    /\ bearerToken input.(Authorization) = Some token
    /\ In (HvValidateToken token (Some claims, None)) pre
    /\ In (HvPathUnescape input.(InputServerName) ("io.github.u/s", None)) pre
    /\ In (HvPathUnescape input.(InputVersion) ("1.0.0", None)) pre
    /\ In (HvGetServerByNameAndVersion "io.github.u/s" "1.0.0" true
             (Some currentServer, None)) pre
    /\ (exists action,
           In (HvHasPermission currentServer.(Server).(Name) action
                 claims.(Permissions) true) pre)
    /\ validateStatusTransition currentServer input.(Body).(BodyStatus)
         input.(Body) = None
    /\ statusChange
       = mkStatusChangeRequest input.(Body).(BodyStatus)
           input.(Body).(BodyStatusMessage).
Proof.
  intros env input statusChange ans run.
  apply (@status_update_only_when_authorized input (snd run) (fst run)
           "io.github.u/s" "1.0.0" statusChange ans
           (@serve_serves _ env (updateServerStatusHandler input))).
  vm_compute. do 6 right. left. reflexivity.
Defined.

(** An unknown token, a name that does not decode, a version that does not
    exist and an update the store refuses. *)
Lemma status_handler_error_mapping_witness :
  let env := registryOver (memstore.handle acceptAll) storeV1 in
  let busy := Errorf "could not obtain lock" in
  let refusing :=
    registryOver (faulty (lockRefused busy) (memstore.handle acceptAll))
      storeV1 in
  let reply env authorization name version :=
    fst (serve env
           (updateServerStatusHandler
              (sampleStatusInput authorization name version StatusDeprecated
                 None))) in
  reply env "Bearer stranger" "io.github.u%2Fs" "1.0.0"
  = Some (None, Some (HumaError 401 "Invalid or expired Registry JWT token"
                        [Errorf "token is not valid"]))
  /\ reply env "Bearer publisher-token" "io.github.u%2s" "1.0.0"
     = Some (None, Some (HumaError 400 "Invalid server name encoding"
                           [Errorf "invalid URL escape"]))
  /\ reply env "Bearer publisher-token" "io.github.u%2Fs" "9.9.9"
     = Some (None, Some (HumaError 404 "Server version not found" []))
  /\ reply refusing "Bearer publisher-token" "io.github.u%2Fs" "1.0.0"
     = Some (None, Some (HumaError 400 "Failed to update server status" [busy])).
Proof.
  intros env busy refusing reply.
  split; [|split; [|split]].
  - apply (proj1 (@status_handler_error_mapping _ _ _
                    (@serve_serves _ env
                       (updateServerStatusHandler
                          (sampleStatusInput "Bearer stranger" "io.github.u%2Fs"
                             "1.0.0" StatusDeprecated None))))
             "stranger" None (Errorf "token is not valid")).
    vm_compute. left. reflexivity.
  - assert (Hbad : In (HvPathUnescape "io.github.u%2s"
                         ("", Some (Errorf "invalid URL escape")))
                     (snd (serve env
                             (updateServerStatusHandler
                                (sampleStatusInput "Bearer publisher-token"
                                   "io.github.u%2s" "1.0.0" StatusDeprecated
                                   None))))).
    { vm_compute. right. left. reflexivity. }
    destruct (proj1 (proj2 (@status_handler_error_mapping _ _ _
                              (@serve_serves _ env
                                 (updateServerStatusHandler
                                    (sampleStatusInput "Bearer publisher-token"
                                       "io.github.u%2s" "1.0.0"
                                       StatusDeprecated None)))))
                _ _ _ Hbad) as [Hname | Hversion].
    + exact Hname.
    + vm_compute in Hversion. discriminate Hversion.
  - apply (proj1 (proj2 (proj2 (@status_handler_error_mapping _ _ _
                    (@serve_serves _ env
                       (updateServerStatusHandler
                          (sampleStatusInput "Bearer publisher-token"
                             "io.github.u%2Fs" "9.9.9" StatusDeprecated
                             None))))))
             "io.github.u/s" "9.9.9" None ErrNotFound).
    vm_compute. do 3 right. left. reflexivity.
  - apply (proj1 (proj2 (proj2 (proj2 (@status_handler_error_mapping _ _ _
                    (@serve_serves _ refusing
                       (updateServerStatusHandler
                          (sampleStatusInput "Bearer publisher-token"
                             "io.github.u%2Fs" "1.0.0" StatusDeprecated
                             None)))))))
             "io.github.u/s" "1.0.0"
             (mkStatusChangeRequest StatusDeprecated None) None busy).
    vm_compute. do 6 right. left. reflexivity.
Defined.

(** A publisher deprecates both versions of its server. *)
Lemma all_versions_update_only_when_authorized_witness :
  let env := registryOver (memstore.handle acceptAll) storeTwoActive in
  let input :=
    sampleAllVersionsInput "Bearer publisher-token" "io.github.u%2Fs"
      StatusDeprecated (Some "old") in
  let statusChange := mkStatusChangeRequest StatusDeprecated (Some "old") in
  let ans := env _ (v0.UpdateAllVersionsStatus "io.github.u/s" statusChange) in
  let run := serve env (updateAllVersionsStatusHandler input) in
  (exists token claims currentServer allVersions pre,
      snd run
      = (pre ++ [HvUpdateAllVersionsStatus "io.github.u/s" statusChange ans])%list
      /\ bearerToken input.(AllAuthorization) = Some token
      /\ In (HvValidateToken token (Some claims, None)) pre
      /\ In (HvPathUnescape input.(AllServerName) ("io.github.u/s", None)) pre
      /\ In (HvGetServerByName "io.github.u/s" true (Some currentServer, None))
           pre
      /\ (exists action,
             In (HvHasPermission currentServer.(Server).(Name) action
                   claims.(Permissions) true) pre)
      /\ In (HvGetAllVersionsByServerName "io.github.u/s" true
               (allVersions, None)) pre
      /\ validateBulkStatusTransition allVersions
           input.(AllBody).(BodyStatus) input.(AllBody) = None
      /\ statusChange = buildStatusChangeRequestFromBody input.(AllBody))
  /\ exists response serverName statusChange' rows,
       fst run = Some (Some response, None)
       /\ In (HvUpdateAllVersionsStatus serverName statusChange' (rows, None))
            (snd run)
       /\ response.(Servers) = rows
       /\ response.(UpdatedCount) = 2.
Proof.
  intros env input statusChange ans run.
  destruct (@all_versions_update_only_when_authorized input (snd run) (fst run)
              (@serve_serves _ env (updateAllVersionsStatusHandler input)))
    as [Hcall Hreply].
  split.
  - apply Hcall. vm_compute. do 6 right. left. reflexivity.
  - eexists.
    assert (Hok : fst run = Some (Some _, None)) by (vm_compute; reflexivity).
    destruct (Hreply _ Hok) as (serverName & statusChange' & rows & Hin & Hrows & Hcount).
    exists serverName, statusChange', rows.
    split; [exact Hok|]. split; [exact Hin|]. split; [exact Hrows|].
    rewrite Hcount, <- Hrows. reflexivity.
Defined.

(** A visitor without permissions asks for either change. *)
Lemma handlers_forbid_without_permission_witness :
  let env := registryOver (memstore.handle acceptAll) storeV1 in
  let forbidden :=
    HumaError 403 "You do not have publish or edit permissions for this server"
      [] in
  let one :=
    serve env
      (updateServerStatusHandler
         (sampleStatusInput "Bearer visitor-token" "io.github.u%2Fs" "1.0.0"
            StatusDeleted None)) in
  let all :=
    serve env
      (updateAllVersionsStatusHandler
         (sampleAllVersionsInput "Bearer visitor-token" "io.github.u%2Fs"
            StatusDeleted None)) in
  (fst one = Some (None, Some forbidden)
   /\ forall n v sc ans, ~ In (HvUpdateServerStatus n v sc ans) (snd one))
  /\ (fst all = Some (None, Some forbidden)
      /\ forall n sc ans, ~ In (HvUpdateAllVersionsStatus n sc ans) (snd all)).
Proof.
  intros env forbidden one all.
  destruct handlers_forbid_without_permission as [Hone Hall].
  split.
  - destruct (Hone _ _ _ (@serve_serves _ env
                 (updateServerStatusHandler
                    (sampleStatusInput "Bearer visitor-token" "io.github.u%2Fs"
                       "1.0.0" StatusDeleted None)))) as [Hiff Hquiet].
    assert (Hrefused :
              exists resource permissions,
                In (HvHasPermission resource PermissionActionPublish permissions
                      false) (snd one)
                /\ In (HvHasPermission resource PermissionActionEdit permissions
                         false) (snd one)).
    { exists "io.github.u/s", []. split; vm_compute.
      - do 4 right. left. reflexivity.
      - do 5 right. left. reflexivity. }
    split.
    + apply Hiff. exact Hrefused.
    + intros n v sc ans Hin.
      exact (proj1 (Hquiet Hrefused _ Hin) n v sc ans eq_refl).
  - destruct (Hall _ _ _ (@serve_serves _ env
                 (updateAllVersionsStatusHandler
                    (sampleAllVersionsInput "Bearer visitor-token"
                       "io.github.u%2Fs" StatusDeleted None)))) as [Hiff Hquiet].
    assert (Hrefused :
              exists resource permissions,
                In (HvHasPermission resource PermissionActionPublish permissions
                      false) (snd all)
                /\ In (HvHasPermission resource PermissionActionEdit permissions
                         false) (snd all)).
    { exists "io.github.u/s", []. split; vm_compute.
      - do 3 right. left. reflexivity.
      - do 4 right. left. reflexivity. }
    split.
    + apply Hiff. exact Hrefused.
    + intros n sc ans Hin.
      exact (proj2 (Hquiet Hrefused _ Hin) n sc ans eq_refl).
Defined.
